(** * Chromium build helpers: the landmine guard, the DEPS scraper and
    the results options

    A shallow embedding of [build/landmines.py], of
    [tools/findit/chromium_deps.py] and of
    [tools/telemetry/telemetry/results/results_options.py], with the
    properties of their specification, and further properties of the code,
    stated and proved over the embedding.

    Conventions
    - A Python 2 [str] is a [string] (a sequence of bytes).
    - An absolute POSIX path is the list of its components below the root;
      [os.path.join], [os.path.normpath] and [os.path.abspath] are the
      lexical operations of [posixpath] on that representation.
    - The file system is a finite map from paths to nodes, with the set of
      paths on which the operating system refuses a change.
    - Python code that raises and mutates is a function from the world to an
      outcome and the world it leaves behind. *)

From Stdlib Require Import Ascii String.
From stdpp Require Import base decidable option list sets gmap fin_maps strings.

Local Open Scope string_scope.
Local Open Scope list_scope.

(** ** Python strings *)

Module PyStr.

Definition LF : ascii := "010"%char.
Definition CR : ascii := "013"%char.

(** ["\n"] *)
Definition nl : string := String LF "".

(** [c in s] for a one-character [c]. *)
Fixpoint has_char (c : ascii) (s : string) : bool :=
  match s with
  | "" => false
  | String d s' => if decide (d = c) then true else has_char c s'
  end.

(** [s.split(sep)] for a one-character separator: never empty, one more
    piece than there are separators. *)
Fixpoint split (sep : ascii) (s : string) : list string :=
  match s with
  | "" => [""]
  | String c s' =>
      if decide (c = sep) then "" :: split sep s'
      else match split sep s' with
           | h :: t => String c h :: t
           | [] => [String c ""]
           end
  end.

(** [sep.join(l)] *)
Fixpoint join (sep : string) (l : list string) : string :=
  match l with
  | [] => ""
  | [x] => x
  | x :: l' => x +:+ sep +:+ join sep l'
  end.

(** [f.writelines(l)] writes the strings one after the other, adding
    nothing between them. *)
Definition concat_lines (l : list string) : string := foldr String.append "" l.

(** [s.startswith(p)] *)
Fixpoint startswith (p s : string) : bool :=
  match p, s with
  | "", _ => true
  | String a p', String b s' => if decide (a = b) then startswith p' s' else false
  | String _ _, "" => false
  end.

(** [s[n:]] *)
Fixpoint drop (n : nat) (s : string) : string :=
  match n, s with
  | O, _ => s
  | S n', String _ s' => drop n' s'
  | S _, "" => ""
  end.

(** [s.endswith(p)] *)
Definition endswith (p s : string) : bool :=
  bool_decide (drop (String.length s - String.length p) s = p).

(** [s.lower()] on bytes: only [A]..[Z] change. *)
Definition lower_char (c : ascii) : ascii :=
  let n := nat_of_ascii c in
  if bool_decide (65 ≤ n ≤ 90)%nat then ascii_of_nat (n + 32) else c.

Fixpoint lower (s : string) : string :=
  match s with
  | "" => ""
  | String c s' => String (lower_char c) (lower s')
  end.

(** The bytes [str.strip()] removes: space, tab, line feed, carriage return,
    vertical tab, form feed. *)
Definition is_space (c : ascii) : bool :=
  let n := nat_of_ascii c in
  bool_decide (n = 32%nat) || bool_decide (9 ≤ n ≤ 13)%nat.

Fixpoint lstrip (s : string) : string :=
  match s with
  | "" => ""
  | String c s' => if is_space c then lstrip s' else s
  end.

Fixpoint rstrip (s : string) : string :=
  match s with
  | "" => ""
  | String c s' =>
      match rstrip s' with
      | "" => if is_space c then "" else String c ""
      | r => String c r
      end
  end.

(** [s.strip()] *)
Definition strip (s : string) : string := rstrip (lstrip s).

(** [s.splitlines()] of a byte string: the line boundaries are ["\n"],
    ["\r"] and ["\r\n"]; the boundaries are dropped and a final boundary
    opens no empty line. *)
Fixpoint splitlines_aux (acc : string) (pending : bool) (s : string) : list string :=
  match s with
  | "" => if pending then [acc] else []
  | String c s' =>
      if decide (c = LF) then acc :: splitlines_aux "" false s'
      else if decide (c = CR) then
        match s' with
        | String d s'' =>
            if decide (d = LF) then acc :: splitlines_aux "" false s''
            else acc :: splitlines_aux "" false s'
        | "" => [acc]
        end
      else splitlines_aux (acc +:+ String c "") true s'
  end.

Definition splitlines (s : string) : list string := splitlines_aux "" false s.

(** [f.readlines()] of a file opened with mode ['r']: the content cut after
    each ["\n"], which stays at the end of its line; a last line without
    ["\n"] is kept when it is not empty. *)
Fixpoint readlines_aux (acc : string) (s : string) : list string :=
  match s with
  | "" => if decide (acc = "") then [] else [acc]
  | String c s' =>
      if decide (c = LF) then (acc +:+ nl) :: readlines_aux "" s'
      else readlines_aux (acc +:+ String c "") s'
  end.

Definition readlines (s : string) : list string := readlines_aux "" s.

(** A line as it is meant to stand in a marker file: some text free of line
    feeds, then one line feed. *)
Definition landmine_line (l : string) : Prop :=
  ∃ s, l = s +:+ nl ∧ has_char LF s = false.

End PyStr.

(** ** POSIX paths and a file system *)

Module Posix.
Import PyStr.

(** The components of an absolute path, outermost first; [[]] is the root.
    Before normalisation a path may hold [""], ["."] and [".."]. *)
Abbreviation path := (list string).

(** [os.path.join(a, b)]: an absolute [b] replaces [a]. *)
Definition os_path_join (a : path) (b : string) : path :=
  if startswith "/" b then split "/" b else a ++ split "/" b.

Definition norm_step (stack : list string) (comp : string) : list string :=
  if decide (comp = "" ∨ comp = ".") then stack
  else if decide (comp = "..") then tail stack
  else comp :: stack.

(** [os.path.normpath(p)]: empty and ["."] components go, [".."] removes the
    component before it and is dropped at the root. *)
Definition os_path_normpath (p : path) : path := rev (fold_left norm_step p []).

(** [os.path.abspath(p)] of a path that is absolute already. *)
Definition os_path_abspath (p : path) : path := os_path_normpath p.

(** A component that names an entry: not empty, not ["."], not [".."]. *)
Definition plain_component (c : string) : Prop := c ≠ "" ∧ c ≠ "." ∧ c ≠ "..".

(** [os.path.dirname] of a normalised path; the root is its own parent. *)
Definition parent (p : path) : path := removelast p.

Inductive errno := EEXIST | ENOENT | ENOTDIR | EISDIR | EACCES.

#[global] Instance errno_eq_dec : EqDecision errno.
Proof. solve_decision. Defined.

Inductive node := Dir | File (content : string).

#[global] Instance node_eq_dec : EqDecision node.
Proof. solve_decision. Defined.

(** [locked] holds the existing paths the operating system protects: a
    locked directory takes no new entry, a locked file is not rewritten, a
    locked entry is not removed. *)
Record filesystem := Filesystem {
  nodes : gmap path node;
  locked : gset path
}.

(** [os.path.exists(p)] *)
Definition fs_exists (p : path) (f : filesystem) : bool :=
  bool_decide (is_Some (nodes f !! p)).

(** [os.mkdir(p)] *)
Definition fs_mkdir (p : path) (f : filesystem) : option errno * filesystem :=
  match nodes f !! p with
  | Some _ => (Some EEXIST, f)
  | None =>
      match nodes f !! parent p with
      | None => (Some ENOENT, f)
      | Some (File _) => (Some ENOTDIR, f)
      | Some Dir =>
          if decide (parent p ∈ locked f) then (Some EACCES, f)
          else (None, Filesystem (<[p := Dir]> (nodes f)) (locked f ∖ {[p]}))
      end
  end.

(** [os.makedirs(p)], on the reversed path [rp]: the parent is made first
    when it is missing, with the same call, whose "already exists" is
    ignored; then the leaf is made with [os.mkdir]. *)
Fixpoint fs_makedirs_rev (rp : list string) (f : filesystem)
  : option errno * filesystem :=
  match rp with
  | [] => fs_mkdir [] f
  | _ :: rhead =>
      if fs_exists (rev rhead) f then fs_mkdir (rev rp) f
      else
        match fs_makedirs_rev rhead f with
        | (None, f') => fs_mkdir (rev rp) f'
        | (Some EEXIST, f') => fs_mkdir (rev rp) f'
        | (Some e, f') => (Some e, f')
        end
  end.

Definition fs_makedirs (p : path) (f : filesystem) : option errno * filesystem :=
  fs_makedirs_rev (rev p) f.

(** [open(p, 'r')] followed by [readlines()] *)
Definition fs_readlines (p : path) (f : filesystem) : errno + list string :=
  match nodes f !! p with
  | None => inl ENOENT
  | Some Dir => inl EISDIR
  | Some (File c) => inr (readlines c)
  end.

(** [open(p, 'w')] followed by [writelines(lines)]: the file is created or
    truncated, then holds the lines one after the other. *)
Definition fs_writelines (p : path) (lines : list string) (f : filesystem)
  : option errno * filesystem :=
  let written :=
    Filesystem (<[p := File (concat_lines lines)]> (nodes f)) (locked f ∖ {[p]}) in
  match nodes f !! p with
  | Some Dir => (Some EISDIR, f)
  | Some (File _) =>
      if decide (p ∈ locked f) then (Some EACCES, f) else (None, written)
  | None =>
      match nodes f !! parent p with
      | None => (Some ENOENT, f)
      | Some (File _) => (Some ENOTDIR, f)
      | Some Dir =>
          if decide (parent p ∈ locked f) then (Some EACCES, f) else (None, written)
      end
  end.

(** The locked entries that exist at or below [p]: they stop a recursive
    removal of [p]. *)
Definition blockers (p : path) (f : filesystem) : gset path :=
  filter (λ l, p `prefix_of` l ∧ is_Some (nodes f !! l)) (locked f).

(** [shutil.rmtree(p)]: everything at or below [p] goes. When some entry
    there is locked the call fails, after it has removed what it could: the
    locked entries and the directories that lead to them stay. *)
Definition fs_rmtree (p : path) (f : filesystem) : option errno * filesystem :=
  match nodes f !! p with
  | None => (Some ENOENT, f)
  | Some (File _) => (Some ENOTDIR, f)
  | Some Dir =>
      let b := blockers p f in
      if decide (b = ∅) then
        (None, Filesystem (filter (λ kv, ¬ p `prefix_of` kv.1) (nodes f))
                          (filter (λ l, ¬ p `prefix_of` l) (locked f)))
      else
        (Some EACCES,
         Filesystem (filter (λ kv, ¬ p `prefix_of` kv.1
                                   ∨ set_Exists (λ l, kv.1 `prefix_of` l) b) (nodes f))
                    (locked f))
  end.

(** What a call that only makes directories on the way to [p] may do to a
    file system: [f] before, [f'] after. *)
Definition grows_towards (p : path) (f f' : filesystem) : Prop :=
  (∀ k, nodes f' !! k = nodes f !! k
        ∨ (nodes f !! k = None ∧ nodes f' !! k = Some Dir ∧ k `prefix_of` p))
  ∧ locked f' ⊆ locked f.

End Posix.

(** ** Python computations: a world, exceptions, a trace of the calls *)

Module Py.
Import PyStr Posix.

Inductive exn :=
  | NotImplementedError (msg : string)
  | OSError (e : errno)
  | IOError (e : errno)
  | SystemExit (code : Z).

(** The calls a run makes to the operating system, each with its result
    ([None]: no error). [EvDiff old new] stands for the unified diff of the
    two sequences written to the standard output; its text and the dates in
    its header are not modelled. *)
Inductive event :=
  | EvMakedirs (p : path) (r : option errno)
  | EvExists (p : path) (b : bool)
  | EvReadlines (p : path) (r : errno + list string)
  | EvStdout (s : string)
  | EvDiff (old new : list string)
  | EvRmtree (p : path) (r : option errno)
  | EvWritelines (p : path) (lines : list string) (r : option errno)
  | EvLogging (debug : bool).

Record world := World {
  fs : filesystem;
  environ : gmap string string;
  trace : list event
}.

Inductive outcome (A : Type) :=
  | Return (a : A)
  | Raise (e : exn).
Arguments Return {A} a.
Arguments Raise {A} e.

Definition Py (A : Type) : Type := world → outcome A * world.

#[global] Instance Py_ret : MRet Py := λ A a w, (Return a, w).

#[global] Instance Py_bind : MBind Py := λ A B k m w,
  match m w with
  | (Return a, w') => k a w'
  | (Raise e, w') => (Raise e, w')
  end.

Definition raise {A} (e : exn) : Py A := λ w, (Raise e, w).

Definition emit (ev : event) : Py unit :=
  λ w, (Return tt, World (fs w) (environ w) (trace w ++ [ev])).

Definition get_environ : Py (gmap string string) := λ w, (Return (environ w), w).

(** [try: body / except OSError as e: handler(e)]; any other exception
    passes through. *)
Definition try_except_OSError {A} (body : Py A) (handler : errno → Py A) : Py A :=
  λ w, match body w with
       | (Raise (OSError e), w') => handler e w'
       | r => r
       end.

(** A call that changes the file system: the change is kept, the call is
    added to the trace, an error is raised with [mk]. *)
Definition fs_call (op : filesystem → option errno * filesystem)
    (ev : option errno → event) (mk : errno → exn) : Py unit :=
  λ w, let '(r, f') := op (fs w) in
       let w' := World f' (environ w) (trace w ++ [ev r]) in
       match r with
       | None => (Return tt, w')
       | Some e => (Raise (mk e), w')
       end.

Definition os_makedirs (p : path) : Py unit :=
  fs_call (fs_makedirs p) (EvMakedirs p) OSError.

Definition shutil_rmtree (p : path) : Py unit :=
  fs_call (fs_rmtree p) (EvRmtree p) OSError.

Definition open_w_writelines (p : path) (lines : list string) : Py unit :=
  fs_call (fs_writelines p lines) (EvWritelines p lines) IOError.

Definition os_path_exists (p : path) : Py bool :=
  λ w, let b := fs_exists p (fs w) in
       (Return b, World (fs w) (environ w) (trace w ++ [EvExists p b])).

Definition open_r_readlines (p : path) : Py (list string) :=
  λ w, let r := fs_readlines p (fs w) in
       let w' := World (fs w) (environ w) (trace w ++ [EvReadlines p r]) in
       match r with
       | inr l => (Return l, w')
       | inl e => (Raise (IOError e), w')
       end.

End Py.

(** ** build/landmines.py *)

Module Landmines.
Import PyStr Posix Py.

Record options := Options {
  landmine_scripts : list string;
  verbose : bool
}.

(** What [parser.parse_args()] of [optparse] does with the command line:
    it leaves the process (help, or a malformed option), or it gives the
    option values and the positional arguments. *)
Inductive parse_result :=
  | ParserExit (code : Z)
  | Parsed (o : options) (args : list string).

(** What the script takes from outside its own source. *)
Record host := Host {
  (** [os.path.dirname(os.path.dirname(os.path.realpath(__file__)))],
      normalised *)
  SRC_DIR : path;
  (** the value of [landmine_utils.builder()] *)
  builder : string;
  (** [optparse] on the command line of the process, from the defaults of
      [--landmine-scripts] and [--verbose] *)
  parse_args : list string → bool → parse_result;
  (** [gyp_environment.SetEnvironment()], as a change of [os.environ] *)
  SetEnvironment : gmap string string → gmap string string;
  (** the standard output of [python s] *)
  run_script : string → string
}.

(** The text of a path. *)
Definition path_str (p : path) : string := "/" +:+ join "/" p.

Section WithHost.
Context (h : host).

Definition get_build_dir (build_tool : string) (is_iphone : bool) : Py path :=
  env ← get_environ;
  ret ←
    (if decide (build_tool = "xcode") then
       mret (os_path_join (SRC_DIR h) "xcodebuild")
     else if decide (build_tool ∈ ["make"; "ninja"; "ninja-ios"]) then
       mret (os_path_join (SRC_DIR h) (default "out" (env !! "CHROMIUM_OUT_DIR")))
     else if decide (build_tool ∈ ["msvs"; "vs"; "ib"]) then
       mret (os_path_join (SRC_DIR h) "build")
     else
       raise (NotImplementedError
                ("Unexpected GYP_GENERATORS (" +:+ build_tool +:+ ")")));
  mret (os_path_abspath ret).

(** The path of the marker next to the output directory. *)
Definition landmines_path_of (out_dir : path) : path :=
  os_path_normpath (os_path_join (os_path_join out_dir "..") ".landmines").

Definition clobber_if_necessary (new_landmines : list string) : Py unit :=
  out_dir ← get_build_dir (builder h) false;
  let landmines_path := landmines_path_of out_dir in
  try_except_OSError (os_makedirs out_dir)
    (λ e, if decide (e = EEXIST) then mret tt else mret tt);;
  present ← os_path_exists landmines_path;
  (if (present : bool) then
     old_landmines ← open_r_readlines landmines_path;
     if decide ((old_landmines : list string) ≠ new_landmines) then
       emit (EvStdout ("Clobbering due to:" +:+ nl));;
       emit (EvDiff old_landmines new_landmines);;
       shutil_rmtree out_dir
     else mret tt
   else mret tt);;
  open_w_writelines landmines_path new_landmines.

Definition process_options : Py (list string) :=
  env ← get_environ;
  match parse_args h
          [path_str (os_path_join (os_path_join (SRC_DIR h) "build") "get_landmines.py")]
          (bool_decide (is_Some (env !! "LANDMINES_VERBOSE"))) with
  | ParserExit code => raise (SystemExit code)
  | Parsed opts args =>
      (if decide (args ≠ []) then raise (SystemExit 2) else mret tt);;
      emit (EvLogging (verbose opts));;
      match env !! "EXTRA_LANDMINES_SCRIPT" with
      | Some extra_script =>
          if decide (extra_script ≠ "")
          then mret (landmine_scripts opts ++ [extra_script])
          else mret (landmine_scripts opts)
      | None => mret (landmine_scripts opts)
      end
  end.

(** [['%s\n' % l.strip() for l in output.splitlines()]] *)
Definition lines_of_output (output : string) : list string :=
  map (λ l, strip l +:+ nl) (splitlines output).

Definition main : Py Z :=
  scripts ← process_options;
  if decide (builder h ∈ ["dump_dependency_json"; "eclipse"]) then mret 0%Z
  else
    (λ w, (Return tt, World (fs w) (SetEnvironment h (environ w)) (trace w)));;
    let landmines := concat (map (λ s, lines_of_output (run_script h s)) scripts) in
    clobber_if_necessary landmines;;
    mret 0%Z.

(** [sys.exit(main())]: the exit status of the process. *)
Definition exit_status (w : world) : Z * world :=
  match main w with
  | (Return code, w') => (code, w')
  | (Raise (SystemExit code), w') => (code, w')
  | (Raise _, w') => (1%Z, w')
  end.

End WithHost.

End Landmines.

(** ** tools/findit/chromium_deps.py *)

Module ChromiumDeps.
Import PyStr.

(** The exceptions the module can end with. *)
Inductive error :=
  | AttributeError
  | TypeError
  | ValueError
  | DownloadFailed
  | ExecFailed.

Inductive result (A : Type) :=
  | Ok (a : A)
  | Err (e : error).
Arguments Ok {A} a.
Arguments Err {A} e.

#[global] Instance result_ret : MRet result := λ A a, Ok a.

#[global] Instance result_bind : MBind result := λ A B k m,
  match m with
  | Ok a => k a
  | Err e => Err e
  end.

(** The entries of [deps_config.json] the module reads. *)
Record config := Config {
  git_base_url : string;
  git_deps_path : string;
  svn_base_url : string;
  svn_deps_path : string;
  svn_src_chromium_url : string;
  host_directories : list string
}.

(** A value of the [deps] dictionaries: a string, or Python's [None]. *)
Abbreviation depval := (option string).

(** The names a DEPS file leaves in [local_scope], with their values when
    it defines them. *)
Record scope := Scope {
  scope_deps : option (gmap string depval);
  scope_deps_os : option (gmap string (gmap string depval))
}.

(** What the module takes from outside its own source. *)
Record externals := Externals {
  CONFIG : config;
  (** [utils.IsGitHash] *)
  IsGitHash : string → bool;
  (** [base64.b64decode] *)
  b64decode : string → result string;
  (** [fmt % arg] for two strings *)
  str_mod : string → string → result string;
  (** [exec(content, global_scope, local_scope)]: the local scope a DEPS
      file leaves, [Var] being resolved while it runs *)
  exec_deps : string → result scope
}.

Record component := Component {
  path : string;
  name : string;
  repository : string;
  repository_type : string;
  revision : string
}.

(** [_VarImpl.Lookup], on the [vars] of the local scope when there are any *)
Definition Lookup (vars : option (gmap string string)) (var_name : string)
  : option string :=
  default ∅ vars !! var_name.

Definition components_renamed : gmap string string := {[ "webkit" := "blink" ]}.

Fixpoint _GetComponentName (path : string) (host_dirs : list string) : string :=
  match host_dirs with
  | host_dir :: host_dirs' =>
      if startswith host_dir path then
        let path := drop (String.length host_dir) path in
        let name := lower (hd "" (split "/" path)) in
        match components_renamed !! name with
        | Some renamed => lower renamed
        | None => lower name
        end
      else _GetComponentName path host_dirs'
  | [] => join "_" (split "/" path)
  end.

Section WithExternals.
Context (x : externals).

Definition _ParseDEPS (content : string)
  : result (gmap string depval * gmap string (gmap string depval)) :=
  local_scope ← exec_deps x content;
  mret (default ∅ (scope_deps local_scope), default ∅ (scope_deps_os local_scope)).

(** [repository, revision = value.split('@')] *)
Definition split_at (value : depval) : result (string * string) :=
  match value with
  | None => Err AttributeError
  | Some v =>
      match split "@" v with
      | [repository; revision] => Ok (repository, revision)
      | _ => Err ValueError
      end
  end.

(** One turn of the loop over [all_deps]: the components so far and the
    variable [is_git_hash], which the loop assigns. *)
Definition component_step (st : gmap string component * bool)
    (item : string * depval) : result (gmap string component * bool) :=
  let '(components, _) := st in
  let '(component_path, value) := item in
  let name := _GetComponentName component_path (host_directories (CONFIG x)) in
  '(repository, revision) ← split_at value;
  let is_git_hash := IsGitHash x revision in
  let repository :=
    if startswith "/" repository
    then svn_src_chromium_url (CONFIG x) +:+ repository else repository in
  let repository_type := if is_git_hash then "git" else "svn" in
  let component_path :=
    if negb (endswith "/" component_path)
    then component_path +:+ "/" else component_path in
  mret (<[component_path :=
           Component component_path name repository repository_type revision]>
          components,
        is_git_hash).

Fixpoint component_loop (items : list (string * depval))
    (st : gmap string component * bool) : result (gmap string component * bool) :=
  match items with
  | [] => Ok st
  | item :: items' => st' ← component_step st item; component_loop items' st'
  end.

(** [os_platform] is [None] for Python's [None]; a Python dictionary is
    walked in the order of [map_to_list]. *)
Definition GetChromiumComponents (chromium_revision : string)
    (os_platform : option string)
    (deps_file_downloader : string → result string)
  : result (gmap string component) :=
  os_platform ←
    match os_platform with
    | None => Err AttributeError
    | Some p => Ok (if decide (lower p = "linux") then "unix" else p)
    end;
  let is_git_hash := IsGitHash x chromium_revision in
  url ←
    (if is_git_hash
     then path ← str_mod x (git_deps_path (CONFIG x)) chromium_revision;
          mret (git_base_url (CONFIG x) +:+ path)
     else path ← str_mod x (svn_deps_path (CONFIG x)) chromium_revision;
          mret (svn_base_url (CONFIG x) +:+ path));
  deps_content ← deps_file_downloader url;
  deps_content ← (if is_git_hash then b64decode x deps_content else mret deps_content);
  '(deps, deps_os) ← _ParseDEPS deps_content;
  let all_deps : gmap string depval := default ∅ (deps_os !! os_platform) ∪ deps in
  '(components, is_git_hash) ← component_loop (map_to_list all_deps) (∅, is_git_hash);
  let '(repository, repository_type) :=
    if (is_git_hash : bool) then (git_base_url (CONFIG x), "git")
    else (svn_base_url (CONFIG x), "svn") in
  mret (<["src/" := Component "src/" "chromium" repository repository_type
                              chromium_revision]> components).

End WithExternals.

End ChromiumDeps.

(** ** Sample inputs *)

Module Samples.
Import PyStr Posix Py Landmines.

(** A checkout at [/b/src], built with ninja; no option on the command
    line; one landmine script, which prints one line. *)
Definition sample_host : host :=
  Host ["b"; "src"] "ninja" (λ scripts v, Parsed (Options scripts v) [])
       (λ env, env) (λ _, "gyp_generator:ninja" +:+ nl).

Definition out_dir : path := ["b"; "src"; "out"].
Definition marker : path := ["b"; "src"; ".landmines"].

Definition checkout : list (path * node) :=
  [([], Dir); (["b"], Dir); (["b"; "src"], Dir)].

Definition world_of (entries : list (path * node)) (protected : list path) : world :=
  World (Filesystem (list_to_map entries) (list_to_set protected)) ∅ [].

(** Nothing built yet: no output directory, no marker. *)
Definition world_fresh : world := world_of checkout [].

(** A build is there, made under the landmine [x]. *)
Definition world_built : world :=
  world_of (checkout ++ [(out_dir, Dir); (out_dir ++ ["obj"], Dir);
                         (out_dir ++ ["obj"; "a.o"], File "code");
                         (marker, File ("x" +:+ nl))]) [].

(** The same, with an object file that cannot be removed. *)
Definition world_busy : world :=
  world_of (checkout ++ [(out_dir, Dir); (out_dir ++ ["obj"], Dir);
                         (out_dir ++ ["obj"; "a.o"], File "code");
                         (marker, File ("x" +:+ nl))])
           [out_dir ++ ["obj"; "a.o"]].

(** A marker from an earlier build in a checkout that takes no new entry. *)
Definition world_readonly : world :=
  world_of (checkout ++ [(marker, File ("x" +:+ nl))]) [["b"; "src"]].

(** A marker that holds two landmines. *)
Definition world_two : world :=
  world_of (checkout ++ [(out_dir, Dir); (out_dir ++ ["gen"], File "g");
                         (marker, File ("a" +:+ nl +:+ "b" +:+ nl))]) [].

(** The same checkout when gyp only writes Eclipse settings. *)
Definition eclipse_host : host :=
  Host ["b"; "src"] "eclipse" (λ scripts v, Parsed (Options scripts v) [])
       (λ env, env) (λ _, "gyp_generator:ninja" +:+ nl).

(** A checkout where a regular file has the name of the output directory. *)
Definition world_file_at_out : world :=
  world_of (checkout ++ [(out_dir, File "not a directory");
                         (marker, File ("x" +:+ nl))]) [].

(** The guard called with one landmine [y] on the build made under [x]. *)
Definition run_changed : outcome () * world :=
  clobber_if_necessary sample_host ["y" +:+ nl] world_built.

(** The guard called with the landmine of the marker where a regular file
    has the name of the output directory. *)
Definition run_file_at_out : outcome () * world :=
  clobber_if_necessary sample_host ["x" +:+ nl] world_file_at_out.

(** The same call when an object file cannot be removed. *)
Definition run_busy : outcome () * world :=
  clobber_if_necessary sample_host ["y" +:+ nl] world_busy.

(** The guard called with no landmine before anything was built. *)
Definition run_fresh_empty : outcome () * world :=
  clobber_if_necessary sample_host [] world_fresh.

(** The guard called with the two landmines of the marker, swapped. *)
Definition run_swapped : outcome () * world :=
  clobber_if_necessary sample_host ["b" +:+ nl; "a" +:+ nl] world_two.

(** The guard called with the landmine of the marker in the checkout that
    takes no new entry. *)
Definition run_readonly : outcome () * world :=
  clobber_if_necessary sample_host ["x" +:+ nl] world_readonly.

(** The first call of [main]'s guard, with the lines of the sample script,
    before anything was built. *)
Definition first_lines : list string :=
  lines_of_output (run_script sample_host "get_landmines.py").

Definition run_first : outcome () * world :=
  clobber_if_necessary sample_host first_lines world_fresh.

(** A DEPS scraper whose helpers are as simple as can be: revisions of
    forty characters are git hashes, nothing is encoded, the format is
    followed by the argument, and every DEPS file defines the same
    dependencies. *)
Definition sample_externals : ChromiumDeps.externals :=
  ChromiumDeps.Externals
    (ChromiumDeps.Config "https://git/" "src/+/" "https://svn/" "DEPS?p="
                         "https://svn/chrome" ["src/third_party/"; "src/"])
    (λ r, bool_decide (String.length r = 40%nat))
    (λ c, ChromiumDeps.Ok c)
    (λ fmt arg, ChromiumDeps.Ok (fmt +:+ arg))
    (λ _, ChromiumDeps.Ok (ChromiumDeps.Scope
            (Some {[ "src/third_party/WebKit" := Some "/trunk/blink@1234";
                     "src/v8/" := Some "https://git/v8@77";
                     "src" := Some "shadowed@0" ]})
            (Some {[ "unix" := {[ "src/third_party/gold" := Some "/trunk/gold@5" ]};
                     "win" := {[ "src/third_party/cygwin" := Some "/trunk/cyg@6" ]} ]}))).

Definition sample_components : ChromiumDeps.result (gmap string ChromiumDeps.component) :=
  ChromiumDeps.GetChromiumComponents sample_externals "291560" (Some "Linux")
    (λ url, ChromiumDeps.Ok url).

End Samples.

(** ** Names for parts of [main] *)

Module LandminesRuns.
Import PyStr Posix Py Landmines.

(** What [process_options] adds to the scripts of the command line: the
    script named by [EXTRA_LANDMINES_SCRIPT], when that variable is set and
    not empty. *)
Definition extra_scripts (env : gmap string string) : list string :=
  match env !! "EXTRA_LANDMINES_SCRIPT" with
  | Some extra_script => if decide (extra_script ≠ "") then [extra_script] else []
  | None => []
  end.

(** The list [main] builds in its loop over the scripts. *)
Definition landmines_of (h : host) (scripts : list string) : list string :=
  concat (map (λ s, lines_of_output (run_script h s)) scripts).

(** The default of [--landmine-scripts]. *)
Definition default_scripts (h : host) : list string :=
  [path_str (os_path_join (os_path_join (SRC_DIR h) "build") "get_landmines.py")].

(** The answer of the option parser in the environment [env]. *)
Definition parsed (h : host) (env : gmap string string) : parse_result :=
  parse_args h (default_scripts h) (bool_decide (is_Some (env !! "LANDMINES_VERBOSE"))).


(** A command line with a stray positional argument. *)
Definition stray_host : host :=
  Host ["b"; "src"] "ninja" (λ scripts v, Parsed (Options scripts v) ["clean"])
       (λ env, env) (λ _, "gyp_generator:ninja" +:+ nl).

(** An extra script in the environment; the marker is a directory. *)
Definition world_marker_dir : world :=
  World (Filesystem (list_to_map [([], Dir); (["b"], Dir); (["b"; "src"], Dir);
                                  (["b"; "src"; ".landmines"], Dir)]) ∅)
        {[ "EXTRA_LANDMINES_SCRIPT" := "/b/extra.py" ]} [].

End LandminesRuns.

(** ** More of tools/findit/chromium_deps.py *)

Module ChromiumDepsRange.
Import PyStr ChromiumDeps.

(** The key of a component: the dependency's path, with a slash at the end
    (lines 135 and 136 of the source). *)
Definition with_slash (component_path : string) : string :=
  if negb (endswith "/" component_path) then component_path +:+ "/"
  else component_path.

Section WithExternals.
Context (x : externals).

(** The dictionary [all_deps] of [GetChromiumComponents]: what the function
    does up to its loop (lines 89 to 116 of the source). *)
Definition all_deps_of (chromium_revision : string) (os_platform : option string)
    (deps_file_downloader : string → result string)
  : result (gmap string depval) :=
  os_platform ←
    match os_platform with
    | None => Err AttributeError
    | Some p => Ok (if decide (lower p = "linux") then "unix" else p)
    end;
  let is_git_hash := IsGitHash x chromium_revision in
  url ←
    (if is_git_hash
     then path ← str_mod x (git_deps_path (CONFIG x)) chromium_revision;
          mret (git_base_url (CONFIG x) +:+ path)
     else path ← str_mod x (svn_deps_path (CONFIG x)) chromium_revision;
          mret (svn_base_url (CONFIG x) +:+ path));
  deps_content ← deps_file_downloader url;
  deps_content ← (if is_git_hash then b64decode x deps_content else mret deps_content);
  '(deps, deps_os) ← _ParseDEPS x deps_content;
  mret (default ∅ (deps_os !! os_platform) ∪ deps).

(** The component the loop stores for the dependency [component_path] with
    the value [repository@revision]. *)
Definition dep_component (component_path repository revision : string) : component :=
  Component (with_slash component_path)
            (_GetComponentName component_path (host_directories (CONFIG x)))
            (if startswith "/" repository
             then svn_src_chromium_url (CONFIG x) +:+ repository else repository)
            (if IsGitHash x revision then "git" else "svn")
            revision.

(** The component stored under [src/] when the variable [is_git_hash] holds
    [is_git_hash] after the loop. *)
Definition chromium_component (is_git_hash : bool) (chromium_revision : string)
  : component :=
  Component "src/" "chromium"
            (if is_git_hash then git_base_url (CONFIG x) else svn_base_url (CONFIG x))
            (if is_git_hash then "git" else "svn")
            chromium_revision.

(** An entry of the map [GetChromiumComponentRange] returns; [old_revision]
    is [None] for Python's [None]. The fields [range_path], [range_name],
    [range_repository] and [range_repository_type] are the keys ['path'],
    ['name'], ['repository'] and ['repository_type'] of the source. *)
Record range := Range {
  range_path : string;
  rolled : bool;
  range_name : string;
  old_revision : option string;
  new_revision : string;
  range_repository : string;
  range_repository_type : string
}.

(** The entry the loop stores at [path] for [new_component]: the revision
    of the old component at the same key, when there is one, and whether the
    new revision is another one. *)
Definition range_entry (old_components : gmap string component)
    (path : string) (new_component : component) : range :=
  let old_revision := revision <$> old_components !! path in
  Range path
        (bool_decide (Some (revision new_component) ≠ old_revision))
        (name new_component)
        old_revision
        (revision new_component)
        (repository new_component)
        (repository_type new_component).

(** One turn of the loop over [new_components]. *)
Definition range_step (old_components : gmap string component)
    (components : gmap string range) (item : string * component)
  : gmap string range :=
  let '(path, new_component) := item in
  <[path := range_entry old_components path new_component]> components.

Definition GetChromiumComponentRange (old_revision new_revision : string)
    (os_platform : option string)
    (deps_file_downloader : string → result string)
  : result (gmap string range) :=
  old_components ←
    GetChromiumComponents x old_revision os_platform deps_file_downloader;
  new_components ←
    GetChromiumComponents x new_revision os_platform deps_file_downloader;
  mret (foldl (range_step old_components) ∅ (map_to_list new_components)).

End WithExternals.

(** Two DEPS files, by the revision in the address: the later one rolls
    blink, adds gold and drops v8. *)
Definition two_revisions : externals :=
  Externals
    (Config "https://git/" "src/+/" "https://svn/" "DEPS?p="
            "https://svn/chrome" ["src/third_party/"; "src/"])
    (λ r, bool_decide (String.length r = 40%nat))
    (λ c, Ok c)
    (λ fmt arg, Ok (fmt +:+ arg))
    (λ content,
       if decide (content = "https://svn/DEPS?p=100") then
         Ok (Scope (Some {[ "src/third_party/WebKit" := Some "/trunk/blink@10";
                            "src/v8" := Some "https://git/v8@7" ]}) None)
       else
         Ok (Scope (Some {[ "src/third_party/WebKit" := Some "/trunk/blink@11";
                            "src/third_party/gold" := Some "/trunk/gold@5" ]}) None)).

(** No DEPS file defines anything. *)
Definition bare_externals : externals :=
  Externals
    (Config "https://git/" "src/+/" "https://svn/" "DEPS?p="
            "https://svn/chrome" ["src/third_party/"; "src/"])
    (λ r, bool_decide (String.length r = 40%nat))
    (λ c, Ok c)
    (λ fmt arg, Ok (fmt +:+ arg))
    (λ _, Ok (Scope None None)).

(** Every download is its own address. *)
Definition echo (url : string) : result string := Ok url.

(** A revision that [IsGitHash] of the samples takes for a git hash. *)
Definition git_revision : string := "0123456789012345678901234567890123456789".

End ChromiumDepsRange.

(** ** tools/telemetry/telemetry/results/results_options.py *)

Module ResultsOptions.
Import PyStr.

(** The values the options hold. *)
Inductive pyval :=
  | PNone
  | PBool (b : bool)
  | PStr (s : string).

#[global] Instance pyval_eq_dec : EqDecision pyval.
Proof. solve_decision. Defined.

(** [bool(v)] *)
Definition truthy (v : pyval) : bool :=
  match v with
  | PNone => false
  | PBool b => b
  | PStr s => negb (bool_decide (s = ""))
  end.

(** [str(v)] *)
Definition py_str (v : pyval) : string :=
  match v with
  | PNone => "None"
  | PBool true => "True"
  | PBool false => "False"
  | PStr s => s
  end.

(** The options object: each attribute with its value, [None] when the
    object has no such attribute. *)
Record options := Options {
  output_format : option pyval;
  output_file : option pyval;
  output_trace_tag : option pyval;
  reset_results : option pyval;
  upload_results : option pyval;
  browser_type : option pyval;
  results_label : option pyval;
  suppress_gtest_report : option pyval
}.

Definition set_output_format (v : pyval) (o : options) : options :=
  Options (Some v) (output_file o) (output_trace_tag o) (reset_results o)
          (upload_results o) (browser_type o) (results_label o)
          (suppress_gtest_report o).

Definition set_output_file (v : pyval) (o : options) : options :=
  Options (output_format o) (Some v) (output_trace_tag o) (reset_results o)
          (upload_results o) (browser_type o) (results_label o)
          (suppress_gtest_report o).

Definition set_output_trace_tag (v : pyval) (o : options) : options :=
  Options (output_format o) (output_file o) (Some v) (reset_results o)
          (upload_results o) (browser_type o) (results_label o)
          (suppress_gtest_report o).

Inductive exn :=
  | AttributeError (attribute : string)
  | IOError (file : string)
  | Exception (msg : string).

Inductive stream :=
  | Stdout
  | FileStream (file : string).

(** The formatters and reporters, as the calls that construct them. *)
Inductive formatter {Metadata : Type} :=
  | CsvOutputFormatter (output_stream : stream)
  | BuildbotOutputFormatter (output_stream : stream) (trace_tag : pyval)
  | HtmlOutputFormatter (output_stream : stream) (metadata : Metadata)
      (reset_results upload_results browser_type results_label trace_tag : pyval)
  | JsonOutputFormatter (output_stream : stream) (metadata : Metadata).
Arguments formatter Metadata : clear implicits.

Inductive reporter :=
  | ProgressReporter
  | GTestProgressReporter (output_stream : stream) (output_skipped_tests_summary : bool).

Record PageTestResults (Metadata : Type) := {
  output_formatters : list (formatter Metadata);
  progress_reporter : reporter
}.
Arguments output_formatters {Metadata} _.
Arguments progress_reporter {Metadata} _.

(** What [CreateResults] has changed when it ends: the options object, and
    the files it has opened, each created when it was not there. *)
Record state := State {
  opts : options;
  opened : list string
}.

Inductive outcome (A : Type) :=
  | Return (a : A)
  | Raise (e : exn).
Arguments Return {A} a.
Arguments Raise {A} e.

Definition Run (A : Type) : Type := state → outcome A * state.

#[global] Instance Run_ret : MRet Run := λ A a st, (Return a, st).

#[global] Instance Run_bind : MBind Run := λ A B k m st,
  match m st with
  | (Return a, st') => k a st'
  | (Raise e, st') => (Raise e, st')
  end.

Definition raise {A} (e : exn) : Run A := λ st, (Raise e, st).

(** [options.attribute] *)
Definition getattr (attribute : string) (field : options → option pyval) : Run pyval :=
  λ st, match field (opts st) with
        | Some v => (Return v, st)
        | None => (Raise (AttributeError attribute), st)
        end.

(** [hasattr(options, attribute)] *)
Definition hasattr (field : options → option pyval) : Run bool :=
  λ st, (Return (bool_decide (is_Some (field (opts st)))), st).

(** [options.attribute = v] *)
Definition setattr (set : pyval → options → options) (v : pyval) : Run unit :=
  λ st, (Return tt, State (set v (opts st)) (opened st)).

(** Allowed output formats. The default is the first item in the list. *)
Definition _OUTPUT_FORMAT_CHOICES : list string :=
  ["html"; "buildbot"; "block"; "csv"; "gtest"; "json"; "none"].

(** [os.path.join(a, b)] on the texts of two paths. *)
Definition os_path_join (a b : string) : string :=
  if startswith "/" b then b
  else if bool_decide (a = "") || endswith "/" a then a +:+ b
  else a +:+ "/" +:+ b.

(** What the function takes from outside its own source. *)
Record host := Host {
  (** [util.GetBaseDir()] *)
  GetBaseDir : string;
  (** [os.path.expanduser] *)
  expanduser : string → string;
  (** whether [open(file, 'a')] and [open(file, 'r+')] go through *)
  can_open : string → bool
}.

(** The double quote. *)
Definition dquote : string := String "034"%char "".

(** ['Invalid --output-format "%s". Valid choices are: %s' %
    (format, ', '.join(_OUTPUT_FORMAT_CHOICES))] *)
Definition invalid_format_message (format : pyval) : string :=
  "Invalid --output-format " +:+ dquote +:+ py_str format +:+ dquote
  +:+ ". Valid choices are: " +:+ join ", " _OUTPUT_FORMAT_CHOICES.

(** The name of the file a format writes to when the options name none. *)
Definition default_name (format : pyval) : option string :=
  if decide (format = PStr "html") then Some "results.html"
  else if decide (format = PStr "json") then Some "results.json"
  else None.

Section WithHost.
Context (h : host) {Metadata : Type}.

(** [open(output_file, 'a').close()] and [open(output_file, 'r+')] *)
Definition open_output (output_file : string) : Run stream :=
  λ st, if can_open h output_file
        then (Return (FileStream output_file),
              State (opts st) (opened st ++ [output_file]))
        else (Raise (IOError output_file), st).

(** [a and not b], for line 57 and line 59 of the source. *)
Definition format_without_file (format : string) : Run bool :=
  output_format ← getattr "output_format" output_format;
  if decide (output_format = PStr format) then
    output_file ← getattr "output_file" output_file;
    mret (negb (truthy output_file))
  else mret false.

(** Lines 57 to 60: the default file of the formats [html] and [json]. *)
Definition default_output_file : Run unit :=
  html ← format_without_file "html";
  if (html : bool) then
    setattr set_output_file (PStr (os_path_join (GetBaseDir h) "results.html"))
  else
    json ← format_without_file "json";
    if (json : bool) then
      setattr set_output_file (PStr (os_path_join (GetBaseDir h) "results.json"))
    else mret tt.

(** Lines 62 to 67: the stream the formatters write to. *)
Definition open_output_stream : Run stream :=
  has_file ← hasattr output_file;
  if (has_file : bool) then
    output_file ← getattr "output_file" output_file;
    if truthy output_file then
      match output_file with
      | PStr file => open_output (expanduser h file)
      | _ => raise (AttributeError "startswith")
      end
    else mret Stdout
  else mret Stdout.

(** Lines 68 to 71: the attributes the options may lack. *)
Definition default_attributes : Run unit :=
  has_format ← hasattr output_format;
  (if (has_format : bool) then mret tt
   else setattr set_output_format (PStr (hd "" _OUTPUT_FORMAT_CHOICES)));;
  has_tag ← hasattr output_trace_tag;
  if (has_tag : bool) then mret tt else setattr set_output_trace_tag (PStr "").

(** Lines 73 to 108: the formatters of the format, and whether the
    reporter is to sum up the skipped tests. *)
Definition make_formatters (metadata : Metadata) (output_stream : stream)
  : Run (list (formatter Metadata) * bool) :=
  format ← getattr "output_format" output_format;
  if decide (format = PStr "none") then mret ([], true)
  else if decide (format = PStr "csv") then
    mret ([CsvOutputFormatter output_stream], true)
  else if decide (format = PStr "buildbot") then
    tag ← getattr "output_trace_tag" output_trace_tag;
    mret ([BuildbotOutputFormatter output_stream tag], true)
  else if decide (format = PStr "gtest") then mret ([], false)
  else if decide (format = PStr "html") then
    tag ← getattr "output_trace_tag" output_trace_tag;
    reset ← getattr "reset_results" reset_results;
    upload ← getattr "upload_results" upload_results;
    browser ← getattr "browser_type" browser_type;
    label ← getattr "results_label" results_label;
    tag' ← getattr "output_trace_tag" output_trace_tag;
    mret ([BuildbotOutputFormatter Stdout tag;
           HtmlOutputFormatter output_stream metadata reset upload browser
                               label tag'], true)
  else if decide (format = PStr "json") then
    mret ([JsonOutputFormatter output_stream metadata], true)
  else raise (Exception (invalid_format_message format)).

(** Lines 110 to 114: the progress reporter. *)
Definition make_reporter (output_skipped_tests_summary : bool) : Run reporter :=
  suppress ← getattr "suppress_gtest_report" suppress_gtest_report;
  if truthy suppress then mret ProgressReporter
  else mret (GTestProgressReporter Stdout output_skipped_tests_summary).

(** The function, block after block. *)
Definition CreateResults (metadata : Metadata) : Run (PageTestResults Metadata) :=
  default_output_file;;
  output_stream ← open_output_stream;
  default_attributes;;
  '(output_formatters, output_skipped_tests_summary) ←
    make_formatters metadata output_stream;
  reporter ← make_reporter output_skipped_tests_summary;
  mret {| output_formatters := output_formatters; progress_reporter := reporter |}.

End WithHost.

(** The options the parser of [AddResultsOptions] gives when the command
    line names only the format. *)
Definition parsed_options (format : string) : options :=
  Options (Some (PStr format)) (Some PNone) (Some (PStr "")) (Some PNone)
          (Some PNone) (Some (PStr "release")) (Some PNone) (Some (PBool false)).

Definition sample_host : host :=
  Host "/telemetry" (λ file, file) (λ _, true).

(** A call starts with no file opened. *)
Definition start (o : options) : state := State o [].

(** An options object that was not made by the parser: only the tag. *)
Definition bare_options : options :=
  Options None None (Some (PStr "")) None None None None None.

(** The call on the parser's options for a format, with the sample host
    and no metadata to speak of. *)
Definition sample_results (format : string)
  : outcome (PageTestResults unit) * state :=
  CreateResults sample_host tt (start (parsed_options format)).

End ResultsOptions.

(** * Properties *)

(** ** Strings *)

Module PyStrFacts.
Import PyStr.

(** The string functions on the inputs Python's documentation uses. *)
Example split_pieces : split "/" "a//b/" = ["a"; ""; "b"; ""] ∧ split "/" "" = [""].
Proof. split; reflexivity. Qed.

Example readlines_keeps_ends :
  readlines ("a" +:+ nl +:+ nl +:+ "b") = ["a" +:+ nl; nl; "b"]
  ∧ readlines "" = [].
Proof. split; reflexivity. Qed.

Example splitlines_drops_ends :
  splitlines ("a" +:+ nl +:+ String CR nl +:+ " b " +:+ String CR "")
  = ["a"; ""; " b "].
Proof. reflexivity. Qed.

Example strip_both_sides : strip "  a b  " = "a b" ∧ strip "   " = "".
Proof. split; reflexivity. Qed.

Example writelines_adds_nothing : concat_lines ["a"; "b"] = "ab".
Proof. reflexivity. Qed.

Lemma str_app_cons x (a b : string) : String x a +:+ b = String x (a +:+ b).
Proof. reflexivity. Qed.

Lemma str_app_nil_l (a : string) : "" +:+ a = a.
Proof. reflexivity. Qed.

Lemma str_app_assoc (a b c : string) : (a +:+ b) +:+ c = a +:+ b +:+ c.
Proof. induction a as [|x a IH]; [done |]. by rewrite !str_app_cons, IH. Qed.

Lemma str_app_nil_r (a : string) : a +:+ "" = a.
Proof. induction a as [|x a IH]; [done |]. by rewrite str_app_cons, IH. Qed.

Lemma str_length_app (a b : string) :
  String.length (a +:+ b) = (String.length a + String.length b)%nat.
Proof.
  induction a as [|x a IH]; [done |]. rewrite str_app_cons. simpl. by rewrite IH.
Qed.

Lemma has_char_app c (a b : string) :
  has_char c (a +:+ b) = has_char c a || has_char c b.
Proof.
  induction a as [|x a IH]; [done |]. rewrite str_app_cons. simpl.
  destruct (decide (x = c)); [done | apply IH].
Qed.

Lemma readlines_aux_line (s : string) : ∀ acc rest,
  has_char LF s = false →
  readlines_aux acc (s +:+ nl +:+ rest) = (acc +:+ s +:+ nl) :: readlines_aux "" rest.
Proof.
  induction s as [|c s IH]; intros acc rest Hs.
  - rewrite str_app_nil_l. unfold nl at 1. rewrite str_app_cons, str_app_nil_l. simpl.
    destruct (decide (LF = LF)); [done | congruence].
  - rewrite str_app_cons. simpl in *.
    destruct (decide (c = LF)) as [->|Hc]; [done |].
    rewrite IH by done. by rewrite str_app_assoc, str_app_cons, str_app_nil_l.
Qed.

(** Reading back what [writelines] wrote gives the same lines, when every
    line ends with its only line feed. *)
Lemma readlines_concat_lines (ls : list string) :
  Forall landmine_line ls → readlines (concat_lines ls) = ls.
Proof.
  unfold readlines. induction 1 as [|l ls (s & -> & Hs) _ IH]; [done |].
  change (concat_lines ((s +:+ nl) :: ls)) with ((s +:+ nl) +:+ concat_lines ls).
  rewrite str_app_assoc, readlines_aux_line by done. by rewrite str_app_nil_l, IH.
Qed.

Lemma lstrip_no_char c s : has_char c s = false → has_char c (lstrip s) = false.
Proof.
  induction s as [|x s IH]; simpl; [done |].
  destruct (decide (x = c)); [done |]. intros Hs.
  destruct (is_space x); [by apply IH |]. simpl.
  by destruct (decide (x = c)).
Qed.

Lemma rstrip_no_char c s : has_char c s = false → has_char c (rstrip s) = false.
Proof.
  induction s as [|x s IH]; simpl; [done |].
  destruct (decide (x = c)); [done |]. intros Hs.
  specialize (IH Hs). destruct (rstrip s) as [|y r].
  - destruct (is_space x); simpl; [done |]. by destruct (decide (x = c)).
  - simpl in *. by destruct (decide (x = c)).
Qed.

Lemma strip_no_char c s : has_char c s = false → has_char c (strip s) = false.
Proof. intros. by apply rstrip_no_char, lstrip_no_char. Qed.

Lemma splitlines_aux_no_LF (n : nat) : ∀ s acc pending,
  (String.length s ≤ n)%nat →
  has_char LF acc = false →
  Forall (λ l, has_char LF l = false) (splitlines_aux acc pending s).
Proof.
  induction n as [|n IH]; intros s acc pending Hn Hacc.
  - destruct s; simpl in *; [| lia]. destruct pending; by repeat constructor.
  - destruct s as [|c s]; simpl in *.
    { destruct pending; by repeat constructor. }
    destruct (decide (c = LF)).
    { constructor; [done |]. apply IH; [lia | done]. }
    destruct (decide (c = CR)).
    { destruct s as [|d s]; [by repeat constructor |].
      simpl in Hn. destruct (decide (d = LF)).
      - constructor; [done |]. apply IH; [lia | done].
      - constructor; [done |]. apply IH; [simpl; lia | done]. }
    apply IH; [lia |]. rewrite has_char_app, Hacc. simpl.
    by destruct (decide (c = LF)).
Qed.

Lemma drop_app (s p : string) : drop (String.length s) (s +:+ p) = p.
Proof. induction s as [|c s IH]; [done |]. by rewrite str_app_cons. Qed.

Lemma endswith_app (s p : string) : endswith p (s +:+ p) = true.
Proof.
  unfold endswith. apply bool_decide_eq_true. rewrite str_length_app.
  replace (String.length s + String.length p - String.length p)%nat
    with (String.length s) by lia.
  apply drop_app.
Qed.

End PyStrFacts.

(** ** The file system *)

Module PosixFacts.
Import PyStr Posix.

Lemma grows_refl p f : grows_towards p f f.
Proof. split; [by left | done]. Qed.

Lemma grows_trans p q f1 f2 f3 :
  p `prefix_of` q → grows_towards p f1 f2 → grows_towards q f2 f3 →
  grows_towards q f1 f3.
Proof.
  intros Hpq [H12 L12] [H23 L23]. split; [| set_solver].
  intros k. destruct (H12 k) as [E1|(N1 & D1 & P1)], (H23 k) as [E2|(N2 & D2 & P2)].
  - left. congruence.
  - right. repeat split; [congruence | done | done].
  - right. repeat split; [done | congruence | by etrans].
  - congruence.
Qed.

Lemma fs_mkdir_grows p f : grows_towards p f (fs_mkdir p f).2.
Proof.
  unfold fs_mkdir. destruct (nodes f !! p) eqn:Hp; [apply grows_refl |].
  destruct (nodes f !! parent p) as [[|c]|]; try apply grows_refl.
  destruct (decide _); [apply grows_refl |]. split; simpl; [| set_solver].
  intros k. destruct (decide (k = p)) as [->|Hk].
  - right. by rewrite lookup_insert_eq.
  - left. by rewrite lookup_insert_ne.
Qed.

Lemma fs_makedirs_rev_grows rp : ∀ f,
  grows_towards (rev rp) f (fs_makedirs_rev rp f).2.
Proof.
  induction rp as [|c rhead IH]; intros f; [apply fs_mkdir_grows |].
  cbn [fs_makedirs_rev]. destruct (fs_exists (rev rhead) f); [apply fs_mkdir_grows |].
  specialize (IH f). destruct (fs_makedirs_rev rhead f) as [r f1]. simpl in IH.
  assert (rev rhead `prefix_of` rev (c :: rhead)) as Hpre
    by (simpl; by apply prefix_app_r).
  assert (grows_towards (rev (c :: rhead)) f (fs_mkdir (rev (c :: rhead)) f1).2)
    by (eapply grows_trans; [exact Hpre | exact IH | apply fs_mkdir_grows]).
  destruct r as [[]|]; try done;
    (eapply grows_trans; [exact Hpre | exact IH | apply grows_refl]).
Qed.

Lemma fs_makedirs_grows p f : grows_towards p f (fs_makedirs p f).2.
Proof.
  unfold fs_makedirs. rewrite <- (rev_involutive p) at 1.
  apply fs_makedirs_rev_grows.
Qed.

(** Making directories removes nothing and overwrites nothing. *)
Lemma fs_makedirs_preserves p f k v :
  nodes f !! k = Some v → nodes (fs_makedirs p f).2 !! k = Some v.
Proof.
  intros Hk. destruct (fs_makedirs_grows p f) as [H _].
  destruct (H k) as [E|(N & _)]; congruence.
Qed.

(** [os.mkdir] and [os.makedirs] say "already exists" only of a path that
    was there before the call. *)
Lemma fs_mkdir_EEXIST p f f' :
  fs_mkdir p f = (Some EEXIST, f') → is_Some (nodes f !! p).
Proof.
  unfold fs_mkdir. destruct (nodes f !! p) eqn:Hp; [by eauto |].
  destruct (nodes f !! parent p) as [[|c]|]; try done.
  by destruct (decide _).
Qed.

Lemma fs_makedirs_rev_EEXIST rp f f' :
  fs_makedirs_rev rp f = (Some EEXIST, f') → is_Some (nodes f !! rev rp).
Proof.
  destruct rp as [|c rhead]; [apply fs_mkdir_EEXIST |].
  cbn [fs_makedirs_rev]. destruct (fs_exists (rev rhead) f); [apply fs_mkdir_EEXIST |].
  pose proof (fs_makedirs_rev_grows rhead f) as [Hgrows _].
  destruct (fs_makedirs_rev rhead f) as [r f1]. cbn [snd] in Hgrows.
  assert (fs_mkdir (rev (c :: rhead)) f1 = (Some EEXIST, f') →
          is_Some (nodes f !! rev (c :: rhead))) as Hleaf.
  { intros Hleaf%fs_mkdir_EEXIST.
    destruct (Hgrows (rev (c :: rhead))) as [<-|(_ & _ & Hpre)]; [done |].
    apply prefix_length in Hpre. cbn [rev] in Hpre.
    rewrite length_app in Hpre. simpl in Hpre. lia. }
  destruct r as [[]|]; try done.
Qed.

Lemma fs_makedirs_EEXIST p f f' :
  fs_makedirs p f = (Some EEXIST, f') → is_Some (nodes f !! p).
Proof.
  unfold fs_makedirs. intros H%fs_makedirs_rev_EEXIST.
  by rewrite rev_involutive in H.
Qed.

(** A directory that [os.mkdir] or [os.makedirs] has made is not
    protected. *)
Lemma fs_mkdir_fresh p f k :
  nodes f !! k = None → is_Some (nodes (fs_mkdir p f).2 !! k) →
  k ∉ locked (fs_mkdir p f).2.
Proof.
  unfold fs_mkdir. destruct (nodes f !! p) eqn:Hp.
  { cbn [snd]. intros -> [? ?]. done. }
  destruct (nodes f !! parent p) as [[|c]|]; cbn [snd];
    try (intros -> [? ?]; done).
  destruct (decide _); cbn [snd nodes locked]; [intros -> [? ?]; done |].
  intros Hk Hnew. destruct (decide (k = p)) as [->|Hne]; [set_solver |].
  rewrite lookup_insert_ne, Hk in Hnew by done. by destruct Hnew.
Qed.

Lemma fs_makedirs_rev_fresh rp : ∀ f k,
  nodes f !! k = None → is_Some (nodes (fs_makedirs_rev rp f).2 !! k) →
  k ∉ locked (fs_makedirs_rev rp f).2.
Proof.
  induction rp as [|c rhead IH]; intros f k; [apply fs_mkdir_fresh |].
  cbn [fs_makedirs_rev]. destruct (fs_exists (rev rhead) f); [apply fs_mkdir_fresh |].
  specialize (IH f k). destruct (fs_makedirs_rev rhead f) as [r f1]. cbn [snd] in IH.
  assert (nodes f !! k = None →
          is_Some (nodes (fs_mkdir (rev (c :: rhead)) f1).2 !! k) →
          k ∉ locked (fs_mkdir (rev (c :: rhead)) f1).2) as Hleaf.
  { intros Hk Hnew. destruct (nodes f1 !! k) eqn:Hk1.
    - pose proof (fs_mkdir_grows (rev (c :: rhead)) f1) as [_ Hlocked].
      specialize (IH Hk (mk_is_Some _ _ eq_refl)). set_solver.
    - by apply fs_mkdir_fresh. }
  destruct r as [[]|]; try done.
Qed.

Lemma fs_makedirs_fresh p f k :
  nodes f !! k = None → is_Some (nodes (fs_makedirs p f).2 !! k) →
  k ∉ locked (fs_makedirs p f).2.
Proof. apply fs_makedirs_rev_fresh. Qed.

(** So [os.makedirs] puts nothing in the way of a removal. *)
Lemma fs_makedirs_blockers p q f :
  blockers q f = ∅ → blockers q (fs_makedirs p f).2 = ∅.
Proof.
  intros Hnone. apply set_eq. intros l. split; [| set_solver].
  unfold blockers. intros ([Hpre Hsome] & Hl)%elem_of_filter. exfalso.
  destruct (fs_makedirs_grows p f) as [_ Hlocked].
  destruct (nodes f !! l) eqn:Hold.
  - assert (l ∈ blockers q f) as Hin; [| set_solver].
    apply elem_of_filter. split; [| set_solver]. split; [done |].
    rewrite Hold. by eexists.
  - by apply (fs_makedirs_fresh p f l Hold Hsome).
Qed.

Lemma fs_mkdir_result p f r f' :
  fs_mkdir p f = (r, f') →
  match r with
  | None => nodes f' !! p = Some Dir
  | Some EEXIST => is_Some (nodes f' !! p)
  | Some _ => True
  end.
Proof.
  unfold fs_mkdir. destruct (nodes f !! p) eqn:Hp.
  { intros [= <- <-]. by rewrite Hp. }
  destruct (nodes f !! parent p) as [[|c]|]; try by intros [= <- <-].
  destruct (decide _); intros [= <- <-]; [done |]. simpl. by rewrite lookup_insert_eq.
Qed.

Lemma fs_makedirs_rev_result rp : ∀ f r f',
  fs_makedirs_rev rp f = (r, f') →
  match r with
  | None => nodes f' !! rev rp = Some Dir
  | Some EEXIST => is_Some (nodes f' !! rev rp)
  | Some _ => True
  end.
Proof.
  induction rp as [|c rhead IH]; intros f r f'; [apply fs_mkdir_result |].
  cbn [fs_makedirs_rev]. destruct (fs_exists (rev rhead) f); [apply fs_mkdir_result |].
  destruct (fs_makedirs_rev rhead f) as [[e|] f1]; [| apply fs_mkdir_result].
  destruct e; try apply fs_mkdir_result; by intros [= <- <-].
Qed.

(** After [os.makedirs(p)] without error [p] is a directory; after the
    error "already exists" [p] exists. *)
Lemma fs_makedirs_result p f r f' :
  fs_makedirs p f = (r, f') →
  match r with
  | None => nodes f' !! p = Some Dir
  | Some EEXIST => is_Some (nodes f' !! p)
  | Some _ => True
  end.
Proof.
  unfold fs_makedirs. intros H%fs_makedirs_rev_result.
  by rewrite rev_involutive in H.
Qed.

Lemma fs_readlines_file p f c :
  nodes f !! p = Some (File c) → fs_readlines p f = inr (readlines c).
Proof. unfold fs_readlines. by intros ->. Qed.

Lemma fs_readlines_inr p f ls :
  fs_readlines p f = inr ls → ∃ c, nodes f !! p = Some (File c) ∧ ls = readlines c.
Proof.
  unfold fs_readlines. destruct (nodes f !! p) as [[|c]|]; try done.
  intros [= <-]. by exists c.
Qed.

Lemma fs_exists_true p f : fs_exists p f = true ↔ is_Some (nodes f !! p).
Proof. unfold fs_exists. by rewrite bool_decide_eq_true. Qed.

Lemma fs_exists_false p f : fs_exists p f = false ↔ nodes f !! p = None.
Proof. unfold fs_exists. by rewrite bool_decide_eq_false, eq_None_not_Some. Qed.

(** A write that succeeds replaces the file and nothing else; the place it
    writes to was not a directory, and its parent was one if the file is
    new. *)
Lemma fs_writelines_ok p ls f f' :
  fs_writelines p ls f = (None, f') →
  nodes f' = <[p := File (concat_lines ls)]> (nodes f)
  ∧ (p ∉ locked f')
  ∧ (nodes f !! p ≠ Some Dir)
  ∧ (nodes f !! p = None → nodes f !! parent p = Some Dir).
Proof.
  unfold fs_writelines. destruct (nodes f !! p) as [[|c]|] eqn:Hp; [done | |].
  - destruct (decide _); [done |]. intros [= <-]. simpl.
    repeat split; [set_solver | done | done].
  - destruct (nodes f !! parent p) as [[|c]|]; try done.
    destruct (decide _); [done |]. intros [= <-]. simpl.
    repeat split; [set_solver | done].
Qed.

(** A write that fails changes nothing. *)
Lemma fs_writelines_err p ls f e f' :
  fs_writelines p ls f = (Some e, f') → f' = f.
Proof.
  unfold fs_writelines. destruct (nodes f !! p) as [[|c]|].
  - by intros [= _ <-].
  - destruct (decide _); by intros [= <-].
  - destruct (nodes f !! parent p) as [[|c]|]; try by intros [= _ <-].
    destruct (decide _); by intros [= <-].
Qed.

(** An unprotected file can be written again. *)
Lemma fs_writelines_file p ls f c :
  nodes f !! p = Some (File c) → p ∉ locked f →
  (fs_writelines p ls f).1 = None.
Proof.
  unfold fs_writelines. intros -> Hl. by destruct (decide _).
Qed.

Lemma norm_step_plain stack c :
  plain_component c → norm_step stack c = c :: stack.
Proof.
  intros (H1 & H2 & H3). unfold norm_step.
  destruct (decide (c = "" ∨ c = ".")) as [[?|?]|_]; [done | done |].
  by destruct (decide (c = "..")).
Qed.

Lemma norm_fold_plain (p : path) : ∀ stack,
  Forall plain_component stack →
  Forall plain_component (fold_left norm_step p stack).
Proof.
  induction p as [|c p IH]; intros stack Hs; [done |]. cbn [fold_left].
  apply IH. unfold norm_step.
  destruct (decide (c = "" ∨ c = ".")) as [|Hc]; [done |].
  destruct (decide (c = "..")) as [|Hd].
  - destruct Hs; [constructor | done].
  - constructor; [| done]. unfold plain_component. tauto.
Qed.

Lemma norm_fold_push (p : path) : ∀ stack,
  Forall plain_component p → fold_left norm_step p stack = rev p ++ stack.
Proof.
  induction p as [|c p IH]; intros stack Hp; [done |].
  apply Forall_cons in Hp as [Hc Hp]. cbn [fold_left rev].
  rewrite norm_step_plain, IH by done. by rewrite <- (assoc_L (++)).
Qed.

(** A normalised path holds plain components only, and normalising it
    again changes nothing. *)
Lemma normpath_plain (p : path) : Forall plain_component (os_path_normpath p).
Proof. unfold os_path_normpath. apply Forall_rev, norm_fold_plain. constructor. Qed.

Lemma normpath_fixed (p : path) :
  os_path_normpath p = p ↔ Forall plain_component p.
Proof.
  split; [intros <-; apply normpath_plain |]. intros Hp.
  unfold os_path_normpath. rewrite norm_fold_push, app_nil_r by done.
  apply rev_involutive.
Qed.

Lemma normpath_idem (p : path) :
  os_path_normpath (os_path_normpath p) = os_path_normpath p.
Proof. apply normpath_fixed, normpath_plain. Qed.

Lemma rev_tail_rev (p : path) : rev (tail (rev p)) = removelast p.
Proof.
  destruct p as [|c p] using rev_ind; [done |].
  by rewrite rev_unit, removelast_last; cbn [tail]; rewrite rev_involutive.
Qed.

Lemma prefix_parent (p k : path) :
  p `prefix_of` k → k ≠ p → p `prefix_of` parent k.
Proof.
  intros [l ->] Hne. unfold parent. destruct l as [|x l].
  { by rewrite app_nil_r in Hne. }
  rewrite removelast_app by done. by apply prefix_app_r.
Qed.

(** A removal that succeeds was of a directory, and takes exactly what is
    at or below it. *)
Lemma fs_rmtree_ok p f f' :
  fs_rmtree p f = (None, f') →
  nodes f !! p = Some Dir
  ∧ (∀ k, p `prefix_of` k → nodes f' !! k = None)
  ∧ (∀ k, ¬ p `prefix_of` k → nodes f' !! k = nodes f !! k).
Proof.
  unfold fs_rmtree. destruct (nodes f !! p) as [[|c]|]; try done.
  destruct (decide _); [| done]. intros [= <-]. simpl. split; [done |]. split.
  - intros k Hk. apply map_lookup_filter_None. right. intros v _. simpl. tauto.
  - intros k Hk. rewrite map_lookup_filter.
    destruct (nodes f !! k); simpl; [| done]. by rewrite option_guard_True.
Qed.

(** Removal, failed or not, touches nothing outside the directory. *)
Lemma fs_rmtree_outside p f r f' k :
  fs_rmtree p f = (r, f') → ¬ p `prefix_of` k → nodes f' !! k = nodes f !! k.
Proof.
  unfold fs_rmtree. destruct (nodes f !! p) as [[|c]|]; try by intros [= _ <-].
  destruct (decide _); intros [= _ <-] Hk; simpl; rewrite map_lookup_filter;
    (destruct (nodes f !! k); simpl; [| done]);
    rewrite option_guard_True; simpl; tauto.
Qed.

(** Removal adds nothing. *)
Lemma fs_rmtree_shrinks p f r f' k :
  fs_rmtree p f = (r, f') → nodes f !! k = None → nodes f' !! k = None.
Proof.
  unfold fs_rmtree. destruct (nodes f !! p) as [[|c]|]; try by intros [= _ <-].
  destruct (decide _); intros [= _ <-] Hk; simpl; apply map_lookup_filter_None;
    by left.
Qed.

(** A removal of a directory goes through when nothing at or below it is
    protected. *)
Lemma fs_rmtree_goes p f :
  nodes f !! p = Some Dir → blockers p f = ∅ → (fs_rmtree p f).1 = None.
Proof.
  unfold fs_rmtree. intros -> Hnone. cbv zeta. by destruct (decide _).
Qed.

(** [shutil.rmtree] of a file fails and changes nothing. *)
Lemma fs_rmtree_file p f c :
  nodes f !! p = Some (File c) → fs_rmtree p f = (Some ENOTDIR, f).
Proof. unfold fs_rmtree. by intros ->. Qed.

End PosixFacts.

(** ** The landmine guard *)

Module LandminesFacts.
Import PyStr Posix Py Landmines PyStrFacts PosixFacts.

Section Run.
Context (h : host).

(** [get_build_dir] reads the environment and changes nothing. *)
Lemma get_build_dir_pure b i w r w' :
  get_build_dir h b i w = (r, w') → w' = w.
Proof.
  unfold get_build_dir, mbind, Py_bind, mret, Py_ret, get_environ, raise.
  repeat destruct (decide _); by intros [= _ <-].
Qed.

Lemma bind_run {A B} (m : Py A) (k : A → Py B) w :
  (m ≫= k) w = match m w with
               | (Return a, w') => k a w'
               | (Raise e, w') => (Raise e, w')
               end.
Proof. reflexivity. Qed.

Lemma emit_run ev w :
  emit ev w = (Return (), World (fs w) (environ w) (trace w ++ [ev])).
Proof. reflexivity. Qed.

(** Whatever [os.makedirs] raises, the handler lets the run go on. *)
Lemma try_makedirs_run out w :
  try_except_OSError (os_makedirs out)
    (λ e, if decide (e = EEXIST) then mret () else mret ()) w =
  (Return (), World (fs_makedirs out (fs w)).2 (environ w)
                    (trace w ++ [EvMakedirs out (fs_makedirs out (fs w)).1])).
Proof.
  unfold try_except_OSError, os_makedirs, fs_call.
  destruct (fs_makedirs out (fs w)) as [[e|] f1]; [| done].
  by destruct (decide (e = EEXIST)).
Qed.

(** The course of one call, step by step: the calls made, in order, with
    the file system each one leaves. *)
Lemma clobber_unfold new w out :
  get_build_dir h (builder h) false w = (Return out, w) →
  clobber_if_necessary h new w =
    let marker := landmines_path_of out in
    let '(r1, f1) := fs_makedirs out (fs w) in
    match nodes f1 !! marker with
    | None =>
        open_w_writelines marker new
          (World f1 (environ w)
             (trace w ++ [EvMakedirs out r1; EvExists marker false]))
    | Some Dir =>
        (Raise (IOError EISDIR),
         World f1 (environ w)
           (trace w ++ [EvMakedirs out r1; EvExists marker true;
                        EvReadlines marker (inl EISDIR)]))
    | Some (File c) =>
        let seen := [EvMakedirs out r1; EvExists marker true;
                     EvReadlines marker (inr (readlines c))] in
        if decide (readlines c = new) then
          open_w_writelines marker new (World f1 (environ w) (trace w ++ seen))
        else
          let said := seen ++ [EvStdout ("Clobbering due to:" +:+ nl);
                               EvDiff (readlines c) new] in
          match fs_rmtree out f1 with
          | (Some e, f2) =>
              (Raise (OSError e),
               World f2 (environ w) (trace w ++ said ++ [EvRmtree out (Some e)]))
          | (None, f2) =>
              open_w_writelines marker new
                (World f2 (environ w) (trace w ++ said ++ [EvRmtree out None]))
          end
    end.
Proof.
  intros Hout. cbv zeta.
  set (marker := landmines_path_of out). set (env := environ w).
  destruct (fs_makedirs out (fs w)) as [r1 f1] eqn:Hmk.
  unfold clobber_if_necessary. rewrite bind_run, Hout. cbv beta zeta. fold marker.
  rewrite bind_run, try_makedirs_run, Hmk. cbv beta iota. fold env.
  rewrite bind_run. unfold os_path_exists at 1. cbv beta iota zeta.
  unfold fs_exists. cbn [fst snd fs environ trace].
  destruct (nodes f1 !! marker) as [[|c]|] eqn:Hm.
  - rewrite bool_decide_eq_true_2 by eauto.
    rewrite !bind_run. unfold open_r_readlines, fs_readlines.
    cbn [fs environ trace]. rewrite Hm. by rewrite <- !(assoc_L (++)).
  - rewrite bool_decide_eq_true_2 by eauto.
    rewrite !bind_run. unfold open_r_readlines at 1, fs_readlines.
    cbn [fs environ trace]. rewrite Hm.
    destruct (decide (readlines c ≠ new)) as [Hne|Heq];
      destruct (decide (readlines c = new)) as [Heq'|Hne']; try done.
    + rewrite bind_run, emit_run. cbv beta iota.
      rewrite bind_run, emit_run. cbv beta iota.
      unfold shutil_rmtree, fs_call. cbn [fs environ trace].
      destruct (fs_rmtree out f1) as [[e|] f2]; by rewrite <- !(assoc_L (++)).
    + unfold mret, Py_ret. by rewrite <- !(assoc_L (++)).
  - rewrite bool_decide_eq_false_2 by (by intros [? ?]).
    rewrite !bind_run. unfold mret, Py_ret. by rewrite <- !(assoc_L (++)).
Qed.

Lemma write_run marker new f env t :
  open_w_writelines marker new (World f env t) =
    let '(r, f') := fs_writelines marker new f in
    (match r with None => Return () | Some e => Raise (IOError e) end,
     World f' env (t ++ [EvWritelines marker new r])).
Proof.
  unfold open_w_writelines, fs_call. cbn [fs environ trace].
  by destruct (fs_writelines marker new f) as [[e|] f'].
Qed.

(** A run that raises in [get_build_dir] stops there. *)
Lemma clobber_no_build_dir new w e :
  get_build_dir h (builder h) false w = (Raise e, w) →
  clobber_if_necessary h new w = (Raise e, w).
Proof. intros Hout. unfold clobber_if_necessary. by rewrite bind_run, Hout. Qed.

Lemma get_build_dir_cases w :
  (∃ out, get_build_dir h (builder h) false w = (Return out, w))
  ∨ (∃ e, get_build_dir h (builder h) false w = (Raise e, w)).
Proof.
  destruct (get_build_dir h (builder h) false w) as [[out|e] w1] eqn:Hg;
    pose proof (get_build_dir_pure _ _ _ _ _ Hg) as ->; eauto.
Qed.

(** A run that returns had an output directory to work on. *)
Lemma clobber_success_out new w w' :
  clobber_if_necessary h new w = (Return (), w') →
  ∃ out, get_build_dir h (builder h) false w = (Return out, w).
Proof.
  intros Hrun. destruct (get_build_dir_cases w) as [?|[e He]]; [done |].
  rewrite (clobber_no_build_dir new w e He) in Hrun. done.
Qed.

(** The output directory depends on the world through the environment
    only. *)
Lemma get_build_dir_env b i w w' r :
  environ w' = environ w →
  get_build_dir h b i w = (r, w) → get_build_dir h b i w' = (r, w').
Proof.
  unfold get_build_dir, mbind, Py_bind, mret, Py_ret, get_environ, raise.
  intros ->. repeat destruct (decide _); by intros [= <-].
Qed.

(** The marker lies in the parent of the output directory. *)
Lemma landmines_path_beside (out : path) :
  os_path_normpath out = out →
  landmines_path_of out = parent out ++ [".landmines"].
Proof.
  intros Hn%normpath_fixed. unfold landmines_path_of.
  change (os_path_join (os_path_join out "..") ".landmines")
    with ((out ++ [".."]) ++ [".landmines"]).
  unfold os_path_normpath.
  rewrite !fold_left_app. rewrite (norm_fold_push out []) by done.
  rewrite app_nil_r. cbn [fold_left].
  change (norm_step (rev out) "..") with (tail (rev out)).
  rewrite norm_step_plain by (by unfold plain_component).
  cbn [rev]. by rewrite rev_tail_rev.
Qed.

Lemma get_build_dir_normalised b i w out :
  get_build_dir h b i w = (Return out, w) → os_path_normpath out = out.
Proof.
  unfold get_build_dir, mbind, Py_bind, mret, Py_ret, get_environ, raise,
    os_path_abspath.
  repeat destruct (decide _); intros [= <-]; apply normpath_idem.
Qed.

(** The marker is outside the output directory, unless that directory is
    the root or is itself named [.landmines]. *)
Lemma marker_outside (out : path) :
  os_path_normpath out = out → out ≠ [] → last out ≠ Some ".landmines" →
  ¬ out `prefix_of` landmines_path_of out.
Proof.
  intros Hn Hroot Hlast. rewrite landmines_path_beside by done.
  destruct out as [|c out _] using rev_ind; [done |].
  unfold parent. rewrite removelast_last. rewrite last_snoc in Hlast.
  intros Hpre%prefix_app_inv. apply prefix_cons_inv_1 in Hpre. congruence.
Qed.

End Run.

(** Splits a run [Hrun] on an output directory [Hout] into its possible
    courses. *)
Ltac run_cases Hout Hrun :=
  rewrite (clobber_unfold _ _ _ _ Hout) in Hrun; cbv zeta in Hrun;
  destruct (fs_makedirs _ _) as [r1 f1] eqn:Hmk;
  destruct (nodes f1 !! _) as [[|c0]|] eqn:Hm;
  [ | destruct (decide (readlines c0 = _)) as [Heq|Hne];
      [ | destruct (fs_rmtree _ f1) as [[e2|] f2] eqn:Hrm ]
    | ];
  cbv zeta in Hrun;
  rewrite ?write_run in Hrun;
  try (destruct (fs_writelines _ _ _) as [[e3|] f3] eqn:Hwr);
  rewrite <- ?(assoc_L (++)) in Hrun; cbn [app] in Hrun;
  simplify_eq.

Ltac in_trace :=
  repeat match goal with
         | H : _ ∈ _ :: _ |- _ => apply elem_of_cons in H; destruct H as [H|H]
         | H : _ ∈ [] |- _ => by apply elem_of_nil in H
         | H : _ ∈ _ ++ _ |- _ => apply elem_of_app in H; destruct H as [H|H]
         end;
  simplify_eq.

Ltac has_event :=
  intros; repeat first [apply list_elem_of_here | apply list_elem_of_further].

Ltac not_listed :=
  repeat match goal with
         | H : _ ∈ _ :: _ |- _ => apply elem_of_cons in H; destruct H as [H|H]
         | H : _ ∈ [] |- _ => by apply elem_of_nil in H
         | H : _ ∉ _ :: _ |- _ => apply not_elem_of_cons in H; destruct H as [? H]
         end;
  try congruence.

Section Guard.
Context (h : host).

(** What is at the output path when the marker has been written over the
    file system [f1] that [os.makedirs] left. *)
Lemma out_dir_after_write (out mark : path) (content : string)
    (f : filesystem) (r1 : option errno) (f1 : filesystem)
    (written : gmap path node) :
  fs_makedirs out f = (r1, f1) →
  nodes f1 !! mark ≠ Some Dir →
  written = <[mark := File content]> (nodes f1) →
  (r1 = None → written !! out = Some Dir)
  ∧ (r1 = Some EEXIST →
     (nodes f !! out = Some Dir ∧ written !! out = Some Dir)
     ∨ (∃ c c', nodes f !! out = Some (File c) ∧ written !! out = Some (File c'))).
Proof.
  intros Hmk Hmark ->. split.
  - intros ->. apply fs_makedirs_result in Hmk.
    rewrite lookup_insert_ne by congruence. done.
  - intros ->. destruct (fs_makedirs_EEXIST _ _ _ Hmk) as [x Hx].
    pose proof (fs_makedirs_preserves out _ _ _ Hx) as Hkept.
    rewrite Hmk in Hkept. cbn [snd] in Hkept.
    destruct x as [|c]; [left | right].
    + split; [done |]. rewrite lookup_insert_ne by congruence. done.
    + exists c. destruct (decide (mark = out)) as [->|Hne].
      * eexists. split; [done |]. by rewrite lookup_insert_eq.
      * exists c. split; [done |]. by rewrite lookup_insert_ne.
Qed.

(** C1, as amended: after a call that returns, the marker file holds the
    new landmines, written one after the other, and read back as the same
    lines when each of them ends with its only line feed. If the call
    clobbered, the build output directory is gone and has not been created
    again. If it did not clobber and [os.makedirs] went through, the build
    output directory is there. If it did not clobber and [os.makedirs]
    reported that the path exists already, what was at the path before the
    call is still of its kind: the directory, when it was a directory; a
    regular file, when it was a regular file, and then there is no build
    output directory. *)
Theorem marker_and_out_dir_after_success new w w' :
  clobber_if_necessary h new w = (Return (), w') →
  ∃ out evs,
    get_build_dir h (builder h) false w = (Return out, w)
    ∧ trace w' = trace w ++ evs
    ∧ nodes (fs w') !! landmines_path_of out = Some (File (concat_lines new))
    ∧ (Forall landmine_line new →
       fs_readlines (landmines_path_of out) (fs w') = inr new)
    ∧ (EvRmtree out None ∈ evs → nodes (fs w') !! out = None)
    ∧ (EvRmtree out None ∉ evs → EvMakedirs out None ∈ evs →
       nodes (fs w') !! out = Some Dir)
    ∧ (EvRmtree out None ∉ evs → EvMakedirs out (Some EEXIST) ∈ evs →
       (nodes (fs w) !! out = Some Dir ∧ nodes (fs w') !! out = Some Dir)
       ∨ (∃ c c', nodes (fs w) !! out = Some (File c)
                  ∧ nodes (fs w') !! out = Some (File c'))).
Proof.
  intros Hrun. destruct (clobber_success_out _ _ _ _ Hrun) as [out Hout].
  exists out. run_cases Hout Hrun; eexists; (split; [done |]);
    cbn [fs trace]; (split; [done |]);
    apply fs_writelines_ok in Hwr as (Hn & _ & _ & _); rewrite Hn;
    (split; [by rewrite lookup_insert_eq |]);
    (split; [intros Hl; unfold fs_readlines; rewrite Hn, lookup_insert_eq;
             by rewrite readlines_concat_lines |]).
  - split; [intros Hin; in_trace |].
    match goal with
    | |- context [<[_ := File ?content]> (nodes f1)] =>
        destruct (out_dir_after_write out (landmines_path_of out) content _ _ _ _
                    Hmk ltac:(congruence) eq_refl) as [Hmade Hthere]
    end.
    split; intros _ Hin; in_trace; auto.
  - apply fs_rmtree_ok in Hrm as (Hdir & Hgone & _). split.
    + intros _. rewrite lookup_insert_ne by congruence. by apply Hgone.
    + split; intros Hnot; exfalso; apply Hnot; has_event.
  - split; [intros Hin; in_trace |].
    match goal with
    | |- context [<[_ := File ?content]> (nodes f1)] =>
        destruct (out_dir_after_write out (landmines_path_of out) content _ _ _ _
                    Hmk ltac:(congruence) eq_refl) as [Hmade Hthere]
    end.
    split; intros _ Hin; in_trace; auto.
Qed.

(** What a call that returns leaves behind. *)
Lemma clobber_success_marker new w w' out :
  get_build_dir h (builder h) false w = (Return out, w) →
  clobber_if_necessary h new w = (Return (), w') →
  nodes (fs w') !! landmines_path_of out = Some (File (concat_lines new))
  ∧ (landmines_path_of out ∉ locked (fs w'))
  ∧ environ w' = environ w.
Proof.
  intros Hout Hrun.
  run_cases Hout Hrun; cbn [fs environ];
    apply fs_writelines_ok in Hwr as (Hn & Hl & _); rewrite Hn;
    by rewrite lookup_insert_eq.
Qed.

(** C2: when the lines of the marker differ from the new landmines, the
    call asks for the recursive removal of the build output directory. If
    the removal fails the call ends there, with that error. If it goes
    through, the marker is written only after it, and nothing is left at or
    below the output directory. And it does go through when [os.makedirs]
    has made the directory or the directory was there before the call, and
    no entry at or below it is protected. *)
Theorem clobber_before_rewrite new w out c r w' :
  get_build_dir h (builder h) false w = (Return out, w) →
  nodes (fs w) !! landmines_path_of out = Some (File c) →
  readlines c ≠ new →
  clobber_if_necessary h new w = (r, w') →
  ∃ r1 r2 after,
    trace w' = trace w ++
      [EvMakedirs out r1; EvExists (landmines_path_of out) true;
       EvReadlines (landmines_path_of out) (inr (readlines c));
       EvStdout ("Clobbering due to:" +:+ nl); EvDiff (readlines c) new;
       EvRmtree out r2] ++ after
    ∧ match r2 with
      | Some e => r = Raise (OSError e) ∧ after = []
      | None =>
          (∃ r3, after = [EvWritelines (landmines_path_of out) new r3])
          ∧ (∀ k, out `prefix_of` k → nodes (fs w') !! k = None)
      end
    ∧ (r1 = None ∨ nodes (fs w) !! out = Some Dir →
       blockers out (fs w) = ∅ → r2 = None).
Proof.
  intros Hout Hmarker Hdiff Hrun.
  pose proof (fs_makedirs_preserves out _ _ _ Hmarker) as Hkept.
  pose proof (fs_makedirs_preserves out (fs w) out Dir) as Hdir.
  pose proof (fs_makedirs_blockers out out (fs w)) as Hblockers.
  pose proof (fs_makedirs_result out (fs w)) as Hmade.
  run_cases Hout Hrun; cbn [snd] in Hkept, Hdir, Hblockers;
    rewrite Hkept in Hm; simplify_eq.
  - exists r1, (Some e2), []. rewrite app_nil_r. split; [done |]. split; [done |].
    intros Hthere Hnone. exfalso.
    assert (nodes f1 !! out = Some Dir) as Hout1.
    { destruct Hthere as [-> | Hthere]; [by apply (Hmade _ _ eq_refl) | auto]. }
    pose proof (fs_rmtree_goes out f1 Hout1 (Hblockers Hnone)) as Hgoes.
    by rewrite Hrm in Hgoes.
  - exists r1, None, [EvWritelines (landmines_path_of out) new (Some e3)].
    split; [done |]. split; [| done]. split; [by eexists |].
    apply fs_writelines_err in Hwr as ->.
    by apply fs_rmtree_ok in Hrm as (_ & Hgone & _).
  - exists r1, None, [EvWritelines (landmines_path_of out) new None].
    split; [done |]. split; [| done]. split; [by eexists |].
    apply fs_rmtree_ok in Hrm as (Hdir' & Hgone & _).
    apply fs_writelines_ok in Hwr as (Hn & _ & _ & Hparent).
    intros k Hk. cbn [fs]. rewrite Hn.
    destruct (decide (landmines_path_of out = k)) as [<-|Hother].
    + exfalso. assert (landmines_path_of out ≠ out) as Hmo by congruence.
      pose proof (prefix_parent _ _ Hk Hmo) as Hpar.
      rewrite (Hgone _ Hpar) in Hparent. by specialize (Hparent (Hgone _ Hk)).
    + rewrite lookup_insert_ne by done. by apply Hgone.
Qed.

(** Whatever error [os.makedirs] ends with, the call goes on to look for
    the marker: the handler tests for "already exists" and lets every other
    error go as well. *)
Lemma makedirs_error_ignored new w out e r w' :
  get_build_dir h (builder h) false w = (Return out, w) →
  (fs_makedirs out (fs w)).1 = Some e →
  clobber_if_necessary h new w = (r, w') →
  ∃ present evs,
    trace w' = trace w ++ EvMakedirs out (Some e)
                          :: EvExists (landmines_path_of out) present :: evs.
Proof.
  intros Hout Hfail Hrun.
  run_cases Hout Hrun; cbn [fst] in Hfail; subst r1; cbn [trace]; by eexists _, _.
Qed.

(** C5: when the removal of the build output directory fails, the call
    ends with that error, the marker is not written, and the marker file
    holds what it held before the call. The marker lies beside the output
    directory, not inside it. *)
Theorem marker_kept_when_removal_fails new w out c r w' evs e :
  get_build_dir h (builder h) false w = (Return out, w) →
  nodes (fs w) !! landmines_path_of out = Some (File c) →
  ¬ out `prefix_of` landmines_path_of out →
  clobber_if_necessary h new w = (r, w') →
  trace w' = trace w ++ evs →
  EvRmtree out (Some e) ∈ evs →
  r = Raise (OSError e)
  ∧ nodes (fs w') !! landmines_path_of out = Some (File c)
  ∧ (∀ p ls r3, EvWritelines p ls r3 ∉ evs).
Proof.
  intros Hout Hmarker Hbeside Hrun Htrace Hin.
  pose proof (fs_makedirs_preserves out _ _ _ Hmarker) as Hkept.
  run_cases Hout Hrun; cbn [snd] in Hkept; cbn [trace] in Htrace;
    apply app_inv_head in Htrace; subst evs; in_trace.
  split; [done |]. split.
  - cbn [fs]. by rewrite (fs_rmtree_outside _ _ _ _ _ Hrm Hbeside).
  - intros p ls r3 Hw. in_trace.
Qed.

(** C6: the old and the new landmines are compared as sequences. The
    removal of the build output directory is asked for exactly when the
    lines of the marker are not the new landmines, one by one and in order;
    so it is for the same lines in another order. *)
Theorem reordering_clobbers new w out c r w' evs :
  get_build_dir h (builder h) false w = (Return out, w) →
  nodes (fs w) !! landmines_path_of out = Some (File c) →
  clobber_if_necessary h new w = (r, w') →
  trace w' = trace w ++ evs →
  ((∃ r2, EvRmtree out r2 ∈ evs) ↔ readlines c ≠ new)
  ∧ (readlines c ≡ₚ new → readlines c ≠ new →
     EvDiff (readlines c) new ∈ evs ∧ ∃ r2, EvRmtree out r2 ∈ evs).
Proof.
  intros Hout Hmarker Hrun Htrace.
  pose proof (fs_makedirs_preserves out _ _ _ Hmarker) as Hkept.
  assert (((∃ r2, EvRmtree out r2 ∈ evs) ↔ readlines c ≠ new)
          ∧ (readlines c ≠ new → EvDiff (readlines c) new ∈ evs)) as [Hiff Hd].
  { run_cases Hout Hrun; cbn [snd] in Hkept; rewrite Hkept in Hm; simplify_eq;
      cbn [trace] in Htrace; apply app_inv_head in Htrace; subst evs.
    - split; [| done]. split; [intros [r2 Hin]; in_trace | done].
    - split; [| done]. split; [intros [r2 Hin]; in_trace | done].
    - split; [split; [done |]; intros _; eexists |]; has_event.
    - split; [split; [done |]; intros _; eexists |]; has_event.
    - split; [split; [done |]; intros _; eexists |]; has_event. }
  split; [done |]. intros _ Hne'. split; [by apply Hd | by apply Hiff].
Qed.

(** C7: after a call that returned, a second call with the same landmines,
    each ending with its only line feed, returns too. It asks for no
    removal: it makes sure of the directory, reads the marker, finds the new
    landmines in it, and writes them again. After each of the two calls the
    marker reads back as the new landmines. *)
Theorem second_call_no_clobber new w w1 :
  Forall landmine_line new →
  clobber_if_necessary h new w = (Return (), w1) →
  ∃ out w2 r1,
    get_build_dir h (builder h) false w = (Return out, w)
    ∧ clobber_if_necessary h new w1 = (Return (), w2)
    ∧ trace w2 = trace w1 ++
        [EvMakedirs out r1; EvExists (landmines_path_of out) true;
         EvReadlines (landmines_path_of out) (inr new);
         EvWritelines (landmines_path_of out) new None]
    ∧ fs_readlines (landmines_path_of out) (fs w1) = inr new
    ∧ fs_readlines (landmines_path_of out) (fs w2) = inr new.
Proof.
  intros Hlines Hrun. destruct (clobber_success_out _ _ _ _ Hrun) as [out Hout].
  destruct (clobber_success_marker _ _ _ _ Hout Hrun) as (Hmarker & Hfree & Henv).
  assert (get_build_dir h (builder h) false w1 = (Return out, w1)) as Hout1
    by (by apply (get_build_dir_env _ _ _ w)).
  pose proof (readlines_concat_lines new Hlines) as Hback.
  pose proof (fs_makedirs_preserves out _ _ _ Hmarker) as Hkept.
  destruct (fs_makedirs_grows out (fs w1)) as [_ Hlocked].
  exists out.
  destruct (clobber_if_necessary h new w1) as [r w2] eqn:Hrun2.
  assert (fs_readlines (landmines_path_of out) (fs w1) = inr new) as Hread1
    by (by rewrite (fs_readlines_file _ _ _ Hmarker), Hback).
  run_cases Hout1 Hrun2; cbn [snd] in Hkept, Hlocked;
    rewrite Hkept in Hm; simplify_eq; try congruence.
  - assert (landmines_path_of out ∉ locked f1) as Hfree1 by set_solver.
    match type of Hwr with
    | fs_writelines _ ?ls _ = _ =>
        pose proof (fs_writelines_file _ ls _ _ Hkept Hfree1) as Hw
    end.
    rewrite Hwr in Hw. discriminate Hw.
  - eexists _, r1. split; [done |]. split; [done |].
    split; [done |]. split; [done |]. cbn [fs].
    apply fs_writelines_ok in Hwr as (Hn & _).
    unfold fs_readlines. by rewrite Hn, lookup_insert_eq, Hback.
Qed.

(** C3, as amended: with no new landmine and a marker that is absent or
    empty, the call removes nothing and changes nothing that exists. It does
    call [os.makedirs], so that directories on the way to the build output
    directory may appear, and when it returns the marker is an empty file,
    made by the call if there was none. *)
Theorem empty_landmines_remove_nothing w out r w' :
  get_build_dir h (builder h) false w = (Return out, w) →
  nodes (fs w) !! landmines_path_of out = None
  ∨ nodes (fs w) !! landmines_path_of out = Some (File "") →
  clobber_if_necessary h [] w = (r, w') →
  (∀ k v, nodes (fs w) !! k = Some v → nodes (fs w') !! k = Some v)
  ∧ (∀ k v, nodes (fs w) !! k = None → nodes (fs w') !! k = Some v →
       (v = Dir ∧ k `prefix_of` out)
       ∨ (v = File "" ∧ k = landmines_path_of out))
  ∧ (∃ r1 evs, trace w' = trace w ++ EvMakedirs out r1 :: evs
               ∧ ∀ p r2, EvRmtree p r2 ∉ evs)
  ∧ (r = Return () → nodes (fs w') !! landmines_path_of out = Some (File "")).
Proof.
  intros Hout Hmarker Hrun.
  destruct (fs_makedirs_grows out (fs w)) as [Hgrow _].
  assert (∀ f1, (fs_makedirs out (fs w)).2 = f1 →
    (∀ k v, nodes (fs w) !! k = Some v → nodes f1 !! k = Some v)
    ∧ (∀ k v, nodes (fs w) !! k = None → nodes f1 !! k = Some v →
         v = Dir ∧ k `prefix_of` out)) as Hframe.
  { intros f1 <-. split; intros k v Hk; destruct (Hgrow k) as [E|(N & D & P)];
      try congruence. intros Hv. rewrite D in Hv. by simplify_eq. }
  run_cases Hout Hrun; destruct (Hframe _ eq_refl) as [Hold Hnew];
    clear Hframe Hgrow; cbn [snd] in Hold, Hnew; cbn [fs trace].
  - split; [done |]. split; [naive_solver |]. split; [| done].
    eexists _, _. split; [done |]. intros p r2 Hin. in_trace.
  - apply fs_writelines_err in Hwr as ->.
    split; [done |]. split; [naive_solver |]. split; [| done].
    eexists _, _. split; [done |]. intros p r2 Hin. in_trace.
  - apply fs_writelines_ok in Hwr as (Hn & _). rewrite Hn.
    assert (c0 = "") as ->.
    { destruct Hmarker as [Hno|Hempty].
      - destruct (Hnew _ _ Hno Hm) as [? _]. done.
      - apply Hold in Hempty. congruence. }
    rewrite (insert_id _ _ _ Hm).
    split; [done |]. split; [naive_solver |]. split; [| done].
    eexists _, _. split; [done |]. intros p r2 Hin. in_trace.
  - exfalso. destruct Hmarker as [Hno|Hempty].
    + destruct (Hnew _ _ Hno Hm) as [? _]. done.
    + apply Hold in Hempty. rewrite Hempty in Hm. by simplify_eq.
  - exfalso. destruct Hmarker as [Hno|Hempty].
    + destruct (Hnew _ _ Hno Hm) as [? _]. done.
    + apply Hold in Hempty. rewrite Hempty in Hm. by simplify_eq.
  - exfalso. destruct Hmarker as [Hno|Hempty].
    + destruct (Hnew _ _ Hno Hm) as [? _]. done.
    + apply Hold in Hempty. rewrite Hempty in Hm. by simplify_eq.
  - apply fs_writelines_err in Hwr as ->.
    split; [done |]. split; [naive_solver |]. split; [| done].
    eexists _, _. split; [done |]. intros p r2 Hin. in_trace.
  - apply fs_writelines_ok in Hwr as (Hn & _). rewrite Hn.
    split; [| split; [| split]].
    + intros k v Hk. apply Hold in Hk.
      rewrite lookup_insert_ne; [done | congruence].
    + intros k v Hk. destruct (decide (landmines_path_of out = k)) as [<-|Hother].
      * rewrite lookup_insert_eq. intros [= <-]. by right.
      * rewrite lookup_insert_ne by done. intros Hv. left. by eapply Hnew.
    + eexists _, _. split; [done |]. intros p r2 Hin. in_trace.
    + intros _. by rewrite lookup_insert_eq.
Qed.

Lemma normpath_snoc (p : path) (c : string) :
  os_path_normpath p = p → c ≠ "" → c ≠ "." → c ≠ ".." →
  os_path_normpath (p ++ [c]) = p ++ [c].
Proof.
  unfold os_path_normpath. intros Hp H1 H2 H3.
  rewrite fold_left_app. cbn [fold_left]. unfold norm_step at 1.
  destruct (decide (c = "" ∨ c = ".")) as [[?|?]|_]; [done | done |].
  destruct (decide (c = "..")); [done |]. cbn [rev]. by rewrite Hp.
Qed.

(** C8: the build output directory by build tool. The names are compared
    as they are written: [xcode] gives [xcodebuild] under the source
    directory, [make], [ninja] and [ninja-ios] give what the variable
    [CHROMIUM_OUT_DIR] holds, or [out], joined to the source directory,
    [msvs], [vs] and [ib] give [build] under it, each made absolute. Any
    other name raises [NotImplementedError], and then a call of the guard
    ends with that exception before it made any call to the file system. *)
Theorem build_dir_mapping w b i :
  (b = "xcode" →
   get_build_dir h b i w
   = (Return (os_path_abspath (SRC_DIR h ++ ["xcodebuild"])), w))
  ∧ (b ∈ ["make"; "ninja"; "ninja-ios"] →
     get_build_dir h b i w
     = (Return (os_path_abspath
                  (os_path_join (SRC_DIR h)
                     (default "out" (environ w !! "CHROMIUM_OUT_DIR")))), w))
  ∧ (b ∈ ["msvs"; "vs"; "ib"] →
     get_build_dir h b i w
     = (Return (os_path_abspath (SRC_DIR h ++ ["build"])), w))
  ∧ (b ∉ ["xcode"; "make"; "ninja"; "ninja-ios"; "msvs"; "vs"; "ib"] →
     get_build_dir h b i w
     = (Raise (NotImplementedError ("Unexpected GYP_GENERATORS (" +:+ b +:+ ")")),
        w))
  ∧ (builder h ∉ ["xcode"; "make"; "ninja"; "ninja-ios"; "msvs"; "vs"; "ib"] →
     ∀ new, clobber_if_necessary h new w
            = (Raise (NotImplementedError
                        ("Unexpected GYP_GENERATORS (" +:+ builder h +:+ ")")),
               w))
  ∧ (os_path_normpath (SRC_DIR h) = SRC_DIR h →
     os_path_abspath (SRC_DIR h ++ ["xcodebuild"]) = SRC_DIR h ++ ["xcodebuild"]
     ∧ os_path_abspath (os_path_join (SRC_DIR h) "out") = SRC_DIR h ++ ["out"]
     ∧ os_path_abspath (SRC_DIR h ++ ["build"]) = SRC_DIR h ++ ["build"]).
Proof.
  assert (∀ b', b' ∉ ["xcode"; "make"; "ninja"; "ninja-ios"; "msvs"; "vs"; "ib"] →
    get_build_dir h b' i w
    = (Raise (NotImplementedError ("Unexpected GYP_GENERATORS (" +:+ b' +:+ ")")),
       w)) as Hother.
  { intros b' Hb. unfold get_build_dir. rewrite bind_run. cbn [get_environ].
    rewrite bind_run.
    destruct (decide (b' = "xcode")); [not_listed |].
    destruct (decide (b' ∈ ["make"; "ninja"; "ninja-ios"])) as [Hin|_];
      [not_listed |].
    destruct (decide (b' ∈ ["msvs"; "vs"; "ib"])) as [Hin|_]; [not_listed |].
    done. }
  repeat split.
  - intros ->. reflexivity.
  - intros Hb. unfold get_build_dir. rewrite bind_run. cbn [get_environ].
    rewrite bind_run.
    destruct (decide (b = "xcode")) as [->|_]; [not_listed |].
    by destruct (decide (b ∈ ["make"; "ninja"; "ninja-ios"])).
  - intros Hb. unfold get_build_dir. rewrite bind_run. cbn [get_environ].
    rewrite bind_run.
    destruct (decide (b = "xcode")) as [->|_]; [not_listed |].
    destruct (decide (b ∈ ["make"; "ninja"; "ninja-ios"])) as [Hin|_].
    { not_listed; subst; not_listed. }
    by destruct (decide (b ∈ ["msvs"; "vs"; "ib"])).
  - apply Hother.
  - intros Hb new. apply clobber_no_build_dir. destruct i; by apply Hother.
  - by apply normpath_snoc.
  - by apply normpath_snoc.
  - by apply normpath_snoc.
Qed.

(** Reading the options changes neither the file system nor the
    environment; all it may add to the trace is the set-up of [logging]. *)
Lemma process_options_run w :
  fs (process_options h w).2 = fs w
  ∧ environ (process_options h w).2 = environ w
  ∧ ∃ evs, trace (process_options h w).2 = trace w ++ evs
           ∧ ∀ ev, ev ∈ evs → ∃ debug, ev = EvLogging debug.
Proof.
  unfold process_options, mbind, Py_bind, mret, Py_ret, get_environ, raise, emit.
  destruct (parse_args h _ _) as [code|opts args].
  { repeat split. exists []. split; [by rewrite app_nil_r |]. intros ev Hin. in_trace. }
  destruct (decide (args ≠ [])).
  { repeat split. exists []. split; [by rewrite app_nil_r |]. intros ev Hin. in_trace. }
  assert (∀ ev, ev ∈ [EvLogging (verbose opts)] → ∃ debug, ev = EvLogging debug)
    by (intros ev Hin; in_trace; eauto).
  destruct (environ w !! "EXTRA_LANDMINES_SCRIPT") as [extra|];
    [destruct (decide (extra ≠ "")) |]; cbn [fs environ trace snd]; eauto 6.
Qed.

Lemma process_options_accepted w opts :
  parse_args h
    [path_str (os_path_join (os_path_join (SRC_DIR h) "build") "get_landmines.py")]
    (bool_decide (is_Some (environ w !! "LANDMINES_VERBOSE")))
  = Parsed opts [] →
  ∃ scripts,
    process_options h w
    = (Return scripts,
       World (fs w) (environ w) (trace w ++ [EvLogging (verbose opts)])).
Proof.
  unfold process_options, mbind, Py_bind, mret, Py_ret, get_environ, raise, emit.
  intros ->. destruct (decide ([] ≠ [])); [done |].
  destruct (environ w !! "EXTRA_LANDMINES_SCRIPT") as [extra|];
    [destruct (decide (extra ≠ "")) |]; cbn [fs environ trace]; eauto.
Qed.

(** C9: for the builders [dump_dependency_json] and [eclipse], [main]
    leaves the file system and the environment as they are and makes no
    call to the file system; with a command line that the option parser
    accepts it returns 0, which is the exit status of the process. *)
Theorem skip_builders_touch_nothing w :
  builder h ∈ ["dump_dependency_json"; "eclipse"] →
  fs (main h w).2 = fs w
  ∧ environ (main h w).2 = environ w
  ∧ (∃ evs, trace (main h w).2 = trace w ++ evs
            ∧ ∀ ev, ev ∈ evs → ∃ debug, ev = EvLogging debug)
  ∧ (∀ opts,
       parse_args h
         [path_str (os_path_join (os_path_join (SRC_DIR h) "build")
                      "get_landmines.py")]
         (bool_decide (is_Some (environ w !! "LANDMINES_VERBOSE")))
       = Parsed opts [] →
       main h w = (Return 0%Z,
                   World (fs w) (environ w) (trace w ++ [EvLogging (verbose opts)]))
       ∧ (exit_status h w).1 = 0%Z).
Proof.
  intros Hskip.
  assert (main h w = match process_options h w with
                     | (Return _, w') => (Return 0%Z, w')
                     | (Raise e, w') => (Raise e, w')
                     end) as Hmain.
  { unfold main. rewrite bind_run. destruct (process_options h w) as [[scripts|e] w1];
      [| done]. by destruct (decide (builder h ∈ _)). }
  destruct (process_options_run w) as (Hfs & Henv & Htrace).
  split; [| split; [| split]].
  - rewrite Hmain. by destruct (process_options h w) as [[?|?] ?].
  - rewrite Hmain. by destruct (process_options h w) as [[?|?] ?].
  - rewrite Hmain. by destruct (process_options h w) as [[?|?] ?].
  - intros opts Hparsed. unfold exit_status. rewrite Hmain.
    by destruct (process_options_accepted w opts Hparsed) as [scripts ->].
Qed.

(** The lines [main] hands to the guard all end with their only line
    feed. *)
Lemma lines_of_output_lines output : Forall landmine_line (lines_of_output output).
Proof.
  unfold lines_of_output. apply Forall_map.
  eapply Forall_impl; [apply (splitlines_aux_no_LF (String.length output)); done |].
  intros l Hl. exists (strip l). split; [done | by apply strip_no_char].
Qed.

Lemma main_landmines_lines scripts :
  Forall landmine_line
    (concat (map (λ s, lines_of_output (run_script h s)) scripts)).
Proof.
  apply Forall_concat, Forall_map, Forall_forall. intros s _.
  apply lines_of_output_lines.
Qed.

End Guard.

(** *** The guard on sample inputs *)

Import Samples.

Lemma sample_build_dir w :
  environ w = ∅ →
  get_build_dir sample_host (builder sample_host) false w = (Return out_dir, w).
Proof.
  intros Henv. unfold get_build_dir. rewrite bind_run. cbn [get_environ].
  rewrite Henv. reflexivity.
Qed.

Lemma sample_marker : landmines_path_of out_dir = marker.
Proof. reflexivity. Qed.

(** C1, as stated, fails: the call below returns, it clobbered, and there
    is no build output directory afterwards. *)
Lemma out_dir_missing_after_clobber :
  let run := clobber_if_necessary sample_host ["y" +:+ nl] world_built in
  run.1 = Return ()
  ∧ EvRmtree out_dir None ∈ trace run.2
  ∧ nodes (fs run.2) !! landmines_path_of out_dir = Some (File ("y" +:+ nl))
  ∧ ¬ is_Some (nodes (fs run.2) !! out_dir).
Proof.
  vm_compute. split; [done |]. split; [has_event |]. split; [done |].
  by intros [? ?].
Qed.

(** Where a regular file has the name of the output directory the call
    returns, [os.makedirs] has said "already exists", and the file is still
    there: no build output directory. *)
Lemma out_dir_stays_a_file :
  run_file_at_out.1 = Return ()
  ∧ EvMakedirs out_dir (Some EEXIST) ∈ trace run_file_at_out.2
  ∧ (∀ r, EvRmtree out_dir r ∉ trace run_file_at_out.2)
  ∧ nodes (fs run_file_at_out.2) !! out_dir = Some (File "not a directory").
Proof.
  assert (run_file_at_out
          = (Return (),
             World (fs run_file_at_out.2) ∅
               [EvMakedirs out_dir (Some EEXIST);
                EvExists (landmines_path_of out_dir) true;
                EvReadlines (landmines_path_of out_dir) (inr ["x" +:+ nl]);
                EvWritelines (landmines_path_of out_dir) ["x" +:+ nl] None]))
    as Hrun by (vm_compute; reflexivity).
  split; [by rewrite Hrun |]. split; [rewrite Hrun; has_event |].
  split; [intros r Hin; rewrite Hrun in Hin; cbn [snd trace] in Hin; in_trace |].
  vm_compute. reflexivity.
Qed.

Lemma marker_and_out_dir_after_success_witness :
  run_changed = (Return (), run_changed.2)
  ∧ ∃ out evs,
      get_build_dir sample_host (builder sample_host) false world_built
      = (Return out, world_built)
      ∧ trace run_changed.2 = trace world_built ++ evs
      ∧ nodes (fs run_changed.2) !! landmines_path_of out
        = Some (File (concat_lines ["y" +:+ nl]))
      ∧ (Forall landmine_line ["y" +:+ nl] →
         fs_readlines (landmines_path_of out) (fs run_changed.2)
         = inr ["y" +:+ nl])
      ∧ (EvRmtree out None ∈ evs → nodes (fs run_changed.2) !! out = None)
      ∧ (EvRmtree out None ∉ evs → EvMakedirs out None ∈ evs →
         nodes (fs run_changed.2) !! out = Some Dir)
      ∧ (EvRmtree out None ∉ evs → EvMakedirs out (Some EEXIST) ∈ evs →
         (nodes (fs world_built) !! out = Some Dir
          ∧ nodes (fs run_changed.2) !! out = Some Dir)
         ∨ (∃ c c', nodes (fs world_built) !! out = Some (File c)
                    ∧ nodes (fs run_changed.2) !! out = Some (File c'))).
Proof.
  assert (run_changed = (Return (), run_changed.2)) as Hrun
    by (vm_compute; reflexivity).
  split; [exact Hrun |].
  exact (marker_and_out_dir_after_success sample_host _ _ _ Hrun).
Defined.

Lemma clobber_before_rewrite_witness :
  nodes (fs world_built) !! (out_dir ++ ["obj"; "a.o"]) = Some (File "code")
  ∧ ∃ r1 after,
      trace run_changed.2 = trace world_built ++
        [EvMakedirs out_dir r1; EvExists (landmines_path_of out_dir) true;
         EvReadlines (landmines_path_of out_dir) (inr (readlines ("x" +:+ nl)));
         EvStdout ("Clobbering due to:" +:+ nl);
         EvDiff (readlines ("x" +:+ nl)) ["y" +:+ nl];
         EvRmtree out_dir None] ++ after
      ∧ (∃ r3, after = [EvWritelines (landmines_path_of out_dir) ["y" +:+ nl] r3])
      ∧ (∀ k, out_dir `prefix_of` k → nodes (fs run_changed.2) !! k = None).
Proof.
  split; [vm_compute; reflexivity |].
  destruct (clobber_before_rewrite sample_host ["y" +:+ nl] world_built out_dir
              ("x" +:+ nl) run_changed.1 run_changed.2)
    as (r1 & r2 & after & Htrace & Hcourse & Hgoes).
  - by apply sample_build_dir.
  - vm_compute. reflexivity.
  - vm_compute. intros Heq. discriminate Heq.
  - apply surjective_pairing.
  - assert (r2 = None) as ->.
    { apply Hgoes; [right |]; vm_compute; reflexivity. }
    exists r1, after. split; [exact Htrace | exact Hcourse].
Defined.

(** C3, as stated, fails: with no landmine and no marker, the call below
    makes the build output directory and writes a marker file. *)
Lemma empty_call_makes_directory_and_marker :
  nodes (fs world_fresh) !! landmines_path_of out_dir = None
  ∧ nodes (fs world_fresh) !! out_dir = None
  ∧ run_fresh_empty.1 = Return ()
  ∧ nodes (fs run_fresh_empty.2) !! out_dir = Some Dir
  ∧ nodes (fs run_fresh_empty.2) !! landmines_path_of out_dir = Some (File "")
  ∧ trace run_fresh_empty.2
    = [EvMakedirs out_dir None; EvExists marker false; EvWritelines marker [] None]
  ∧ fs run_fresh_empty.2 ≠ fs world_fresh.
Proof.
  repeat split; try (vm_compute; reflexivity).
  intros Heq. apply (f_equal (λ f, nodes f !! out_dir)) in Heq.
  vm_compute in Heq. discriminate Heq.
Qed.

Lemma empty_landmines_remove_nothing_witness :
  (∀ k v, nodes (fs world_fresh) !! k = Some v →
          nodes (fs run_fresh_empty.2) !! k = Some v)
  ∧ (∀ k v, nodes (fs world_fresh) !! k = None →
            nodes (fs run_fresh_empty.2) !! k = Some v →
       (v = Dir ∧ k `prefix_of` out_dir)
       ∨ (v = File "" ∧ k = landmines_path_of out_dir))
  ∧ (∃ r1 evs, trace run_fresh_empty.2 = trace world_fresh ++ EvMakedirs out_dir r1 :: evs
               ∧ ∀ p r2, EvRmtree p r2 ∉ evs)
  ∧ (run_fresh_empty.1 = Return () →
     nodes (fs run_fresh_empty.2) !! landmines_path_of out_dir = Some (File "")).
Proof.
  apply (empty_landmines_remove_nothing sample_host world_fresh out_dir).
  - by apply sample_build_dir.
  - left. vm_compute. reflexivity.
  - apply surjective_pairing.
Defined.

(** C4 fails on the code: the checkout takes no new entry, [os.makedirs]
    fails with [EACCES], and the call goes on and returns as if nothing had
    happened, with no build output directory. *)
Lemma makedirs_failure_swallowed :
  run_readonly.1 = Return ()
  ∧ trace run_readonly.2
    = [EvMakedirs out_dir (Some EACCES); EvExists marker true;
       EvReadlines marker (inr ["x" +:+ nl]);
       EvWritelines marker ["x" +:+ nl] None]
  ∧ nodes (fs run_readonly.2) !! out_dir = None.
Proof. repeat split; vm_compute; reflexivity. Qed.

Lemma marker_kept_when_removal_fails_witness :
  run_busy.1 = Raise (OSError EACCES)
  ∧ nodes (fs run_busy.2) !! landmines_path_of out_dir = Some (File ("x" +:+ nl))
  ∧ (∀ p ls r3, EvWritelines p ls r3 ∉ trace run_busy.2).
Proof.
  apply (marker_kept_when_removal_fails sample_host ["y" +:+ nl] world_busy out_dir
           ("x" +:+ nl) run_busy.1 run_busy.2 (trace run_busy.2) EACCES).
  - by apply sample_build_dir.
  - vm_compute. reflexivity.
  - apply (bool_decide_eq_false_1 _). vm_compute. reflexivity.
  - apply surjective_pairing.
  - reflexivity.
  - vm_compute. has_event.
Defined.

Lemma reordering_clobbers_witness :
  ((∃ r2, EvRmtree out_dir r2 ∈ trace run_swapped.2)
   ↔ readlines ("a" +:+ nl +:+ "b" +:+ nl) ≠ ["b" +:+ nl; "a" +:+ nl])
  ∧ (readlines ("a" +:+ nl +:+ "b" +:+ nl) ≡ₚ ["b" +:+ nl; "a" +:+ nl] →
     readlines ("a" +:+ nl +:+ "b" +:+ nl) ≠ ["b" +:+ nl; "a" +:+ nl] →
     EvDiff (readlines ("a" +:+ nl +:+ "b" +:+ nl)) ["b" +:+ nl; "a" +:+ nl]
       ∈ trace run_swapped.2
     ∧ ∃ r2, EvRmtree out_dir r2 ∈ trace run_swapped.2).
Proof.
  apply (reordering_clobbers sample_host ["b" +:+ nl; "a" +:+ nl] world_two out_dir
           ("a" +:+ nl +:+ "b" +:+ nl) run_swapped.1 run_swapped.2).
  - by apply sample_build_dir.
  - vm_compute. reflexivity.
  - apply surjective_pairing.
  - reflexivity.
Defined.

(** The two lists of the sample hold the same lines, in another order, and
    the call clobbers. *)
Lemma swapped_landmines_clobber :
  readlines ("a" +:+ nl +:+ "b" +:+ nl) ≡ₚ ["b" +:+ nl; "a" +:+ nl]
  ∧ EvRmtree out_dir None ∈ trace run_swapped.2
  ∧ nodes (fs run_swapped.2) !! out_dir = None.
Proof.
  split; [apply perm_swap |]. split; [vm_compute; has_event |].
  vm_compute. reflexivity.
Qed.

Lemma second_call_no_clobber_witness :
  ∃ out w2 r1,
    get_build_dir sample_host (builder sample_host) false world_fresh
    = (Return out, world_fresh)
    ∧ clobber_if_necessary sample_host first_lines run_first.2 = (Return (), w2)
    ∧ trace w2 = trace run_first.2 ++
        [EvMakedirs out r1; EvExists (landmines_path_of out) true;
         EvReadlines (landmines_path_of out) (inr first_lines);
         EvWritelines (landmines_path_of out) first_lines None]
    ∧ fs_readlines (landmines_path_of out) (fs run_first.2) = inr first_lines
    ∧ fs_readlines (landmines_path_of out) (fs w2) = inr first_lines.
Proof.
  apply (second_call_no_clobber sample_host first_lines world_fresh run_first.2).
  - apply lines_of_output_lines.
  - vm_compute. reflexivity.
Defined.

Lemma build_dir_mapping_witness :
  get_build_dir sample_host "xcode" false world_fresh
  = (Return ["b"; "src"; "xcodebuild"], world_fresh)
  ∧ get_build_dir sample_host "ninja" false world_fresh
    = (Return ["b"; "src"; "out"], world_fresh)
  ∧ get_build_dir sample_host "vs" false world_fresh
    = (Return ["b"; "src"; "build"], world_fresh)
  ∧ get_build_dir sample_host "Xcode" false world_fresh
    = (Raise (NotImplementedError "Unexpected GYP_GENERATORS (Xcode)"), world_fresh)
  ∧ clobber_if_necessary eclipse_host ["y" +:+ nl] world_built
    = (Raise (NotImplementedError "Unexpected GYP_GENERATORS (eclipse)"), world_built).
Proof.
  split; [| split; [| split; [| split]]].
  - apply (proj1 (build_dir_mapping sample_host world_fresh "xcode" false)).
    reflexivity.
  - apply (proj1 (proj2 (build_dir_mapping sample_host world_fresh "ninja" false))).
    has_event.
  - apply (proj1 (proj2 (proj2
             (build_dir_mapping sample_host world_fresh "vs" false)))).
    has_event.
  - apply (proj1 (proj2 (proj2 (proj2
             (build_dir_mapping sample_host world_fresh "Xcode" false))))).
    apply (bool_decide_eq_false_1 _). vm_compute. reflexivity.
  - apply (proj1 (proj2 (proj2 (proj2 (proj2
             (build_dir_mapping eclipse_host world_built "" false)))))).
    apply (bool_decide_eq_false_1 _). vm_compute. reflexivity.
Defined.

Lemma skip_builders_touch_nothing_witness :
  fs (main eclipse_host world_built).2 = fs world_built
  ∧ main eclipse_host world_built
    = (Return 0%Z,
       World (fs world_built) (environ world_built)
             (trace world_built ++ [EvLogging false]))
  ∧ (exit_status eclipse_host world_built).1 = 0%Z.
Proof.
  assert (builder eclipse_host ∈ ["dump_dependency_json"; "eclipse"]) as Hskip
    by has_event.
  destruct (skip_builders_touch_nothing eclipse_host world_built Hskip)
    as (Hfs & _ & _ & Hexit).
  split; [exact Hfs |].
  apply (Hexit (Options ["/b/src/build/get_landmines.py"] false)). reflexivity.
Defined.

End LandminesFacts.

(** ** The DEPS scraper *)

Module ChromiumDepsFacts.
Import PyStr PyStrFacts ChromiumDeps.

Section Components.
Context (x : externals).

Lemma bind_Ok_inv {A B} (m : result A) (k : A → result B) b :
  m ≫= k = Ok b → ∃ a, m = Ok a ∧ k a = Ok b.
Proof. destruct m as [a|e]; [by exists a | done]. Qed.

(** Every key ends with a slash and is the [path] of its component. *)
Lemma component_step_keys st item st' :
  component_step x st item = Ok st' →
  map_Forall (λ k c, endswith "/" k = true ∧ path c = k) st.1 →
  map_Forall (λ k c, endswith "/" k = true ∧ path c = k) st'.1.
Proof.
  destruct st as [components g], item as [component_path value].
  unfold component_step. intros H.
  apply bind_Ok_inv in H as ([repository revision] & _ & H).
  injection H as <-. intros Hkeys. cbn [fst] in *. apply map_Forall_insert_2; [| done].
  split; [| done].
  destruct (endswith "/" component_path) eqn:Hends; cbn [negb]; [done |].
  apply endswith_app.
Qed.

Lemma component_loop_keys items : ∀ st st',
  component_loop x items st = Ok st' →
  map_Forall (λ k c, endswith "/" k = true ∧ path c = k) st.1 →
  map_Forall (λ k c, endswith "/" k = true ∧ path c = k) st'.1.
Proof.
  induction items as [|item items IH]; intros st st'; cbn [component_loop].
  { by intros [= <-]. }
  intros H. apply bind_Ok_inv in H as (st1 & Hstep & Hloop).
  intros Hkeys. apply (IH _ _ Hloop).
  by apply (component_step_keys _ _ _ Hstep).
Qed.

(** C10: when [GetChromiumComponents] returns a map, every key of the map
    ends with a slash and is the [path] of its component, and the key
    [src/] is there, with the name [chromium] and the revision that was
    asked for. *)
Theorem components_keys_and_chromium chromium_revision os_platform downloader comps :
  GetChromiumComponents x chromium_revision os_platform downloader = Ok comps →
  (∀ k c, comps !! k = Some c → endswith "/" k = true ∧ path c = k)
  ∧ ∃ c, comps !! "src/" = Some c
         ∧ name c = "chromium" ∧ revision c = chromium_revision.
Proof.
  unfold GetChromiumComponents. intros H.
  apply bind_Ok_inv in H as (platform & _ & H).
  apply bind_Ok_inv in H as (url & _ & H).
  apply bind_Ok_inv in H as (content & _ & H).
  apply bind_Ok_inv in H as (content' & _ & H).
  apply bind_Ok_inv in H as ([deps deps_os] & _ & H).
  apply bind_Ok_inv in H as ([components g] & Hloop & H).
  apply component_loop_keys in Hloop; [| apply map_Forall_empty].
  cbn [fst] in Hloop.
  destruct (if g then _ else _) as [repository repository_type].
  injection H as <-. split.
  - apply map_Forall_insert_2; [by split | done].
  - eexists. by rewrite lookup_insert_eq.
Qed.

End Components.

Import Samples.

Lemma components_keys_and_chromium_witness :
  (∃ comps, sample_components = Ok comps ∧ size comps = 4)
  ∧ ∀ comps, sample_components = Ok comps →
      (∀ k c, comps !! k = Some c → endswith "/" k = true ∧ path c = k)
      ∧ ∃ c, comps !! "src/" = Some c
             ∧ name c = "chromium" ∧ revision c = "291560".
Proof.
  split.
  - eexists. split; [vm_compute; reflexivity | vm_compute; reflexivity].
  - intros comps.
    exact (components_keys_and_chromium sample_externals "291560" (Some "Linux")
             (λ url, Ok url) comps).
Defined.

End ChromiumDepsFacts.

(** ** More on the landmine guard *)

Module LandminesMore.
Import PyStr Posix Py Landmines LandminesRuns PyStrFacts PosixFacts LandminesFacts.

Section Guard.
Context (h : host).

(** X1: the first run. When there is no marker before the call, nothing is
    compared and nothing is removed, what exists stays as it is, and a call
    that returns leaves a marker that holds the new landmines. *)
Theorem first_run_no_clobber new w out r w' evs :
  get_build_dir h (builder h) false w = (Return out, w) →
  nodes (fs w) !! landmines_path_of out = None →
  clobber_if_necessary h new w = (r, w') →
  trace w' = trace w ++ evs →
  (∀ p r2, EvRmtree p r2 ∉ evs)
  ∧ (∀ old new', EvDiff old new' ∉ evs)
  ∧ (∀ k v, nodes (fs w) !! k = Some v → nodes (fs w') !! k = Some v)
  ∧ (r = Return () →
     nodes (fs w') !! landmines_path_of out = Some (File (concat_lines new))).
Proof.
  intros Hout Habsent Hrun Htrace.
  destruct (fs_makedirs_grows out (fs w)) as [Hgrow _].
  pose proof (Hgrow (landmines_path_of out)) as Hmarker.
  rewrite Habsent in Hmarker.
  run_cases Hout Hrun; cbn [snd] in Hgrow, Hmarker; cbn [trace] in Htrace;
    apply app_inv_head in Htrace; subst evs; rewrite Hm in Hmarker;
    try (by destruct Hmarker as [?|(_ & ? & _)]); cbn [fs].
  - repeat split; try (intros; intros Hin; in_trace); try done.
    intros k v Hk. destruct (Hgrow k) as [->|(? & _)]; congruence.
  - apply fs_writelines_err in Hwr as ->.
    repeat split; try (intros; intros Hin; in_trace); try done.
    intros k v Hk. destruct (Hgrow k) as [->|(? & _)]; congruence.
  - apply fs_writelines_ok in Hwr as (Hn & _). rewrite Hn.
    repeat split; try (intros; intros Hin; in_trace).
    + intros k v Hk. rewrite lookup_insert_ne by congruence.
      destruct (Hgrow k) as [->|(? & _)]; congruence.
    + intros _. by rewrite lookup_insert_eq.
Qed.

(** X2: the guard keeps to its own ground. Whatever the call does, a path
    that is neither the marker nor at or below the build output directory
    keeps its node; where there was none, there is none afterwards, or a
    directory that [os.makedirs] made on the way to the output directory. *)
Theorem guard_frame new w out r w' k :
  get_build_dir h (builder h) false w = (Return out, w) →
  clobber_if_necessary h new w = (r, w') →
  ¬ out `prefix_of` k →
  k ≠ landmines_path_of out →
  nodes (fs w') !! k = nodes (fs w) !! k
  ∨ (nodes (fs w) !! k = None ∧ nodes (fs w') !! k = Some Dir ∧ k `prefix_of` out).
Proof.
  intros Hout Hrun Hk Hkm.
  destruct (fs_makedirs_grows out (fs w)) as [Hgrow _]. specialize (Hgrow k).
  run_cases Hout Hrun; cbn [snd] in Hgrow; cbn [fs];
    try (apply fs_writelines_err in Hwr as ->);
    try (apply fs_writelines_ok in Hwr as (Hn & _); rewrite Hn,
           lookup_insert_ne by done);
    try rewrite (fs_rmtree_outside _ _ _ _ _ Hrm Hk); done.
Qed.

(** X3: a marker that is a directory is not taken for "no landmines": the
    call ends with [IOError] (is a directory), after it has looked for the
    marker and tried to read it; it removes nothing and writes nothing. *)
Theorem marker_directory_raises new w out r w' evs :
  get_build_dir h (builder h) false w = (Return out, w) →
  nodes (fs w) !! landmines_path_of out = Some Dir →
  clobber_if_necessary h new w = (r, w') →
  trace w' = trace w ++ evs →
  r = Raise (IOError EISDIR)
  ∧ (∃ r1, evs = [EvMakedirs out r1; EvExists (landmines_path_of out) true;
                  EvReadlines (landmines_path_of out) (inl EISDIR)])
  ∧ fs w' = (fs_makedirs out (fs w)).2.
Proof.
  intros Hout Hdir Hrun Htrace.
  run_cases Hout Hrun;
    pose proof (fs_makedirs_preserves out _ _ _ Hdir) as Hkept;
    rewrite Hmk in Hkept; cbn [snd] in Hkept; rewrite Hkept in Hm; simplify_eq.
  cbn [trace] in Htrace. apply app_inv_head in Htrace as <-. eauto.
Qed.

(** The scripts [process_options] returns when the command line is
    accepted. *)
Lemma process_options_scripts w opts :
  parsed h (environ w) = Parsed opts [] →
  process_options h w
  = (Return (landmine_scripts opts ++ extra_scripts (environ w)),
     World (fs w) (environ w) (trace w ++ [EvLogging (verbose opts)])).
Proof.
  unfold parsed, default_scripts, extra_scripts, process_options, mbind, Py_bind,
    mret, Py_ret, get_environ, raise, emit.
  intros ->. destruct (decide ([] ≠ [])); [done |].
  destruct (environ w !! "EXTRA_LANDMINES_SCRIPT") as [extra|];
    [destruct (decide (extra ≠ "")) |]; cbn [fs environ trace];
    by rewrite ?app_nil_r.
Qed.

(** [main] past the options, for a builder that is not skipped: the guard
    runs on the landmines of the scripts, in the environment
    [gyp_environment.SetEnvironment] leaves. *)
Lemma main_run w opts :
  builder h ∉ ["dump_dependency_json"; "eclipse"] →
  parsed h (environ w) = Parsed opts [] →
  main h w
  = match clobber_if_necessary h
            (landmines_of h (landmine_scripts opts ++ extra_scripts (environ w)))
            (World (fs w) (SetEnvironment h (environ w))
                   (trace w ++ [EvLogging (verbose opts)])) with
    | (Return _, w') => (Return 0%Z, w')
    | (Raise e, w') => (Raise e, w')
    end.
Proof.
  intros Hskip Hparsed. unfold main. rewrite bind_run.
  rewrite (process_options_scripts _ _ Hparsed).
  destruct (decide (builder h ∈ _)); [done |].
  rewrite bind_run. cbn [fs environ trace]. rewrite bind_run.
  unfold landmines_of. by destruct (clobber_if_necessary h _ _) as [[[]|e] w'].
Qed.

(** The guard on a marker that is up to date. *)
Lemma guard_on_current_marker new w out :
  get_build_dir h (builder h) false w = (Return out, w) →
  Forall landmine_line new →
  nodes (fs w) !! landmines_path_of out = Some (File (concat_lines new)) →
  landmines_path_of out ∉ locked (fs w) →
  ∃ r1 f1,
    fs_makedirs out (fs w) = (r1, f1)
    ∧ clobber_if_necessary h new w
      = (Return (),
         World (Filesystem (nodes f1) (locked f1 ∖ {[landmines_path_of out]}))
               (environ w)
               (trace w ++ [EvMakedirs out r1; EvExists (landmines_path_of out) true;
                            EvReadlines (landmines_path_of out) (inr new);
                            EvWritelines (landmines_path_of out) new None])).
Proof.
  intros Hout Hlines Hmarker Hfree.
  pose proof (readlines_concat_lines new Hlines) as Hback.
  pose proof (fs_makedirs_preserves out _ _ _ Hmarker) as Hkept.
  destruct (fs_makedirs_grows out (fs w)) as [_ Hlocked].
  rewrite (clobber_unfold _ _ _ _ Hout). cbv zeta.
  destruct (fs_makedirs out (fs w)) as [r1 f1]. cbn [snd] in Hkept, Hlocked.
  exists r1, f1. split; [done |]. rewrite Hkept, Hback.
  destruct (decide (new = new)); [| done]. rewrite write_run.
  unfold fs_writelines. rewrite Hkept.
  destruct (decide (landmines_path_of out ∈ locked f1)); [set_solver |].
  rewrite (insert_id _ _ _ Hkept). by rewrite <- (assoc_L (++)).
Qed.

(** X4: [main] run again. After a run of [main] that returned, with the
    options [opts] the parser gave, in an environment that
    [gyp_environment.SetEnvironment] leaves as it is, a second run returns
    0 as well and asks for no removal. For a builder that [main] skips it
    sets up logging and nothing more. For every other builder it sets up
    logging, makes sure of the directory, reads the marker, finds the
    landmines of the scripts in it and writes them again, and no node of
    the file system changes but for what [os.makedirs] creates. *)
Theorem main_again_no_clobber w opts w1 :
  parsed h (environ w) = Parsed opts [] →
  SetEnvironment h (environ w) = environ w →
  main h w = (Return 0%Z, w1) →
  ∃ w2 evs,
    main h w1 = (Return 0%Z, w2)
    ∧ trace w2 = trace w1 ++ evs
    ∧ (∀ p r, EvRmtree p r ∉ evs)
    ∧ (builder h ∈ ["dump_dependency_json"; "eclipse"] →
       evs = [EvLogging (verbose opts)] ∧ fs w2 = fs w1)
    ∧ (builder h ∉ ["dump_dependency_json"; "eclipse"] →
       ∃ out r1,
         evs = [EvLogging (verbose opts); EvMakedirs out r1;
                EvExists (landmines_path_of out) true;
                EvReadlines (landmines_path_of out)
                  (inr (landmines_of h
                          (landmine_scripts opts ++ extra_scripts (environ w))));
                EvWritelines (landmines_path_of out)
                  (landmines_of h
                     (landmine_scripts opts ++ extra_scripts (environ w))) None]
         ∧ nodes (fs w2) = nodes (fs_makedirs out (fs w1)).2).
Proof.
  intros Hparsed Henv Hmain.
  destruct (decide (builder h ∈ ["dump_dependency_json"; "eclipse"])) as [Hskip|Hskip].
  { assert (∀ w0, parsed h (environ w0) = Parsed opts [] →
              main h w0 = (Return 0%Z, World (fs w0) (environ w0)
                                         (trace w0 ++ [EvLogging (verbose opts)])))
      as Hskipped.
    { intros w0 Hparsed0. unfold main. rewrite bind_run.
      rewrite (process_options_scripts _ _ Hparsed0).
      by destruct (decide (builder h ∈ _)). }
    rewrite (Hskipped w Hparsed) in Hmain. injection Hmain as <-.
    eexists _, [EvLogging (verbose opts)].
    split; [by apply Hskipped |]. cbn [trace fs].
    split; [done |]. split; [intros p r Hin; in_trace |].
    split; [done |]. intros Hnot. by destruct Hnot. }
  rewrite (main_run _ _ Hskip Hparsed), Henv in Hmain.
  set (lines := landmines_of h _) in *.
  destruct (clobber_if_necessary h lines _) as [[[]|e] w1'] eqn:Hrun;
    [| done]. injection Hmain as ->.
  destruct (clobber_success_out _ _ _ _ Hrun) as [out Hout].
  destruct (clobber_success_marker _ _ _ _ _ Hout Hrun) as (Hmarker & Hfree & Henv1).
  cbn [environ] in Henv1.
  assert (parsed h (environ w1) = Parsed opts []) as Hparsed1 by (by rewrite Henv1).
  rewrite (main_run _ _ Hskip Hparsed1). rewrite Henv1, Henv.
  fold lines.
  assert (get_build_dir h (builder h) false
            (World (fs w1) (environ w) (trace w1 ++ [EvLogging (verbose opts)]))
          = (Return out, World (fs w1) (environ w)
                               (trace w1 ++ [EvLogging (verbose opts)]))) as Hout1.
  { eapply get_build_dir_env; [| exact Hout]. done. }
  destruct (guard_on_current_marker lines _ _ Hout1) as (r1 & f1 & Hmk & ->);
    [apply main_landmines_lines | done | done |].
  cbn [fs] in Hmk. eexists _, _. split; [done |]. cbn [trace fs nodes].
  rewrite <- (assoc_L (++)). split; [done |].
  split; [intros p r Hin; in_trace |].
  split; [done |]. intros _. exists out, r1. by rewrite Hmk.
Qed.


(** X6: a command line the script does not take. When the option parser
    leaves the process, or leaves positional arguments, [main] ends with
    that exit status, 2 for positional arguments, whatever the builder is,
    and the world is as it was: not even logging has been set up. *)
Theorem rejected_command_line w :
  match parsed h (environ w) with
  | ParserExit code => exit_status h w = (code, w)
  | Parsed opts args => args ≠ [] → exit_status h w = (2%Z, w)
  end.
Proof.
  unfold exit_status, main. rewrite bind_run.
  unfold parsed, default_scripts, process_options. rewrite bind_run.
  cbn [get_environ].
  destruct (parse_args h _ _) as [code|opts args]; [done |].
  intros Hargs. rewrite bind_run. by destruct (decide (args ≠ [])).
Qed.

(** X7: where the marker is. For every directory [get_build_dir] returns,
    the marker is the entry [.landmines] of the parent of that directory;
    for the root, which is its own parent, it lies inside the directory. *)
Theorem marker_beside_build_dir b i w out :
  get_build_dir h b i w = (Return out, w) →
  landmines_path_of out = parent out ++ [".landmines"]
  ∧ (out `prefix_of` landmines_path_of out
     ↔ out = [] ∨ last out = Some ".landmines").
Proof.
  intros Hout%get_build_dir_normalised.
  split; [by apply landmines_path_beside |]. split.
  - intros Hpre. destruct (decide (out = [])) as [|Hroot]; [by left |]. right.
    destruct (decide (last out = Some ".landmines")) as [|Hlast]; [done |].
    by destruct (marker_outside out Hout Hroot Hlast).
  - rewrite landmines_path_beside by done. intros [->|Hlast]; [apply prefix_nil |].
    destruct out as [|c out _] using rev_ind; [done |].
    rewrite last_snoc in Hlast. injection Hlast as ->.
    unfold parent. by rewrite removelast_last.
Qed.

(** No line of [s.splitlines()] holds a line feed or a carriage return. *)
Lemma splitlines_aux_no_boundary (c : ascii) (n : nat) : ∀ s acc pending,
  c = LF ∨ c = CR →
  (String.length s ≤ n)%nat →
  has_char c acc = false →
  Forall (λ l, has_char c l = false) (splitlines_aux acc pending s).
Proof.
  induction n as [|n IH]; intros s acc pending Hc Hn Hacc.
  - destruct s; simpl in *; [| lia]. destruct pending; by repeat constructor.
  - destruct s as [|d s]; simpl in *.
    { destruct pending; by repeat constructor. }
    destruct (decide (d = LF)) as [Hd|Hd].
    { constructor; [done |]. apply IH; [done | lia | done]. }
    destruct (decide (d = CR)) as [Hd'|Hd'].
    { destruct s as [|d' s]; [by repeat constructor |].
      simpl in Hn. destruct (decide (d' = LF)).
      - constructor; [done |]. apply IH; [done | lia | done].
      - constructor; [done |]. apply IH; [done | simpl; lia | done]. }
    apply IH; [done | lia |]. rewrite has_char_app, Hacc. simpl.
    destruct (decide (d = c)) as [->|]; [| done]. by destruct Hc.
Qed.

(** X18: the landmines [main] hands to the guard. Whatever the scripts
    print, each landmine is a text without line feed and without carriage
    return followed by one line feed, and the list reads back from the
    marker file as it was written to it. *)
Theorem main_landmines_round_trip scripts :
  Forall (λ l, ∃ text, l = text +:+ nl ∧ has_char LF text = false
                       ∧ has_char CR text = false)
         (landmines_of h scripts)
  ∧ readlines (concat_lines (landmines_of h scripts)) = landmines_of h scripts.
Proof.
  split; [| apply readlines_concat_lines, main_landmines_lines].
  unfold landmines_of, lines_of_output.
  apply Forall_concat, Forall_map, Forall_forall. intros s _. apply Forall_map.
  pose proof (splitlines_aux_no_boundary LF (String.length (run_script h s))
                (run_script h s) "" false) as Hlf.
  pose proof (splitlines_aux_no_boundary CR (String.length (run_script h s))
                (run_script h s) "" false) as Hcr.
  specialize (Hlf (or_introl eq_refl) (le_n _) eq_refl).
  specialize (Hcr (or_intror eq_refl) (le_n _) eq_refl).
  fold (splitlines (run_script h s)) in Hlf, Hcr.
  induction (splitlines (run_script h s)) as [|l ls IH]; [constructor |].
  apply Forall_cons in Hlf as [Hl Hlf], Hcr as [Hc Hcr].
  constructor; [| by apply IH].
  exists (strip l). split; [done |]. split; by apply strip_no_char.
Qed.

End Guard.

(** *** The guard and [main] on sample inputs *)

Import Samples.

Lemma first_run_no_clobber_witness :
  (∀ p r2, EvRmtree p r2 ∉ trace run_first.2)
  ∧ (∀ old new', EvDiff old new' ∉ trace run_first.2)
  ∧ (∀ k v, nodes (fs world_fresh) !! k = Some v →
            nodes (fs run_first.2) !! k = Some v)
  ∧ (run_first.1 = Return () →
     nodes (fs run_first.2) !! landmines_path_of out_dir
     = Some (File (concat_lines first_lines))).
Proof.
  apply (first_run_no_clobber sample_host first_lines world_fresh out_dir
           run_first.1 run_first.2 (trace run_first.2)).
  - by apply sample_build_dir.
  - vm_compute. reflexivity.
  - apply surjective_pairing.
  - reflexivity.
Defined.

Lemma guard_frame_witness :
  nodes (fs run_changed.2) !! ["b"; "src"; "DEPS"]
  = nodes (fs world_built) !! ["b"; "src"; "DEPS"]
  ∨ (nodes (fs world_built) !! ["b"; "src"; "DEPS"] = None
     ∧ nodes (fs run_changed.2) !! ["b"; "src"; "DEPS"] = Some Dir
     ∧ ["b"; "src"; "DEPS"] `prefix_of` out_dir).
Proof.
  apply (guard_frame sample_host ["y" +:+ nl] world_built out_dir
           run_changed.1 run_changed.2 ["b"; "src"; "DEPS"]).
  - by apply sample_build_dir.
  - apply surjective_pairing.
  - apply (bool_decide_eq_false_1 _). vm_compute. reflexivity.
  - vm_compute. intros Heq. discriminate Heq.
Defined.

Lemma marker_directory_raises_witness :
  (clobber_if_necessary sample_host ["y" +:+ nl] world_marker_dir).1
  = Raise (IOError EISDIR)
  ∧ (∃ r1, trace (clobber_if_necessary sample_host ["y" +:+ nl] world_marker_dir).2
           = [EvMakedirs out_dir r1; EvExists (landmines_path_of out_dir) true;
              EvReadlines (landmines_path_of out_dir) (inl EISDIR)])
  ∧ fs (clobber_if_necessary sample_host ["y" +:+ nl] world_marker_dir).2
    = (fs_makedirs out_dir (fs world_marker_dir)).2.
Proof.
  apply (marker_directory_raises sample_host ["y" +:+ nl] world_marker_dir out_dir).
  - vm_compute. reflexivity.
  - vm_compute. reflexivity.
  - apply surjective_pairing.
  - reflexivity.
Defined.

Lemma main_again_no_clobber_witness :
  ∃ w2 evs,
    main sample_host (main sample_host world_fresh).2 = (Return 0%Z, w2)
    ∧ trace w2 = trace (main sample_host world_fresh).2 ++ evs
    ∧ (∀ p r, EvRmtree p r ∉ evs)
    ∧ (builder sample_host ∈ ["dump_dependency_json"; "eclipse"] →
       evs = [EvLogging false] ∧ fs w2 = fs (main sample_host world_fresh).2)
    ∧ (builder sample_host ∉ ["dump_dependency_json"; "eclipse"] →
       ∃ out r1,
         evs = [EvLogging false; EvMakedirs out r1;
                EvExists (landmines_path_of out) true;
                EvReadlines (landmines_path_of out)
                  (inr (landmines_of sample_host
                          (default_scripts sample_host ++ extra_scripts ∅)));
                EvWritelines (landmines_path_of out)
                  (landmines_of sample_host
                     (default_scripts sample_host ++ extra_scripts ∅)) None]
         ∧ nodes (fs w2)
           = nodes (fs_makedirs out (fs (main sample_host world_fresh).2)).2).
Proof.
  apply (main_again_no_clobber sample_host world_fresh
           (Options (default_scripts sample_host) false)).
  - reflexivity.
  - reflexivity.
  - vm_compute. reflexivity.
Defined.


Lemma rejected_command_line_witness :
  exit_status stray_host world_built = (2%Z, world_built).
Proof.
  apply (rejected_command_line stray_host world_built). intros Heq.
  discriminate Heq.
Defined.

Lemma marker_beside_build_dir_witness :
  landmines_path_of out_dir = ["b"; "src"; ".landmines"]
  ∧ (out_dir `prefix_of` landmines_path_of out_dir
     ↔ out_dir = [] ∨ last out_dir = Some ".landmines").
Proof.
  apply (marker_beside_build_dir sample_host "ninja" false world_fresh out_dir).
  by apply sample_build_dir.
Defined.

End LandminesMore.

(** ** More on strings *)

Module PyStrMore.
Import PyStr PyStrFacts.

Lemma split_nonempty sep s : split sep s ≠ [].
Proof.
  destruct s as [|c s]; [done |]. cbn [split].
  destruct (decide (c = sep)); [done |]. by destruct (split sep s).
Qed.

(** No piece of [s.split(sep)] holds the separator. *)
Lemma split_no_sep sep s : Forall (λ piece, has_char sep piece = false) (split sep s).
Proof.
  induction s as [|c s IH]; cbn [split]; [by repeat constructor |].
  destruct (decide (c = sep)) as [|Hc]; [by constructor |].
  destruct (split sep s) as [|piece pieces].
  { repeat constructor. cbn [has_char]. by destruct (decide (c = sep)). }
  apply Forall_cons in IH as [Hp Hps]. constructor; [| done].
  cbn [has_char]. by destruct (decide (c = sep)).
Qed.

(** [sep.join(s.split(sep))] is [s]. *)
Lemma join_split sep s : join (String sep "") (split sep s) = s.
Proof.
  induction s as [|c s IH]; [done |]. cbn [split].
  pose proof (split_nonempty sep s) as Hne.
  destruct (decide (c = sep)) as [->|Hc].
  - destruct (split sep s) as [|piece pieces]; [done |].
    cbn [join] in *. by rewrite IH.
  - destruct (split sep s) as [|piece pieces]; [done |].
    destruct pieces as [|piece' pieces]; cbn [join] in *; [by rewrite IH |].
    by rewrite str_app_cons, IH.
Qed.

Lemma join_no_char c sep pieces :
  has_char c sep = false →
  Forall (λ piece, has_char c piece = false) pieces →
  has_char c (join sep pieces) = false.
Proof.
  intros Hsep. induction 1 as [|piece pieces Hp Hps IH]; [done |].
  destruct pieces as [|piece' pieces]; [done |].
  change (join sep (piece :: piece' :: pieces))
    with (piece +:+ sep +:+ join sep (piece' :: pieces)).
  by rewrite !has_char_app, Hp, Hsep, IH.
Qed.

(** Lowering a byte neither makes nor removes a slash, and does nothing to
    a byte it has lowered. *)
Lemma lower_char_slash c :
  bool_decide (lower_char c = "/"%char) = bool_decide (c = "/"%char).
Proof. destruct c as [[] [] [] [] [] [] [] []]; vm_compute; reflexivity. Qed.

Lemma lower_char_idem c : lower_char (lower_char c) = lower_char c.
Proof. destruct c as [[] [] [] [] [] [] [] []]; vm_compute; reflexivity. Qed.

Lemma lower_no_slash s : has_char "/" (lower s) = has_char "/" s.
Proof.
  induction s as [|c s IH]; [done |]. cbn [lower has_char]. rewrite IH.
  pose proof (lower_char_slash c) as Hc.
  destruct (decide (lower_char c = "/"%char)) as [Hl|Hl],
           (decide (c = "/"%char)) as [Hs|Hs]; try done.
  - rewrite bool_decide_eq_true_2, bool_decide_eq_false_2 in Hc; done.
  - rewrite bool_decide_eq_false_2, bool_decide_eq_true_2 in Hc; done.
Qed.

Lemma lower_idem s : lower (lower s) = lower s.
Proof.
  induction s as [|c s IH]; [done |]. cbn [lower].
  by rewrite lower_char_idem, IH.
Qed.

Lemma startswith_app p s : startswith p (p +:+ s) = true.
Proof.
  induction p as [|c p IH]; [by destruct s |]. rewrite str_app_cons.
  cbn [startswith]. by destruct (decide (c = c)).
Qed.

End PyStrMore.

(** ** More on the DEPS scraper *)

Module ChromiumDepsMore.
Import PyStr PyStrFacts PyStrMore ChromiumDeps ChromiumDepsRange ChromiumDepsFacts.

(** X8: a component name holds no slash, whatever the path and the host
    directories are. *)
Theorem component_name_no_slash path host_dirs :
  has_char "/" (_GetComponentName path host_dirs) = false.
Proof.
  induction host_dirs as [|host_dir host_dirs IH]; cbn [_GetComponentName].
  - apply join_no_char; [done | apply split_no_sep].
  - destruct (startswith host_dir path); [| done].
    set (rest := drop (String.length host_dir) path).
    assert (has_char "/" (hd "" (split "/" rest)) = false) as Hhead.
    { pose proof (split_no_sep "/" rest) as Hall.
      destruct (split "/" rest) as [|piece pieces]; [done |].
      by apply Forall_cons in Hall as [? _]. }
    destruct (components_renamed !! lower (hd "" (split "/" rest)))
      as [renamed|] eqn:Hren.
    + unfold components_renamed in Hren.
      apply lookup_singleton_Some in Hren as [_ <-]. reflexivity.
    + by rewrite !lower_no_slash.
Qed.

(** X9: under the first host directory the name is the first component
    after it, in lower case, and [blink] when that is [webkit] in whatever
    letter case; the other host directories are not looked at. *)
Theorem component_name_under_host host_dir rest host_dirs :
  _GetComponentName (host_dir +:+ rest) (host_dir :: host_dirs)
  = if decide (lower (hd "" (split "/" rest)) = "webkit") then "blink"
    else lower (hd "" (split "/" rest)).
Proof.
  cbn [_GetComponentName]. rewrite startswith_app, drop_app.
  destruct (decide (lower (hd "" (split "/" rest)) = "webkit")) as [->|Hother].
  - reflexivity.
  - unfold components_renamed. rewrite lookup_singleton_ne by done.
    apply lower_idem.
Qed.

Section Components.
Context (x : externals).

(** [GetChromiumComponents] by its stages: the dependencies, the loop over
    them, the entry for chromium. *)
Lemma GetChromiumComponents_stages chromium_revision os_platform downloader :
  GetChromiumComponents x chromium_revision os_platform downloader
  = all_deps ← all_deps_of x chromium_revision os_platform downloader;
    '(components, is_git_hash) ←
      component_loop x (map_to_list all_deps) (∅, IsGitHash x chromium_revision);
    mret (<["src/" := chromium_component x is_git_hash chromium_revision]> components).
Proof.
  unfold GetChromiumComponents, all_deps_of.
  destruct os_platform as [platform|]; cbn [mbind result_bind]; [| done].
  destruct (if IsGitHash x chromium_revision then _ else _) as [url|e];
    cbn [mbind result_bind]; [| done].
  destruct (downloader url) as [content|e]; cbn [mbind result_bind]; [| done].
  destruct (if IsGitHash x chromium_revision then _ else _) as [content'|e];
    cbn [mbind result_bind]; [| done].
  destruct (_ParseDEPS x content') as [[deps deps_os]|e];
    cbn [mbind result_bind mret result_ret]; [| done].
  destruct (component_loop x _ _) as [[components g]|e];
    cbn [mbind result_bind]; [| done].
  by destruct g.
Qed.

(** A value the loop accepts is a repository and a revision on the two
    sides of its only [@]. *)
Lemma split_at_Ok value repository revision :
  split_at value = Ok (repository, revision) →
  value = Some (repository +:+ "@" +:+ revision)
  ∧ has_char "@" repository = false ∧ has_char "@" revision = false.
Proof.
  unfold split_at. destruct value as [v|]; [| done].
  pose proof (join_split "@" v) as Hjoin. pose proof (split_no_sep "@" v) as Hall.
  destruct (split "@" v) as [|a [|b [|c pieces]]]; try done.
  intros [= <- <-]. cbn [join] in Hjoin.
  apply Forall_cons in Hall as [Ha Hall]. apply Forall_cons in Hall as [Hb _].
  by rewrite <- Hjoin.
Qed.

Lemma component_step_Ok components g k v st' :
  component_step x (components, g) (k, v) = Ok st' →
  ∃ repository revision,
    split_at v = Ok (repository, revision)
    ∧ st' = (<[with_slash k := dep_component x k repository revision]> components,
             IsGitHash x revision).
Proof.
  unfold component_step. intros H.
  apply bind_Ok_inv in H as ([repository revision] & Hsplit & H).
  injection H as <-. by exists repository, revision.
Qed.

(** What the loop leaves, key by key: a key is there when it was there
    before or when it is the key of one of the dependencies. *)
Lemma component_loop_keys_iff items : ∀ components g components' g',
  component_loop x items (components, g) = Ok (components', g') →
  ∀ key, is_Some (components' !! key)
         ↔ is_Some (components !! key)
           ∨ ∃ k v, (k, v) ∈ items ∧ key = with_slash k.
Proof.
  induction items as [|[k v] items IH]; intros components g components' g';
    cbn [component_loop].
  { intros [= <- <-] key. split; [by left |]. intros [?|(? & ? & Hin & _)]; [done |].
    by apply elem_of_nil in Hin. }
  intros H. apply bind_Ok_inv in H as (st1 & Hstep & Hloop).
  apply component_step_Ok in Hstep as (repository & revision & _ & ->).
  intros key. rewrite (IH _ _ _ _ Hloop key), lookup_insert_is_Some. split.
  - intros [[<-|[_ ?]]|(k' & v' & Hin & ->)]; [right | by left | right].
    + exists k, v. split; [apply list_elem_of_here | done].
    + exists k', v'. split; [by apply list_elem_of_further | done].
  - intros [Hold|(k' & v' & Hin & ->)].
    + left. destruct (decide (with_slash k = key)); [by left | by right].
    + apply elem_of_cons in Hin as [[= -> ->]|Hin]; [left; by left |].
      right. by exists k', v'.
Qed.

(** Every value the loop went through was well formed. *)
Lemma component_loop_values items : ∀ st st',
  component_loop x items st = Ok st' →
  ∀ k v, (k, v) ∈ items → ∃ repository revision, split_at v = Ok (repository, revision).
Proof.
  induction items as [|[k0 v0] items IH]; intros [components g] st';
    cbn [component_loop].
  { intros _ k v Hin. by apply elem_of_nil in Hin. }
  intros H. apply bind_Ok_inv in H as (st1 & Hstep & Hloop).
  apply component_step_Ok in Hstep as (repository & revision & Hsplit & ->).
  intros k v [[= -> ->]|Hin]%elem_of_cons; [by eauto |].
  by apply (IH _ _ Hloop k v).
Qed.

(** The entry the loop leaves for a dependency whose key no other
    dependency shares. *)
Lemma component_loop_entry items : ∀ components g components' g' k v,
  component_loop x items (components, g) = Ok (components', g') →
  (∀ k' v', (k', v') ∈ items → with_slash k' = with_slash k → k' = k ∧ v' = v) →
  ((k, v) ∈ items →
   ∃ repository revision,
     split_at v = Ok (repository, revision)
     ∧ components' !! with_slash k = Some (dep_component x k repository revision))
  ∧ ((∀ k' v', (k', v') ∈ items → with_slash k' ≠ with_slash k) →
     components' !! with_slash k = components !! with_slash k).
Proof.
  induction items as [|[k0 v0] items IH]; intros components g components' g' k v;
    cbn [component_loop].
  { intros [= <- <-] _. split; [| done]. intros Hin. by apply elem_of_nil in Hin. }
  intros H Hunique. apply bind_Ok_inv in H as (st1 & Hstep & Hloop).
  apply component_step_Ok in Hstep as (repository & revision & Hsplit & ->).
  assert (∀ k' v', (k', v') ∈ items → with_slash k' = with_slash k → k' = k ∧ v' = v)
    as Hunique' by (intros k' v' Hin; apply Hunique; by apply list_elem_of_further).
  destruct (IH _ _ _ _ k v Hloop Hunique') as [IHin IHout]. split.
  - intros Hin.
    destruct (decide (Exists (λ item, with_slash item.1 = with_slash k) items))
      as [Hex|Hno].
    + apply Exists_exists in Hex as ([k' v'] & Hin' & Hsame). cbn [fst] in Hsame.
      destruct (Hunique' _ _ Hin' Hsame) as [-> ->]. by apply IHin.
    + apply elem_of_cons in Hin as [[= <- <-]|Hin].
      * exists repository, revision. split; [done |]. rewrite IHout.
        { by rewrite lookup_insert_eq. }
        intros k' v' Hin' Hsame. apply Hno, Exists_exists.
        by exists (k', v').
      * destruct Hno. apply Exists_exists. by exists (k, v).
  - intros Hnone. rewrite IHout.
    + rewrite lookup_insert_ne; [done |]. apply (Hnone k0 v0), list_elem_of_here.
    + intros k' v' Hin. apply (Hnone k' v'). by apply list_elem_of_further.
Qed.

(** The variable [is_git_hash] after the loop: the kind of the revisions of
    the dependencies, when they are all of one kind. *)
Lemma component_loop_kind items : ∀ components g components' g' kind,
  component_loop x items (components, g) = Ok (components', g') →
  items ≠ [] →
  (∀ k v repository revision,
     (k, v) ∈ items → split_at v = Ok (repository, revision) →
     IsGitHash x revision = kind) →
  g' = kind.
Proof.
  induction items as [|[k0 v0] items IH]; intros components g components' g' kind;
    cbn [component_loop]; [done |].
  intros H _ Hkind. apply bind_Ok_inv in H as (st1 & Hstep & Hloop).
  apply component_step_Ok in Hstep as (repository & revision & Hsplit & ->).
  destruct items as [|item items].
  - cbn [component_loop] in Hloop. injection Hloop as _ <-.
    apply (Hkind k0 v0 repository revision); [apply list_elem_of_here | done].
  - apply (IH _ _ _ _ kind Hloop); [done |].
    intros k v repository' revision' Hin. apply (Hkind k v).
    by apply list_elem_of_further.
Qed.

(** A result of [GetChromiumComponents], taken apart. *)
Lemma GetChromiumComponents_Ok chromium_revision os_platform downloader comps :
  GetChromiumComponents x chromium_revision os_platform downloader = Ok comps →
  ∃ deps components g,
    all_deps_of x chromium_revision os_platform downloader = Ok deps
    ∧ component_loop x (map_to_list deps) (∅, IsGitHash x chromium_revision)
      = Ok (components, g)
    ∧ comps = <["src/" := chromium_component x g chromium_revision]> components.
Proof.
  rewrite GetChromiumComponents_stages. intros H.
  apply bind_Ok_inv in H as (deps & Hdeps & H).
  apply bind_Ok_inv in H as ([components g] & Hloop & H).
  injection H as <-. by exists deps, components, g.
Qed.

(** X10: a DEPS file without dependencies for the platform. The result has
    the one component [src/], of the kind of the revision asked for: git
    with the git address when [IsGitHash] holds of it, svn otherwise. *)
Theorem no_deps_only_chromium chromium_revision os_platform downloader :
  all_deps_of x chromium_revision os_platform downloader = Ok ∅ →
  GetChromiumComponents x chromium_revision os_platform downloader
  = Ok {[ "src/" := chromium_component x (IsGitHash x chromium_revision)
                                       chromium_revision ]}.
Proof.
  intros Hdeps. rewrite GetChromiumComponents_stages, Hdeps.
  cbn [mbind result_bind]. rewrite map_to_list_empty.
  cbn [component_loop mbind result_bind mret result_ret].
  by rewrite insert_empty.
Qed.

(** X11: the keys of the result are [src/] and the paths of the
    dependencies, each with a slash at its end: no dependency is left out,
    and there is no other key. *)
Theorem component_keys chromium_revision os_platform downloader comps :
  GetChromiumComponents x chromium_revision os_platform downloader = Ok comps →
  ∃ deps,
    all_deps_of x chromium_revision os_platform downloader = Ok deps
    ∧ ∀ key, is_Some (comps !! key)
             ↔ key = "src/" ∨ ∃ k, is_Some (deps !! k) ∧ key = with_slash k.
Proof.
  intros (deps & components & g & Hdeps & Hloop & ->)%GetChromiumComponents_Ok.
  exists deps. split; [done |]. intros key.
  rewrite lookup_insert_is_Some, (component_loop_keys_iff _ _ _ _ _ Hloop key).
  rewrite lookup_empty. split.
  - intros [<-|[_ [[? [=]]|(k & v & Hin & ->)]]]; [by left |].
    right. exists k. split; [| done]. apply elem_of_map_to_list in Hin. by rewrite Hin.
  - intros [->|(k & [v Hk] & ->)]; [by left |].
    destruct (decide ("src/" = with_slash k)); [by left |]. right. split; [done |].
    right. exists k, v. split; [by apply elem_of_map_to_list | done].
Qed.

(** X12: a call that returns has read only well-formed values: every
    dependency is a string with a repository and a revision around its only
    [@]. A value that is [None], or has no [@] or several, makes the whole
    call fail. *)
Theorem dependency_values_well_formed chromium_revision os_platform downloader
    comps deps k v :
  GetChromiumComponents x chromium_revision os_platform downloader = Ok comps →
  all_deps_of x chromium_revision os_platform downloader = Ok deps →
  deps !! k = Some v →
  ∃ repository revision,
    v = Some (repository +:+ "@" +:+ revision)
    ∧ has_char "@" repository = false ∧ has_char "@" revision = false.
Proof.
  intros (deps' & components & g & Hdeps & Hloop & ->)%GetChromiumComponents_Ok.
  rewrite Hdeps. intros [= <-] Hk.
  destruct (component_loop_values _ _ _ Hloop k v)
    as (repository & revision & Hsplit); [by apply elem_of_map_to_list |].
  exists repository, revision. by apply split_at_Ok.
Qed.

(** X13: the component of a dependency. For a dependency [k] whose key is
    not [src/] and is the key of no other dependency, the result holds at
    that key the name of [_GetComponentName], the revision after the [@],
    the repository before it, with the svn address of chromium in front
    when it starts with a slash, and the type git or svn by [IsGitHash] of
    the revision. *)
Theorem dependency_component chromium_revision os_platform downloader comps deps k v :
  GetChromiumComponents x chromium_revision os_platform downloader = Ok comps →
  all_deps_of x chromium_revision os_platform downloader = Ok deps →
  deps !! k = Some v →
  with_slash k ≠ "src/" →
  (∀ k', is_Some (deps !! k') → with_slash k' = with_slash k → k' = k) →
  ∃ repository revision,
    v = Some (repository +:+ "@" +:+ revision)
    ∧ comps !! with_slash k = Some (dep_component x k repository revision).
Proof.
  intros (deps' & components & g & Hdeps & Hloop & ->)%GetChromiumComponents_Ok.
  rewrite Hdeps. intros [= <-] Hk Hsrc Hunique.
  destruct (component_loop_entry _ _ _ _ _ k v Hloop) as [Hentry _].
  { intros k' v' Hin Hsame. apply elem_of_map_to_list in Hin.
    assert (k' = k) as -> by (apply Hunique; [by rewrite Hin | done]).
    split; [done | congruence]. }
  destruct Hentry as (repository & revision & Hsplit & Hc);
    [by apply elem_of_map_to_list |].
  exists repository, revision. split; [by apply split_at_Ok in Hsplit as [? _] |].
  by rewrite lookup_insert_ne.
Qed.

(** X14: the kind of the chromium component. The loop assigns the variable
    that decides it, so when there are dependencies and their revisions are
    all git hashes, or all not, the component [src/] has their kind, with
    the git or the svn address, whatever kind the revision asked for is. *)
Theorem chromium_kind_follows_dependencies chromium_revision os_platform downloader
    comps deps kind :
  GetChromiumComponents x chromium_revision os_platform downloader = Ok comps →
  all_deps_of x chromium_revision os_platform downloader = Ok deps →
  deps ≠ ∅ →
  (∀ k repository revision,
     deps !! k = Some (Some (repository +:+ "@" +:+ revision)) →
     has_char "@" repository = false → has_char "@" revision = false →
     IsGitHash x revision = kind) →
  comps !! "src/" = Some (chromium_component x kind chromium_revision).
Proof.
  intros (deps' & components & g & Hdeps & Hloop & ->)%GetChromiumComponents_Ok.
  rewrite Hdeps. intros [= <-] Hne Hkind. rewrite lookup_insert_eq.
  rewrite (component_loop_kind _ _ _ _ _ kind Hloop); [done | |].
  - by rewrite map_to_list_empty_iff.
  - intros k v repository revision Hin Hsplit.
    apply elem_of_map_to_list in Hin.
    apply split_at_Ok in Hsplit as (-> & Hr & Hv). by apply (Hkind k repository).
Qed.

End Components.

Section Range.
Context (x : externals).

(** The loop of [GetChromiumComponentRange] over distinct keys stores one
    entry per key and leaves the other keys alone. *)
Lemma range_fold_lookup old_components items : ∀ components,
  NoDup items.*1 →
  (∀ k c, (k, c) ∈ items →
          foldl (range_step old_components) components items !! k
          = Some (range_entry old_components k c))
  ∧ (∀ k, k ∉ items.*1 →
          foldl (range_step old_components) components items !! k = components !! k).
Proof.
  induction items as [|[k0 c0] items IH]; intros components Hnodup; cbn [foldl].
  { split; [| done]. intros k c Hin. by apply elem_of_nil in Hin. }
  cbn [fmap list_fmap fst] in Hnodup. apply NoDup_cons in Hnodup as [Hfresh Hnodup].
  destruct (IH (range_step old_components components (k0, c0)) Hnodup) as [IHin IHout].
  split.
  - intros k c [[= -> ->]|Hin]%elem_of_cons; [| by apply IHin].
    rewrite (IHout k0 Hfresh). cbn [range_step]. by rewrite lookup_insert_eq.
  - intros k Hk. apply not_elem_of_cons in Hk as [Hne Hk].
    rewrite (IHout k Hk). cbn [range_step]. by rewrite lookup_insert_ne.
Qed.

Lemma range_lookup old_components (new_components : gmap string component) k :
  foldl (range_step old_components) ∅ (map_to_list new_components) !! k
  = range_entry old_components k <$> new_components !! k.
Proof.
  destruct (range_fold_lookup old_components (map_to_list new_components) ∅
              (NoDup_fst_map_to_list new_components)) as [Hin Hout].
  destruct (new_components !! k) as [c|] eqn:Hk; cbn [fmap option_fmap option_map].
  - apply Hin. by apply elem_of_map_to_list.
  - rewrite Hout; [done |]. intros ([k' c] & Hk' & Hin')%list_elem_of_fmap.
    cbn [fst] in Hk'. subst k'. apply elem_of_map_to_list in Hin'. congruence.
Qed.

Lemma GetChromiumComponentRange_Ok old new os_platform downloader ranges :
  GetChromiumComponentRange x old new os_platform downloader = Ok ranges →
  ∃ old_components new_components,
    GetChromiumComponents x old os_platform downloader = Ok old_components
    ∧ GetChromiumComponents x new os_platform downloader = Ok new_components
    ∧ ∀ k, ranges !! k = range_entry old_components k <$> new_components !! k.
Proof.
  unfold GetChromiumComponentRange. intros H.
  apply bind_Ok_inv in H as (old_components & Hold & H).
  apply bind_Ok_inv in H as (new_components & Hnew & H).
  injection H as <-. exists old_components, new_components.
  split; [done |]. split; [done |]. apply range_lookup.
Qed.

(** The component [src/] of a result of [GetChromiumComponents]. *)
Lemma chromium_entry chromium_revision os_platform downloader comps :
  GetChromiumComponents x chromium_revision os_platform downloader = Ok comps →
  ∃ g, comps !! "src/" = Some (chromium_component x g chromium_revision).
Proof.
  intros (deps & components & g & _ & _ & ->)%GetChromiumComponents_Ok.
  exists g. by rewrite lookup_insert_eq.
Qed.

(** X15: the range follows the new revision. The result has an entry for
    each component of the new revision and for nothing else, so that a
    component only the old revision has is not reported. The entry at a key
    gives the name, repository and revision of the new component there and
    the revision of the old component at the same key, [None] when there is
    none; [rolled] is false exactly when the old revision is the new one. *)
Theorem range_follows_new old new os_platform downloader ranges :
  GetChromiumComponentRange x old new os_platform downloader = Ok ranges →
  ∃ old_components new_components,
    GetChromiumComponents x old os_platform downloader = Ok old_components
    ∧ GetChromiumComponents x new os_platform downloader = Ok new_components
    ∧ (∀ k, is_Some (ranges !! k) ↔ is_Some (new_components !! k))
    ∧ ∀ k e, ranges !! k = Some e →
        ∃ c, new_components !! k = Some c
             ∧ range_path e = k
             ∧ range_name e = name c
             ∧ range_repository e = repository c
             ∧ range_repository_type e = repository_type c
             ∧ new_revision e = revision c
             ∧ old_revision e = revision <$> old_components !! k
             ∧ (rolled e = false ↔ old_revision e = Some (new_revision e)).
Proof.
  intros (old_components & new_components & Hold & Hnew & Hlookup)
    %GetChromiumComponentRange_Ok.
  exists old_components, new_components. split; [done |]. split; [done |]. split.
  - intros k. rewrite Hlookup. apply fmap_is_Some.
  - intros k e. rewrite Hlookup. intros (c & Hc & ->)%fmap_Some.
    exists c. repeat split; try done; cbn [rolled old_revision new_revision range_entry].
    + intros Hrolled%bool_decide_eq_false. by apply dec_stable in Hrolled.
    + intros Hsame. apply bool_decide_eq_false. by intros ?.
Qed.

(** X16: a revision against itself. When the old and the new revision are
    the same, every entry has the old revision equal to the new one and
    nothing is rolled. *)
Theorem same_revision_nothing_rolled revision_ os_platform downloader ranges k e :
  GetChromiumComponentRange x revision_ revision_ os_platform downloader = Ok ranges →
  ranges !! k = Some e →
  rolled e = false ∧ old_revision e = Some (new_revision e).
Proof.
  intros (old_components & new_components & Hold & Hnew & Hlookup)
    %GetChromiumComponentRange_Ok.
  rewrite Hold in Hnew. injection Hnew as <-.
  rewrite Hlookup. intros (c & Hc & ->)%fmap_Some.
  cbn [rolled old_revision new_revision range_entry]. rewrite Hc.
  cbn [fmap option_fmap option_map]. split; [| done].
  apply bool_decide_eq_false. by intros ?.
Qed.

(** X17: chromium itself in the range. The entry [src/] is always there,
    with the name [chromium], the old and the new revision as they were
    asked for, and [rolled] telling whether they differ. *)
Theorem chromium_range old new os_platform downloader ranges :
  GetChromiumComponentRange x old new os_platform downloader = Ok ranges →
  ∃ e, ranges !! "src/" = Some e
       ∧ range_path e = "src/"
       ∧ range_name e = "chromium"
       ∧ old_revision e = Some old
       ∧ new_revision e = new
       ∧ rolled e = bool_decide (new ≠ old).
Proof.
  intros (old_components & new_components & Hold & Hnew & Hlookup)
    %GetChromiumComponentRange_Ok.
  apply chromium_entry in Hold as [g Hold], Hnew as [g' Hnew].
  eexists. rewrite Hlookup, Hnew. split; [done |].
  cbn [range_entry range_path range_name old_revision new_revision rolled].
  rewrite Hold. cbn [fmap option_fmap option_map chromium_component revision name].
  repeat split; try done.
  apply bool_decide_ext. split; [intros H ->; by apply H | congruence].
Qed.

End Range.

(** *** The scraper on sample inputs *)

Import Samples.

Lemma sample_components_Ok : ∃ comps, sample_components = Ok comps.
Proof. eexists. vm_compute. reflexivity. Qed.

Lemma git_components_Ok :
  ∃ comps,
    GetChromiumComponents two_revisions git_revision (Some "unix") echo = Ok comps.
Proof. eexists. vm_compute. reflexivity. Qed.

Lemma sample_range_Ok :
  ∃ ranges,
    GetChromiumComponentRange two_revisions "100" "200" (Some "unix") echo = Ok ranges.
Proof. eexists. vm_compute. reflexivity. Qed.

Lemma same_range_gold :
  ∃ ranges e,
    GetChromiumComponentRange two_revisions "200" "200" (Some "unix") echo = Ok ranges
    ∧ ranges !! "src/third_party/gold/" = Some e.
Proof. eexists _, _. split; vm_compute; reflexivity. Qed.

Lemma no_deps_only_chromium_witness :
  GetChromiumComponents bare_externals "291560" (Some "mac") echo
  = Ok {[ "src/" := Component "src/" "chromium" "https://svn/" "svn" "291560" ]}.
Proof.
  apply (no_deps_only_chromium bare_externals "291560" (Some "mac") echo).
  vm_compute. reflexivity.
Defined.

Lemma component_keys_witness :
  ∃ comps deps,
    sample_components = Ok comps
    ∧ all_deps_of sample_externals "291560" (Some "Linux") echo = Ok deps
    ∧ ∀ key, is_Some (comps !! key)
             ↔ key = "src/" ∨ ∃ k, is_Some (deps !! k) ∧ key = with_slash k.
Proof.
  destruct sample_components_Ok as [comps Hcomps].
  destruct (component_keys sample_externals "291560" (Some "Linux") echo comps Hcomps)
    as (deps & Hdeps & Hkeys).
  exists comps, deps. split; [exact Hcomps |]. split; [exact Hdeps | exact Hkeys].
Defined.

Lemma dependency_values_well_formed_witness :
  ∃ repository revision,
    Some "/trunk/blink@1234" = Some (repository +:+ "@" +:+ revision)
    ∧ has_char "@" repository = false ∧ has_char "@" revision = false.
Proof.
  destruct sample_components_Ok as [comps Hcomps].
  eapply (dependency_values_well_formed sample_externals "291560" (Some "Linux") echo
            comps _ "src/third_party/WebKit").
  - exact Hcomps.
  - vm_compute. reflexivity.
  - vm_compute. reflexivity.
Defined.

Lemma dependency_component_witness :
  ∃ comps repository revision,
    sample_components = Ok comps
    ∧ Some "/trunk/gold@5" = Some (repository +:+ "@" +:+ revision)
    ∧ comps !! with_slash "src/third_party/gold"
      = Some (dep_component sample_externals "src/third_party/gold"
                repository revision).
Proof.
  destruct sample_components_Ok as [comps Hcomps].
  destruct (dependency_component sample_externals "291560" (Some "Linux") echo
              comps
              {[ "src/third_party/WebKit" := Some "/trunk/blink@1234";
                 "src/v8/" := Some "https://git/v8@77";
                 "src" := Some "shadowed@0";
                 "src/third_party/gold" := Some "/trunk/gold@5" ]}
              "src/third_party/gold" (Some "/trunk/gold@5"))
    as (repository & revision & Hv & Hc).
  - exact Hcomps.
  - vm_compute. reflexivity.
  - vm_compute. reflexivity.
  - vm_compute. intros Heq. discriminate Heq.
  - intros k' [v Hk'] Hsame.
    repeat (apply lookup_insert_Some in Hk' as [[<- _]|[_ Hk']];
            [exfalso; vm_compute in Hsame; discriminate Hsame |]).
    by apply lookup_singleton_Some in Hk' as [<- _].
  - exists comps, repository, revision. split; [exact Hcomps |].
    split; [exact Hv | exact Hc].
Defined.

Lemma chromium_kind_follows_dependencies_witness :
  ∃ comps,
    GetChromiumComponents two_revisions git_revision (Some "unix") echo = Ok comps
    ∧ comps !! "src/"
      = Some (chromium_component two_revisions false git_revision).
Proof.
  destruct git_components_Ok as [comps Hcomps].
  exists comps. split; [exact Hcomps |].
  apply (chromium_kind_follows_dependencies two_revisions git_revision
           (Some "unix") echo comps
           {[ "src/third_party/WebKit" := Some "/trunk/blink@11";
              "src/third_party/gold" := Some "/trunk/gold@5" ]} false Hcomps).
  - vm_compute. reflexivity.
  - intros Hempty. apply (f_equal (λ m, m !! "src/third_party/gold")) in Hempty.
    vm_compute in Hempty. discriminate Hempty.
  - intros k repository revision Hk _ _.
    assert (String.length revision ≤ 15)%nat as Hlen.
    { apply lookup_insert_Some in Hk as [[_ Hk]|[_ Hk]];
        [| apply lookup_singleton_Some in Hk as [_ Hk]];
        injection Hk as Hk; apply (f_equal String.length) in Hk;
        rewrite !str_length_app in Hk; simpl in Hk; lia. }
    apply bool_decide_eq_false_2. lia.
Defined.

Lemma range_follows_new_witness :
  ∃ ranges old_components new_components,
    GetChromiumComponentRange two_revisions "100" "200" (Some "unix") echo = Ok ranges
    ∧ GetChromiumComponents two_revisions "100" (Some "unix") echo = Ok old_components
    ∧ GetChromiumComponents two_revisions "200" (Some "unix") echo = Ok new_components
    ∧ (∀ k, is_Some (ranges !! k) ↔ is_Some (new_components !! k))
    ∧ ∀ k e, ranges !! k = Some e →
        ∃ c, new_components !! k = Some c
             ∧ range_path e = k
             ∧ range_name e = name c
             ∧ range_repository e = repository c
             ∧ range_repository_type e = repository_type c
             ∧ new_revision e = revision c
             ∧ old_revision e = revision <$> old_components !! k
             ∧ (rolled e = false ↔ old_revision e = Some (new_revision e)).
Proof.
  destruct sample_range_Ok as [ranges Hranges].
  destruct (range_follows_new two_revisions "100" "200" (Some "unix") echo ranges
              Hranges) as (old_components & new_components & H).
  exists ranges, old_components, new_components. split; [exact Hranges | exact H].
Defined.

(** Between the two sample revisions blink is rolled, gold is new, v8 is
    not reported. *)
Lemma sample_range :
  ∃ ranges,
    GetChromiumComponentRange two_revisions "100" "200" (Some "unix") echo = Ok ranges
    ∧ ranges !! "src/third_party/WebKit/"
      = Some (Range "src/third_party/WebKit/" true "blink" (Some "10") "11"
                    "https://svn/chrome/trunk/blink" "svn")
    ∧ ranges !! "src/third_party/gold/"
      = Some (Range "src/third_party/gold/" true "gold" None "5"
                    "https://svn/chrome/trunk/gold" "svn")
    ∧ ranges !! "src/v8/" = None.
Proof. eexists. repeat split; vm_compute; reflexivity. Qed.

Lemma same_revision_nothing_rolled_witness :
  ∃ ranges e,
    GetChromiumComponentRange two_revisions "200" "200" (Some "unix") echo = Ok ranges
    ∧ ranges !! "src/third_party/gold/" = Some e
    ∧ rolled e = false ∧ old_revision e = Some (new_revision e).
Proof.
  destruct same_range_gold as (ranges & e & Hranges & He).
  exists ranges, e. split; [exact Hranges |]. split; [exact He |].
  exact (same_revision_nothing_rolled two_revisions "200" (Some "unix") echo
           ranges "src/third_party/gold/" e Hranges He).
Defined.

Lemma chromium_range_witness :
  ∃ ranges e,
    GetChromiumComponentRange two_revisions "100" "200" (Some "unix") echo = Ok ranges
    ∧ ranges !! "src/" = Some e
    ∧ range_path e = "src/"
    ∧ range_name e = "chromium"
    ∧ old_revision e = Some "100"
    ∧ new_revision e = "200"
    ∧ rolled e = bool_decide ("200" ≠ "100").
Proof.
  destruct sample_range_Ok as [ranges Hranges].
  destruct (chromium_range two_revisions "100" "200" (Some "unix") echo ranges
              Hranges) as (e & H).
  exists ranges, e. split; [exact Hranges | exact H].
Defined.

End ChromiumDepsMore.

(** ** The results options *)

Module ResultsOptionsFacts.
Import PyStr ResultsOptions.

Section Results.
Context (h : host) {Metadata : Type}.

Lemma run_bind {A B} (m : Run A) (k : A → Run B) st :
  (m ≫= k) st = match m st with
                | (Return a, st') => k a st'
                | (Raise e, st') => (Raise e, st')
                end.
Proof. reflexivity. Qed.

Lemma run_bind_Return {A B} (m : Run A) (k : A → Run B) st b st' :
  (m ≫= k) st = (Return b, st') →
  ∃ a st1, m st = (Return a, st1) ∧ k a st1 = (Return b, st').
Proof.
  rewrite run_bind. destruct (m st) as [[a|e] st1]; [| done]. by exists a, st1.
Qed.

(** Reading an attribute changes nothing. *)
Lemma getattr_Return attribute field st v st' :
  getattr attribute field st = (Return v, st') → field (opts st) = Some v ∧ st' = st.
Proof. unfold getattr. destruct (field (opts st)); by intros [= <- <-]. Qed.

Lemma format_without_file_Return format st b st' :
  format_without_file format st = (Return b, st') →
  st' = st
  ∧ ∃ v, output_format (opts st) = Some v
         ∧ ((v ≠ PStr format ∧ b = false)
            ∨ (v = PStr format
               ∧ ∃ file, output_file (opts st) = Some file ∧ b = negb (truthy file))).
Proof.
  unfold format_without_file. intros (v & st1 & [Hv ->]%getattr_Return & H)%run_bind_Return.
  destruct (decide (v = PStr format)) as [->|Hne].
  - apply run_bind_Return in H as (file & st1 & [Hfile ->]%getattr_Return & H).
    injection H as <- <-. split; [done |]. exists (PStr format). split; [done |].
    right. split; [done |]. by exists file.
  - injection H as <- <-. split; [done |]. exists v. split; [done |]. by left.
Qed.

(** The first block: it opens nothing, and either leaves the options as
    they are or, for a format with a default file and options that name no
    file, sets the file. *)
Lemma default_output_file_Return st a st' :
  default_output_file h st = (Return a, st') →
  opened st' = opened st
  ∧ ∃ v, output_format (opts st) = Some v
    ∧ ((opts st' = opts st
        ∧ ∀ name, default_name v = Some name →
                  ∃ file, output_file (opts st) = Some file ∧ truthy file = true)
       ∨ (∃ name file,
            default_name v = Some name
            ∧ output_file (opts st) = Some file ∧ truthy file = false
            ∧ opts st'
              = set_output_file (PStr (os_path_join (GetBaseDir h) name)) (opts st))).
Proof.
  unfold default_output_file.
  intros (html & st1 & [-> (v & Hv & Hhtml)]%format_without_file_Return & H)
    %run_bind_Return.
  destruct Hhtml as [[Hne ->]|(-> & file & Hfile & ->)].
  - apply run_bind_Return in H
      as (json & st1 & [-> (v' & Hv' & Hjson)]%format_without_file_Return & H).
    rewrite Hv in Hv'. injection Hv' as <-.
    destruct Hjson as [[Hne' ->]|(-> & file & Hfile & ->)].
    + unfold mret, Run_ret in H. injection H as _ <-.
      split; [done |]. exists v. split; [done |]. left.
      split; [done |]. unfold default_name.
      destruct (decide (v = PStr "html")); [done |].
      by destruct (decide (v = PStr "json")).
    + destruct (truthy file) eqn:Htruthy; cbn [negb] in H;
        unfold setattr, mret, Run_ret in H; injection H as _ <-.
      * split; [done |]. eexists. split; [done |]. left. split; [done |].
        intros name _. by exists file.
      * split; [done |]. eexists. split; [done |]. right.
        by exists "results.json", file.
  - destruct (truthy file) eqn:Htruthy; cbn [negb] in H;
      unfold setattr, mret, Run_ret in H; [| injection H as _ <-].
    { apply run_bind_Return in H
        as (json & st1 & [-> (v' & Hv' & Hjson)]%format_without_file_Return & H).
      rewrite Hv in Hv'. injection Hv' as <-.
      destruct Hjson as [[_ ->]|(Hjson & _)]; [| discriminate Hjson].
      unfold mret, Run_ret in H. injection H as _ <-.
      split; [done |]. eexists. split; [done |]. left. split; [done |].
      intros name _. by exists file. }
    split; [done |]. eexists. split; [done |]. right.
    by exists "results.html", file.
Qed.

(** The second block: the standard output when the options name no file,
    else the named file, which it opens. *)
Lemma open_output_stream_Return st s st' :
  open_output_stream h st = (Return s, st') →
  opts st' = opts st
  ∧ ((s = Stdout ∧ opened st' = opened st
      ∧ ∀ file, output_file (opts st) = Some file → truthy file = false)
     ∨ (∃ file, output_file (opts st) = Some (PStr file) ∧ file ≠ ""
                ∧ s = FileStream (expanduser h file)
                ∧ opened st' = opened st ++ [expanduser h file])).
Proof.
  unfold open_output_stream, hasattr. rewrite run_bind.
  destruct (output_file (opts st)) as [file|] eqn:Hfile.
  2: { rewrite bool_decide_eq_false_2 by (by intros [? ?]).
       intros [= <- <-]. split; [done |]. by left. }
  rewrite bool_decide_eq_true_2 by eauto.
  intros (file' & st1 & [Hfile' ->]%getattr_Return & H)%run_bind_Return.
  rewrite Hfile in Hfile'. injection Hfile' as <-.
  destruct (truthy file) eqn:Htruthy.
  - destruct file as [|b|file]; try done.
    unfold open_output in H. destruct (can_open h _); [| done].
    injection H as <- <-. split; [done |]. right. exists file.
    repeat split; try done. intros ->. done.
  - injection H as <- <-. split; [done |]. left. repeat split. by intros ? [= <-].
Qed.

(** The third block: the trace tag gets its default, the rest stays. *)
Lemma default_attributes_Return st a st' v :
  default_attributes st = (Return a, st') →
  output_format (opts st) = Some v →
  opened st' = opened st
  ∧ (opts st' = opts st ∨ opts st' = set_output_trace_tag (PStr "") (opts st))
  ∧ output_trace_tag (opts st')
    = Some (default (PStr "") (output_trace_tag (opts st))).
Proof.
  unfold default_attributes, hasattr, setattr. intros H Hv.
  rewrite run_bind, run_bind in H. cbn [opts] in H. rewrite Hv in H.
  rewrite (bool_decide_eq_true_2 (is_Some (Some v))) in H by eauto.
  cbn [mret Run_ret] in H. rewrite run_bind in H.
  destruct (output_trace_tag (opts st)) as [tag|] eqn:Htag.
  - rewrite bool_decide_eq_true_2 in H by eauto. injection H as _ <-.
    split; [done |]. split; [by left |]. by rewrite Htag.
  - rewrite bool_decide_eq_false_2 in H by (by intros [? ?]). injection H as _ <-.
    split; [done |]. split; [by right | done].
Qed.

(** The fourth block knows six formats, and changes nothing. *)
Lemma make_formatters_Return (metadata : Metadata) s st x st' :
  make_formatters metadata s st = (Return x, st') →
  st' = st
  ∧ ∃ format, output_format (opts st) = Some (PStr format)
      ∧ format ∈ ["html"; "buildbot"; "csv"; "gtest"; "json"; "none"]
      ∧ x.2 = negb (bool_decide (format = "gtest"))
      ∧ (format = "none" ∨ format = "gtest" → x.1 = [])
      ∧ (format = "csv" → x.1 = [CsvOutputFormatter s])
      ∧ (format = "json" → x.1 = [JsonOutputFormatter s metadata])
      ∧ (format = "buildbot" →
         ∃ tag, output_trace_tag (opts st) = Some tag
                ∧ x.1 = [BuildbotOutputFormatter s tag])
      ∧ (format = "html" →
         ∃ tag reset upload browser label,
           output_trace_tag (opts st) = Some tag
           ∧ reset_results (opts st) = Some reset
           ∧ upload_results (opts st) = Some upload
           ∧ browser_type (opts st) = Some browser
           ∧ results_label (opts st) = Some label
           ∧ x.1 = [BuildbotOutputFormatter Stdout tag;
                    HtmlOutputFormatter s metadata reset upload browser label tag]).
Proof.
  unfold make_formatters.
  intros (v & st1 & [Hv ->]%getattr_Return & H)%run_bind_Return.
  destruct (decide (v = PStr "none")) as [->|?].
  { injection H as <- <-. split; [done |]. exists "none".
    repeat split; try done; try (by intros [=]).
    repeat first [apply list_elem_of_here | apply list_elem_of_further]. }
  destruct (decide (v = PStr "csv")) as [->|?].
  { injection H as <- <-. split; [done |]. exists "csv".
    repeat split; try done; try (by intros [=]); try (by intros [[=]|[=]]).
    repeat first [apply list_elem_of_here | apply list_elem_of_further]. }
  destruct (decide (v = PStr "buildbot")) as [->|?].
  { apply run_bind_Return in H as (tag & ? & [Htag ->]%getattr_Return & H).
    injection H as <- <-. split; [done |]. exists "buildbot".
    repeat split; try done; try (by intros [=]); try (by intros [[=]|[=]]).
    - repeat first [apply list_elem_of_here | apply list_elem_of_further].
    - intros _. by exists tag. }
  destruct (decide (v = PStr "gtest")) as [->|?].
  { injection H as <- <-. split; [done |]. exists "gtest".
    repeat split; try done; try (by intros [=]).
    repeat first [apply list_elem_of_here | apply list_elem_of_further]. }
  destruct (decide (v = PStr "html")) as [->|?].
  { apply run_bind_Return in H as (tag & ? & [Htag ->]%getattr_Return & H).
    apply run_bind_Return in H as (reset & ? & [Hreset ->]%getattr_Return & H).
    apply run_bind_Return in H as (upload & ? & [Hupload ->]%getattr_Return & H).
    apply run_bind_Return in H as (browser & ? & [Hbrowser ->]%getattr_Return & H).
    apply run_bind_Return in H as (label & ? & [Hlabel ->]%getattr_Return & H).
    apply run_bind_Return in H as (tag' & ? & [Htag' ->]%getattr_Return & H).
    rewrite Htag in Htag'. injection Htag' as <-.
    injection H as <- <-. split; [done |]. exists "html".
    repeat split; try done; try (by intros [=]); try (by intros [[=]|[=]]).
    - repeat first [apply list_elem_of_here | apply list_elem_of_further].
    - intros _. by exists tag, reset, upload, browser, label. }
  destruct (decide (v = PStr "json")) as [->|?]; [| done].
  injection H as <- <-. split; [done |]. exists "json".
  repeat split; try done; try (by intros [=]); try (by intros [[=]|[=]]).
  repeat first [apply list_elem_of_here | apply list_elem_of_further].
Qed.

Lemma make_reporter_Return summary st r st' :
  make_reporter summary st = (Return r, st') →
  st' = st
  ∧ ∃ v, suppress_gtest_report (opts st) = Some v
         ∧ r = if truthy v then ProgressReporter
               else GTestProgressReporter Stdout summary.
Proof.
  unfold make_reporter.
  intros (v & st1 & [Hv ->]%getattr_Return & H)%run_bind_Return.
  split; [by destruct (truthy v); injection H as _ <- |].
  exists v. split; [done |]. by destruct (truthy v); injection H as <- _.
Qed.

Lemma os_path_join_not_empty a b : b ≠ "" → os_path_join a b ≠ "".
Proof.
  intros Hb Heq. apply (f_equal String.length) in Heq. unfold os_path_join in Heq.
  destruct b as [|c b]; [done |].
  destruct (startswith "/" (String c b)); [done |].
  destruct (bool_decide (a = "") || endswith "/" a);
    rewrite ?PyStrFacts.str_length_app in Heq; simpl in Heq; lia.
Qed.

(** X19: an options object without the attribute [output_format] gets no
    default: the first line reads the attribute, so the call ends with
    [AttributeError] before it has changed the options or opened a file. *)
Theorem missing_output_format_raises (metadata : Metadata) st :
  output_format (opts st) = None →
  CreateResults h metadata st = (Raise (AttributeError "output_format"), st).
Proof.
  intros Hformat. unfold CreateResults, default_output_file, format_without_file.
  rewrite !run_bind. unfold getattr at 1. by rewrite Hformat.
Qed.

(** A call that returns, taken apart: the format, the reporter, the
    stream and the files opened, the formatters. *)
Lemma CreateResults_Return (metadata : Metadata) st r st' :
  CreateResults h metadata st = (Return r, st') →
  ∃ format suppress s,
    output_format (opts st) = Some (PStr format)
    ∧ format ∈ ["html"; "buildbot"; "csv"; "gtest"; "json"; "none"]
    ∧ suppress_gtest_report (opts st) = Some suppress
    ∧ progress_reporter r
      = (if truthy suppress then ProgressReporter
         else GTestProgressReporter Stdout (negb (bool_decide (format = "gtest"))))
    ∧ ((s = Stdout ∧ opened st' = opened st
        ∧ default_name (PStr format) = None
        ∧ ∀ file, output_file (opts st) = Some file → truthy file = false)
       ∨ (∃ file, s = FileStream (expanduser h file)
            ∧ opened st' = opened st ++ [expanduser h file]
            ∧ ((output_file (opts st) = Some (PStr file) ∧ file ≠ "")
               ∨ (∃ name named,
                    default_name (PStr format) = Some name
                    ∧ output_file (opts st) = Some named ∧ truthy named = false
                    ∧ file = os_path_join (GetBaseDir h) name))))
    ∧ (format = "none" ∨ format = "gtest" → output_formatters r = [])
    ∧ (format = "csv" → output_formatters r = [CsvOutputFormatter s])
    ∧ (format = "json" → output_formatters r = [JsonOutputFormatter s metadata])
    ∧ (format = "buildbot" →
       output_formatters r
       = [BuildbotOutputFormatter s (default (PStr "") (output_trace_tag (opts st)))])
    ∧ (format = "html" →
       ∃ reset upload browser label,
         reset_results (opts st) = Some reset
         ∧ upload_results (opts st) = Some upload
         ∧ browser_type (opts st) = Some browser
         ∧ results_label (opts st) = Some label
         ∧ output_formatters r
           = [BuildbotOutputFormatter Stdout
                (default (PStr "") (output_trace_tag (opts st)));
              HtmlOutputFormatter s metadata reset upload browser label
                (default (PStr "") (output_trace_tag (opts st)))]).
Proof.
  unfold CreateResults.
  intros (? & st1 & [Hopen1 (v & Hv & H1)]%default_output_file_Return & H)
    %run_bind_Return.
  apply run_bind_Return in H
    as (s & st2 & [Hopts2 H2]%open_output_stream_Return & H).
  apply run_bind_Return in H as (? & st3 & H3 & H).
  apply run_bind_Return in H
    as ([fs summary] & st4 & [-> (format & Hf & Hin & Hsum & Hfs)]
          %make_formatters_Return & H).
  apply run_bind_Return in H
    as (rep & st5 & [-> (suppress & Hsup & ->)]%make_reporter_Return & H).
  injection H as <- <-. cbn [snd fst] in Hsum, Hfs. subst summary.
  cbn [output_formatters progress_reporter].
  (* the attributes after the first three blocks, in terms of the first *)
  assert (output_format (opts st2) = Some v
          ∧ output_trace_tag (opts st2) = output_trace_tag (opts st)
          ∧ suppress_gtest_report (opts st2) = suppress_gtest_report (opts st)
          ∧ reset_results (opts st2) = reset_results (opts st)
          ∧ upload_results (opts st2) = upload_results (opts st)
          ∧ browser_type (opts st2) = browser_type (opts st)
          ∧ results_label (opts st2) = results_label (opts st))
    as (Hf2 & Ht2 & Hs2 & Hr2 & Hu2 & Hb2 & Hl2).
  { rewrite Hopts2. destruct H1 as [[-> _]|(name & named & _ & _ & _ & ->)]; done. }
  destruct (default_attributes_Return _ _ _ v H3 Hf2) as (Hopen3 & Hopts3 & Htag3).
  assert (output_format (opts st3) = Some v
          ∧ suppress_gtest_report (opts st3) = suppress_gtest_report (opts st)
          ∧ reset_results (opts st3) = reset_results (opts st)
          ∧ upload_results (opts st3) = upload_results (opts st)
          ∧ browser_type (opts st3) = browser_type (opts st)
          ∧ results_label (opts st3) = results_label (opts st))
    as (Hf3 & Hs3 & Hr3 & Hu3 & Hb3 & Hl3).
  { destruct Hopts3 as [-> | ->]; done. }
  rewrite Ht2 in Htag3. rewrite Hf3 in Hf. injection Hf as ->.
  rewrite Hs3 in Hsup. rewrite Htag3, Hr3, Hu3, Hb3, Hl3 in Hfs.
  destruct Hfs as (Hnone & Hcsv & Hjson & Hbuildbot & Hhtml).
  exists format, suppress, s. split; [done |]. split; [done |].
  split; [done |]. split; [done |]. split.
  - rewrite Hopen3. destruct H2 as [(-> & Hopen2 & Hnofile)|(file & Hfile & Hne & -> & Hopen2)].
    + left. split; [done |]. split; [congruence |].
      destruct H1 as [[Hsame Hdefault]|(name & named & Hname & _ & _ & Hset)].
      * rewrite Hsame in Hnofile. split; [| done].
        destruct (default_name (PStr format)) as [name|] eqn:Hname; [| done].
        destruct (Hdefault name eq_refl) as (file & Hfile & Htruthy).
        by rewrite (Hnofile file Hfile) in Htruthy.
      * exfalso. rewrite Hset in Hnofile.
        specialize (Hnofile _ eq_refl). cbn [truthy] in Hnofile.
        apply negb_false_iff, bool_decide_eq_true in Hnofile.
        apply os_path_join_not_empty in Hnofile; [done |].
        unfold default_name in Hname. by repeat case_decide; simplify_eq.
    + right. exists file. split; [done |]. split; [congruence |].
      destruct H1 as [[Hsame _]|(name & named & Hname & Hnamed & Hfalsy & Hset)].
      * left. by rewrite <- Hsame.
      * right. exists name, named. rewrite Hset in Hfile. cbn in Hfile.
        injection Hfile as <-. done.
  - split; [done |]. split; [done |]. split; [done |]. split.
    + intros Hb. destruct (Hbuildbot Hb) as (tag & [= <-] & ->). done.
    + intros Hh.
      destruct (Hhtml Hh)
        as (tag & reset & upload & browser & label & [= <-] & ? & ? & ? & ? & ->).
      by exists reset, upload, browser, label.
Qed.

(** X20: the formats that give results, and the reporter. A call that
    returns was made with one of the formats [html], [buildbot], [csv],
    [gtest], [json] and [none], as a string. Its reporter is the plain one
    when [suppress_gtest_report] holds a true value, which any string but
    the empty one is; otherwise it is the gtest reporter on the standard
    output, which sums up the skipped tests unless the format is [gtest]. *)
Theorem returns_only_for_six_formats (metadata : Metadata) st r st' :
  CreateResults h metadata st = (Return r, st') →
  ∃ format suppress,
    output_format (opts st) = Some (PStr format)
    ∧ format ∈ ["html"; "buildbot"; "csv"; "gtest"; "json"; "none"]
    ∧ suppress_gtest_report (opts st) = Some suppress
    ∧ progress_reporter r
      = if truthy suppress then ProgressReporter
        else GTestProgressReporter Stdout (negb (bool_decide (format = "gtest"))).
Proof.
  intros (format & suppress & s & Hf & Hin & Hs & Hr & _)%CreateResults_Return.
  by exists format, suppress.
Qed.

(** X21: the format [block]. It is one of the choices the parser offers,
    and no call with it returns; when no output file is named the call ends
    with the exception for an invalid format, whose text lists [block]
    among the valid choices. *)
Theorem block_is_offered_but_refused (metadata : Metadata) st :
  output_format (opts st) = Some (PStr "block") →
  "block" ∈ _OUTPUT_FORMAT_CHOICES
  ∧ (∃ e, (CreateResults h metadata st).1 = Raise e)
  ∧ (output_file (opts st) = None ∨ output_file (opts st) = Some PNone →
     (CreateResults h metadata st).1
     = Raise (Exception (invalid_format_message (PStr "block")))).
Proof.
  intros Hformat. split; [| split].
  - unfold _OUTPUT_FORMAT_CHOICES.
    repeat first [apply list_elem_of_here | apply list_elem_of_further].
  - destruct (CreateResults h metadata st) as [[r|e] st'] eqn:Hrun; [| by exists e].
    apply CreateResults_Return in Hrun as (format & _ & _ & Hf & Hin & _).
    rewrite Hformat in Hf. injection Hf as <-. exfalso.
    repeat (apply elem_of_cons in Hin as [Hin|Hin]; [discriminate Hin |]).
    by apply elem_of_nil in Hin.
  - destruct st as [[format file tag reset upload browser label suppress] files].
    cbn [opts output_format output_file] in *. subst format.
    intros [->| ->]; by destruct tag.
Qed.

(** X22: the format [html]. A call that returns gives two formatters: the
    buildbot formatter on the standard output, then the html formatter on
    a file that the call has opened; the file is [results.html] in the base
    directory when the options name none. *)
Theorem html_formatters (metadata : Metadata) st r st' :
  CreateResults h metadata st = (Return r, st') →
  output_format (opts st) = Some (PStr "html") →
  ∃ file reset upload browser label,
    output_formatters r
    = [BuildbotOutputFormatter Stdout (default (PStr "") (output_trace_tag (opts st)));
       HtmlOutputFormatter (FileStream (expanduser h file)) metadata reset upload
         browser label (default (PStr "") (output_trace_tag (opts st)))]
    ∧ opened st' = opened st ++ [expanduser h file]
    ∧ (∀ named, output_file (opts st) = Some named → truthy named = false →
       file = os_path_join (GetBaseDir h) "results.html").
Proof.
  intros (format & suppress & s & Hf & _ & _ & _ & Hstream & _ & _ & _ & _ & Hhtml)
    %CreateResults_Return Hformat.
  rewrite Hformat in Hf. injection Hf as <-.
  destruct (Hhtml eq_refl) as (reset & upload & browser & label & _ & _ & _ & _ & ->).
  destruct Hstream as [(_ & _ & Hname & _)|(file & -> & Hopened & Hfile)];
    [discriminate Hname |].
  exists file, reset, upload, browser, label. split; [done |]. split; [done |].
  intros named Hnamed Hfalsy.
  destruct Hfile as [[Hfile Hne]|(name & named' & Hname & _ & _ & ->)].
  - rewrite Hfile in Hnamed. injection Hnamed as <-. cbn [truthy] in Hfalsy.
    apply negb_false_iff, bool_decide_eq_true in Hfalsy. done.
  - by injection Hname as <-.
Qed.

(** X23: the format [json]. A call that returns gives the json formatter
    on a file that the call has opened, [results.json] in the base directory
    when the options name none. *)
Theorem json_formatter (metadata : Metadata) st r st' :
  CreateResults h metadata st = (Return r, st') →
  output_format (opts st) = Some (PStr "json") →
  ∃ file,
    output_formatters r = [JsonOutputFormatter (FileStream (expanduser h file)) metadata]
    ∧ opened st' = opened st ++ [expanduser h file]
    ∧ (∀ named, output_file (opts st) = Some named → truthy named = false →
       file = os_path_join (GetBaseDir h) "results.json").
Proof.
  intros (format & suppress & s & Hf & _ & _ & _ & Hstream & _ & _ & Hjson & _)
    %CreateResults_Return Hformat.
  rewrite Hformat in Hf. injection Hf as <-. rewrite (Hjson eq_refl).
  destruct Hstream as [(_ & _ & Hname & _)|(file & -> & Hopened & Hfile)];
    [discriminate Hname |].
  exists file. split; [done |]. split; [done |].
  intros named Hnamed Hfalsy.
  destruct Hfile as [[Hfile Hne]|(name & named' & Hname & _ & _ & ->)].
  - rewrite Hfile in Hnamed. injection Hnamed as <-. cbn [truthy] in Hfalsy.
    apply negb_false_iff, bool_decide_eq_true in Hfalsy. done.
  - by injection Hname as <-.
Qed.

(** X24: the standard output. For the formats [csv] and [buildbot], with
    options that name no output file, a call that returns has opened no
    file and gives the one formatter of the format, on the standard
    output. *)
Theorem stdout_without_file (metadata : Metadata) st r st' format :
  CreateResults h metadata st = (Return r, st') →
  output_format (opts st) = Some (PStr format) →
  format = "csv" ∨ format = "buildbot" →
  (∀ named, output_file (opts st) = Some named → truthy named = false) →
  opened st' = opened st
  ∧ output_formatters r
    = if decide (format = "csv") then [CsvOutputFormatter Stdout]
      else [BuildbotOutputFormatter Stdout
              (default (PStr "") (output_trace_tag (opts st)))].
Proof.
  intros (format' & suppress & s & Hf & _ & _ & _ & Hstream & _ & Hcsv & _ & Hbb & _)
    %CreateResults_Return Hformat Hwhich Hnofile.
  rewrite Hformat in Hf. injection Hf as <-.
  destruct Hstream as [(-> & Hopened & _)|(file & _ & _ & Hfile)].
  - split; [done |]. destruct Hwhich as [-> | ->].
    + by rewrite (Hcsv eq_refl).
    + by rewrite (Hbb eq_refl).
  - exfalso. destruct Hfile as [[Hfile Hne]|(name & _ & Hname & _)].
    + specialize (Hnofile _ Hfile). cbn [truthy] in Hnofile.
      apply negb_false_iff, bool_decide_eq_true in Hnofile. done.
    + by destruct Hwhich as [-> | ->].
Qed.

(** X25: what a call does to the options object it was given. A call that
    returns leaves every attribute as it was, but for two: the trace tag,
    which is the empty string when the object had none, and the output
    file, which is set only when the format has a default file and the
    object named none. *)
Theorem options_after_call (metadata : Metadata) st r st' :
  CreateResults h metadata st = (Return r, st') →
  ∃ file',
    opts st'
    = Options (output_format (opts st)) file'
        (Some (default (PStr "") (output_trace_tag (opts st))))
        (reset_results (opts st)) (upload_results (opts st))
        (browser_type (opts st)) (results_label (opts st))
        (suppress_gtest_report (opts st))
    ∧ (file' = output_file (opts st)
       ∨ ∃ format name named,
           output_format (opts st) = Some format
           ∧ default_name format = Some name
           ∧ output_file (opts st) = Some named ∧ truthy named = false
           ∧ file' = Some (PStr (os_path_join (GetBaseDir h) name))).
Proof.
  unfold CreateResults.
  intros (? & st1 & [Hopen1 (v & Hv & H1)]%default_output_file_Return & H)
    %run_bind_Return.
  apply run_bind_Return in H
    as (s & st2 & [Hopts2 H2]%open_output_stream_Return & H).
  apply run_bind_Return in H as (? & st3 & H3 & H).
  apply run_bind_Return in H
    as ([fs summary] & st4 & [-> _]%make_formatters_Return & H).
  apply run_bind_Return in H as (rep & st5 & [-> _]%make_reporter_Return & H).
  injection H as _ <-.
  assert (output_format (opts st2) = Some v) as Hf2.
  { rewrite Hopts2. destruct H1 as [[-> _]|(name & named & _ & _ & _ & ->)]; done. }
  destruct (default_attributes_Return _ _ _ v H3 Hf2) as (_ & Hopts3 & Htag3).
  rewrite Hopts2 in Hopts3, Htag3. clear Hopts2 H2 H3 Hf2.
  exists (output_file (opts st1)). split.
  - assert (opts st1 = opts st
            ∨ ∃ file, opts st1 = set_output_file file (opts st)) as Hopts1.
    { destruct H1 as [[-> _]|(name & named & _ & _ & _ & ->)]; eauto. }
    clear H1 Hv Hopen1. revert Hopts1 Hopts3 Htag3.
    generalize (opts st1), (opts st3).
    destruct (opts st) as [format file tag reset upload browser label suppress].
    intros o1 o3 [-> | [file1 ->]] [-> | ->];
      unfold set_output_file, set_output_trace_tag;
      cbn [output_format output_file output_trace_tag reset_results
           upload_results browser_type results_label suppress_gtest_report];
      congruence.
  - destruct H1 as [[-> _]|(name & named & Hname & Hnamed & Hfalsy & ->)];
      [by left |].
    right. by exists v, name, named.
Qed.

(** X26: a file that cannot be opened. When the options name a file and
    opening it fails, the call ends with the error of [open], for the file
    with the user's directory expanded, and has changed nothing. *)
Theorem output_file_not_opened (metadata : Metadata) st format file :
  output_format (opts st) = Some format →
  output_file (opts st) = Some (PStr file) →
  file ≠ "" →
  can_open h (expanduser h file) = false →
  CreateResults h metadata st = (Raise (IOError (expanduser h file)), st).
Proof.
  intros Hformat Hfile Hne Hopen.
  assert (truthy (PStr file) = true) as Htruthy.
  { cbn [truthy]. by rewrite bool_decide_eq_false_2. }
  assert (∀ name, format_without_file name st = (Return false, st)) as Hwithout.
  { intros name. unfold format_without_file. rewrite run_bind.
    unfold getattr at 1. rewrite Hformat. destruct (decide _); [| done].
    rewrite run_bind. unfold getattr. rewrite Hfile.
    unfold mret, Run_ret. by rewrite Htruthy. }
  unfold CreateResults, default_output_file.
  rewrite !run_bind, Hwithout, run_bind, Hwithout.
  unfold mret at 1, Run_ret at 1. unfold open_output_stream, hasattr.
  rewrite !run_bind.
  rewrite (bool_decide_eq_true_2 (is_Some (output_file (opts st))))
    by (rewrite Hfile; eauto).
  rewrite run_bind. unfold getattr. rewrite Hfile, Htruthy.
  unfold open_output. by rewrite Hopen.
Qed.

End Results.

Lemma missing_output_format_raises_witness :
  output_format (opts (start bare_options)) = None
  ∧ CreateResults sample_host tt (start bare_options)
    = (Raise (AttributeError "output_format"), start bare_options).
Proof.
  split; [reflexivity |].
  apply (missing_output_format_raises sample_host tt (start bare_options)).
  reflexivity.
Defined.

Lemma returns_only_for_six_formats_witness :
  ∃ r st',
    sample_results "gtest" = (Return r, st')
    ∧ ∃ format suppress,
        output_format (parsed_options "gtest") = Some (PStr format)
        ∧ format ∈ ["html"; "buildbot"; "csv"; "gtest"; "json"; "none"]
        ∧ suppress_gtest_report (parsed_options "gtest") = Some suppress
        ∧ progress_reporter r
          = if truthy suppress then ProgressReporter
            else GTestProgressReporter Stdout (negb (bool_decide (format = "gtest"))).
Proof.
  eexists _, _. split; [vm_compute; reflexivity |].
  apply (returns_only_for_six_formats sample_host tt (start (parsed_options "gtest"))
           _ (start (parsed_options "gtest"))).
  vm_compute. reflexivity.
Defined.

Lemma block_is_offered_but_refused_witness :
  "block" ∈ _OUTPUT_FORMAT_CHOICES
  ∧ (∃ e, (sample_results "block").1 = Raise e)
  ∧ (output_file (parsed_options "block") = None
     ∨ output_file (parsed_options "block") = Some PNone →
     (sample_results "block").1
     = Raise (Exception (invalid_format_message (PStr "block")))).
Proof.
  apply (block_is_offered_but_refused sample_host tt (start (parsed_options "block"))).
  reflexivity.
Defined.

Lemma html_formatters_witness :
  ∃ r st',
    sample_results "html" = (Return r, st')
    ∧ ∃ file reset upload browser label,
        output_formatters r
        = [BuildbotOutputFormatter Stdout (PStr "");
           HtmlOutputFormatter (FileStream file) tt reset upload browser label
             (PStr "")]
        ∧ opened st' = [file]
        ∧ (∀ named, output_file (parsed_options "html") = Some named →
           truthy named = false → file = "/telemetry/results.html").
Proof.
  eexists _, _. split; [vm_compute; reflexivity |].
  apply (html_formatters sample_host tt (start (parsed_options "html")) _ _);
    vm_compute; reflexivity.
Defined.

Lemma json_formatter_witness :
  ∃ r st',
    sample_results "json" = (Return r, st')
    ∧ ∃ file,
        output_formatters r = [JsonOutputFormatter (FileStream file) tt]
        ∧ opened st' = [file]
        ∧ (∀ named, output_file (parsed_options "json") = Some named →
           truthy named = false → file = "/telemetry/results.json").
Proof.
  eexists _, _. split; [vm_compute; reflexivity |].
  apply (json_formatter sample_host tt (start (parsed_options "json")) _ _);
    vm_compute; reflexivity.
Defined.

Lemma stdout_without_file_witness :
  ∃ r st',
    sample_results "buildbot" = (Return r, st')
    ∧ opened st' = []
    ∧ output_formatters r = [BuildbotOutputFormatter Stdout (PStr "")].
Proof.
  eexists _, _. split; [vm_compute; reflexivity |].
  apply (stdout_without_file sample_host tt (start (parsed_options "buildbot"))
           _ _ "buildbot").
  - vm_compute. reflexivity.
  - reflexivity.
  - right. reflexivity.
  - intros named [= <-]. reflexivity.
Defined.

Lemma options_after_call_witness :
  ∃ r st' file',
    sample_results "html" = (Return r, st')
    ∧ opts st'
      = Options (Some (PStr "html")) file' (Some (PStr "")) (Some PNone)
          (Some PNone) (Some (PStr "release")) (Some PNone) (Some (PBool false))
    ∧ (file' = Some PNone
       ∨ ∃ format name named,
           Some (PStr "html") = Some format
           ∧ default_name format = Some name
           ∧ Some PNone = Some named ∧ truthy named = false
           ∧ file' = Some (PStr (os_path_join "/telemetry" name))).
Proof.
  eexists _, _.
  destruct (options_after_call sample_host tt (start (parsed_options "html"))
              _ _ eq_refl) as [file' H].
  exists file'. split; [reflexivity | exact H].
Defined.

Lemma output_file_not_opened_witness :
  CreateResults (Host "/telemetry" (λ file, file) (λ _, false)) tt
    (start (set_output_file (PStr "out.csv") (parsed_options "csv")))
  = (Raise (IOError "out.csv"),
     start (set_output_file (PStr "out.csv") (parsed_options "csv"))).
Proof.
  apply (output_file_not_opened (Host "/telemetry" (λ file, file) (λ _, false)) tt
           (start (set_output_file (PStr "out.csv") (parsed_options "csv")))
           (PStr "csv") "out.csv"); [reflexivity | reflexivity | | reflexivity].
  intros Heq. discriminate Heq.
Defined.

End ResultsOptionsFacts.
